(** * vsdx_shrinker.core

    A shallow embedding of [src/vsdx_shrinker/core.py] and the properties of
    its analysis and pruning engine, followed by the command line of
    [src/vsdx_shrinker/cli.py] from the parsed arguments on.

    Conventions of the embedding.
    - A Python [str] is a [string]; its characters stand for the code points
      U+0000..U+00FF, compared and ordered by code point.
    - A Python [dict] is an association list in insertion order whose keys are
      unique; assigning to a key already present keeps its position.
    - A Python [set] of strings is a duplicate-free list; the order in which a
      run iterates over a set, and the order in which a directory is listed,
      are not fixed by the language: both are supplied by a [Runtime].
    - An [Element] is an object of [xml.etree.ElementTree]: it carries the
      identity [oid] of the object next to its tag, attributes and children.
      Text and tail are never read by the program and are left out.
    - The extracted archive is a flat table from relative paths to files; a
      path is looked up as written ([..], absolute targets and links are not
      interpreted).
    - The host file system is a table from path strings to regular files and
      zip archives.  Which directories exist besides those that hold a file
      of the table, and whether two spellings name one file, are supplied by
      the [Runtime]; [shutil.copy2] and [shutil.move] are refused
      accordingly.  Two path strings that differ only in the file name are
      different files.  A destination that is an existing directory, links,
      and failures of the device (permissions, a full disk) are not
      modelled.
    - Exceptions are values of [Exn]; a computation that touches the file
      system is a function from [World] to a result and a new [World]. *)

From Stdlib Require Import String Ascii List ZArith Bool Arith Lia.
From Stdlib Require Import DecimalString.
From Stdlib Require Import Permutation Sorted OrdersEx.
Import ListNotations.
#[local] Set Warnings "-register-all".
Local Open Scope list_scope.
Local Open Scope string_scope.

(** ** Characters and strings *)

Definition dquote : ascii := "034"%char.
Definition squote : ascii := "039"%char.
Definition newline : ascii := "010"%char.

Definition str (c : ascii) : string := String c EmptyString.

Definition nonempty (s : string) : bool :=
  match s with EmptyString => false | String _ _ => true end.

(** [x or y] on strings: the first operand unless it is empty. *)
Definition str_or (x y : string) : string := if nonempty x then x else y.

Definition in_range (lo hi : nat) (c : ascii) : bool :=
  Nat.leb lo (nat_of_ascii c) && Nat.leb (nat_of_ascii c) hi.

(** [\d] on the code points below 256. *)
Definition is_digit (c : ascii) : bool := in_range 48 57 c.

(** [\w] on the code points below 256: letters, digits, numerics and [_]. *)
Definition is_word (c : ascii) : bool :=
  in_range 48 57 c || in_range 65 90 c || in_range 97 122 c
  || Ascii.eqb c "_"%char
  || Ascii.eqb c "170"%char || Ascii.eqb c "178"%char || Ascii.eqb c "179"%char
  || Ascii.eqb c "181"%char || Ascii.eqb c "185"%char || Ascii.eqb c "186"%char
  || in_range 188 190 c || in_range 192 214 c || in_range 216 246 c
  || in_range 248 255 c.

Definition is_quote (c : ascii) : bool := Ascii.eqb c dquote || Ascii.eqb c squote.

(** [str.lower] on the code points that matter for comparing with [".vsdx"]. *)
Definition lower_char (c : ascii) : ascii :=
  if in_range 65 90 c then ascii_of_nat (nat_of_ascii c + 32) else c.

Fixpoint lower (s : string) : string :=
  match s with
  | EmptyString => EmptyString
  | String c r => String (lower_char c) (lower r)
  end.

(** [s] without the prefix [p], when [s] starts with [p]. *)
Fixpoint strip_prefix (p s : string) : option string :=
  match p, s with
  | EmptyString, _ => Some s
  | String a p', String b s' => if Ascii.eqb a b then strip_prefix p' s' else None
  | String _ _, EmptyString => None
  end.

Definition startswith (s p : string) : bool :=
  match strip_prefix p s with Some _ => true | None => false end.

Fixpoint rev_string (s : string) : string :=
  match s with
  | EmptyString => EmptyString
  | String c r => rev_string r ++ str c
  end.

Definition endswith (s p : string) : bool := startswith (rev_string s) (rev_string p).

Fixpoint contains_char (c : ascii) (s : string) : bool :=
  match s with
  | EmptyString => false
  | String a r => Ascii.eqb a c || contains_char c r
  end.

(** The longest prefix of [s] whose characters satisfy [p], and the rest. *)
Fixpoint span (p : ascii -> bool) (s : string) : string * string :=
  match s with
  | EmptyString => (EmptyString, EmptyString)
  | String c r =>
      if p c then let (a, b) := span p r in (String c a, b)
      else (EmptyString, s)
  end.

(** [s.strip(c)] for a single character [c]. *)
Fixpoint lstrip (c : ascii) (s : string) : string :=
  match s with
  | EmptyString => EmptyString
  | String a r => if Ascii.eqb a c then lstrip c r else s
  end.

Definition strip (c : ascii) (s : string) : string :=
  rev_string (lstrip c (rev_string (lstrip c s))).

(** [", ".join(l)] and friends. *)
Fixpoint join (sep : string) (l : list string) : string :=
  match l with
  | [] => EmptyString
  | [x] => x
  | x :: r => x ++ sep ++ join sep r
  end.

(** ** dict and set *)

Definition dict (V : Type) : Type := list (string * V).

Section Dict.
Context {V : Type}.

Fixpoint dict_get (d : dict V) (k : string) : option V :=
  match d with
  | [] => None
  | (k', v) :: r => if String.eqb k' k then Some v else dict_get r k
  end.

(** [d[k] = v] *)
Fixpoint dict_set (d : dict V) (k : string) (v : V) : dict V :=
  match d with
  | [] => [(k, v)]
  | (k', v') :: r =>
      if String.eqb k' k then (k, v) :: r else (k', v') :: dict_set r k v
  end.

(** [d.pop(k, None)]: the table without the key [k] *)
Definition dict_del (d : dict V) (k : string) : dict V :=
  filter (fun item : string * V => negb (String.eqb (fst item) k)) d.

Definition keys (d : dict V) : list string := map fst d.

Definition dict_mem (k : string) (d : dict V) : bool :=
  match dict_get d k with Some _ => true | None => false end.

(** [d.get(k, default)] *)
Definition get_default (d : dict V) (k : string) (default : V) : V :=
  match dict_get d k with Some v => v | None => default end.
End Dict.

Definition pyset : Type := list string.

Definition set_mem (x : string) (s : pyset) : bool :=
  existsb (String.eqb x) s.

Definition set_add (s : pyset) (x : string) : pyset :=
  if set_mem x s then s else (s ++ [x])%list.

Definition set_update (s : pyset) (l : list string) : pyset :=
  fold_left set_add l s.

(** [set(l)] *)
Definition set_of (l : list string) : pyset := set_update [] l.

(** [a - b] *)
Definition set_diff (a b : pyset) : pyset :=
  filter (fun x => negb (set_mem x b)) a.

(** [a & b] *)
Definition set_inter (a b : pyset) : pyset :=
  filter (fun x => set_mem x b) a.

(** [sorted] on strings: insertion into the ordered result, by code point. *)
Fixpoint insert_sorted (x : string) (l : list string) : list string :=
  match l with
  | [] => [x]
  | y :: r => if String.leb x y then x :: l else y :: insert_sorted x r
  end.

Definition sorted (l : list string) : list string :=
  fold_right insert_sorted [] l.

(** ** XML documents and ElementTree objects *)

Definition VISIO_NS := "http://schemas.microsoft.com/office/visio/2012/main".
Definition REL_NS := "http://schemas.openxmlformats.org/officeDocument/2006/relationships".
Definition PKG_REL_NS := "http://schemas.openxmlformats.org/package/2006/relationships".

(** A tag in Clark notation, [{uri}local]. *)
Definition qname (ns local : string) : string := "{" ++ ns ++ "}" ++ local.

(** A document as stored in a file. *)
Inductive Xml : Type :=
  XNode (xtag : string) (xattrib : dict string) (xchildren : list Xml).

Definition xtag (x : Xml) : string := match x with XNode t _ _ => t end.
Definition xattrib (x : Xml) : dict string := match x with XNode _ a _ => a end.
Definition xchildren (x : Xml) : list Xml := match x with XNode _ _ c => c end.

(** A parsed element object. *)
Inductive Element : Type :=
  Elem (oid : nat) (tag : string) (attrib : dict string) (children : list Element).

Definition oid (e : Element) : nat := match e with Elem i _ _ _ => i end.
Definition tag (e : Element) : string := match e with Elem _ t _ _ => t end.
Definition attrib (e : Element) : dict string := match e with Elem _ _ a _ => a end.
Definition children (e : Element) : list Element := match e with Elem _ _ _ c => c end.

(** [ET.parse]: one fresh object per node, numbered in document order. *)
Fixpoint build (x : Xml) (n : nat) : Element * nat :=
  match x with
  | XNode t a cs =>
      let fix build_all (l : list Xml) (n : nat) : list Element * nat :=
        match l with
        | [] => ([], n)
        | c :: r =>
            let (c', n1) := build c n in
            let (r', n2) := build_all r n1 in
            (c' :: r', n2)
        end in
      let (cs', n') := build_all cs (S n) in
      (Elem n t a cs', n')
  end.

Definition fromxml (x : Xml) : Element := fst (build x 0).

(** What [ElementTree(root).write] serialises: the tree without identities. *)
Fixpoint toxml (e : Element) : Xml :=
  match e with
  | Elem _ t a cs => XNode t a (map toxml cs)
  end.

(** [element.iter()]: the element and its descendants in document order. *)
Fixpoint iter (e : Element) : list Element :=
  match e with
  | Elem _ _ _ cs => e :: flat_map iter cs
  end.

(** [element.findall('.//' + t)]: the proper descendants with tag [t]. *)
Definition findall (e : Element) (t : string) : list Element :=
  filter (fun d => String.eqb (tag d) t) (flat_map iter (children e)).

(** [element.find('.//' + t)] *)
Definition find (e : Element) (t : string) : option Element :=
  hd_error (findall e t).

(** [element.get(key, default)] *)
Definition get (e : Element) (key default : string) : string :=
  get_default (attrib e) key default.

(** [list.remove] on the children, comparing by identity. *)
Fixpoint remove_child (k : nat) (cs : list Element) : option (list Element) :=
  match cs with
  | [] => None
  | c :: r =>
      if Nat.eqb (oid c) k then Some r
      else option_map (cons c) (remove_child k r)
  end.

(** ** The two reference patterns *)

(** [USE\("([^"]+)"\)] tried at the start of [s]: the captured name and the
    length of the match. The class [[^"]] cannot consume the closing quote,
    so the greedy run is the only candidate. *)
Definition match_use (s : string) : option (string * nat) :=
  match strip_prefix ("USE(" ++ str dquote) s with
  | Some r =>
      let (name, r') := span (fun c => negb (Ascii.eqb c dquote)) r in
      if nonempty name && startswith r' (str dquote ++ ")")
      then Some (name, 5 + String.length name + 2)
      else None
  | None => None
  end.

(** [\b] between the character before the position and the one at it. *)
Definition word_boundary (prev : option ascii) (s : string) : bool :=
  xorb (match prev with Some c => is_word c | None => false end)
       (match s with String c _ => is_word c | EmptyString => false end).

(** [\bMaster=["\'](\d+)["\']] tried at the start of [s], [prev] being the
    character before it. *)
Definition match_master_attr (prev : option ascii) (s : string)
  : option (string * nat) :=
  if word_boundary prev s then
    match strip_prefix "Master=" s with
    | Some (String q r) =>
        if is_quote q then
          let (digits, r') := span is_digit r in
          match r' with
          | String q' _ =>
              if nonempty digits && is_quote q'
              then Some (digits, 8 + String.length digits + 1)
              else None
          | EmptyString => None
          end
        else None
    | _ => None
    end
  else None.

(** [pattern.findall(s)]: the pattern is tried at each position from left to
    right; after a match the search resumes behind it ([skip] counts the
    characters of the current match still to pass). *)
Fixpoint scan (m : option ascii -> string -> option (string * nat))
    (skip : nat) (prev : option ascii) (s : string) : list string :=
  match s with
  | EmptyString => []
  | String c r =>
      match skip with
      | S k => scan m k (Some c) r
      | O =>
          match m prev s with
          | Some (g, len) => g :: scan m (Nat.pred len) (Some c) r
          | None => scan m 0 (Some c) r
          end
      end
  end.

Definition use_pattern_findall (content : string) : list string :=
  scan (fun _ => match_use) 0 None content.

Definition master_attr_pattern_findall (content : string) : list string :=
  scan match_master_attr 0 None content.

(** ** Files, the extracted tree and the run-time environment *)

(** What the XML parser makes of a file. *)
Inductive Parsed : Type :=
| Malformed (why : string)
| WellFormed (doc : Xml).

(** A regular file: its size in bytes, its text when it is valid UTF-8, and
    its parse. *)
Record File : Type := mkFile {
  f_size : Z;
  f_text : option string;
  f_xml : Parsed
}.

Inductive Node : Type :=
| FileNode (f : File)
| DirNode (st_size : Z).

(** A directory tree: every file and directory by its path relative to the
    root of the tree. *)
Definition Tree : Type := dict Node.

Definition joinpath (d n : string) : string := d ++ "/" ++ n.

(** [path.name] *)
Fixpoint basename (p : string) : string :=
  match p with
  | EmptyString => EmptyString
  | String c r =>
      if contains_char "/"%char r then basename r
      else if Ascii.eqb c "/"%char then r else p
  end.

(** The directory part of a path: the text up to its last [/], that [/]
    included; empty for a bare name. *)
Fixpoint dir_prefix (p : string) : string :=
  match p with
  | EmptyString => EmptyString
  | String c r =>
      if contains_char "/"%char r || Ascii.eqb c "/"%char
      then String c (dir_prefix r)
      else EmptyString
  end.

(** [path.exists()] *)
Definition exists_ (t : Tree) (p : string) : bool := dict_mem p t.

Definition is_file (t : Tree) (p : string) : bool :=
  match dict_get t p with Some (FileNode _) => true | _ => false end.

(** The name of [k] when [k] lies directly in directory [d]. *)
Definition child_name (d k : string) : option string :=
  match strip_prefix (d ++ "/") k with
  | Some n => if nonempty n && negb (contains_char "/"%char n) then Some n else None
  | None => None
  end.

Definition listdir (t : Tree) (d : string) : list string :=
  flat_map (fun k => match child_name d k with Some n => [n] | None => [] end)
           (keys t).

(** [fnmatch] for a pattern of the form [pre*suf]. *)
Definition fnmatch (pre suf name : string) : bool :=
  startswith name pre && endswith name suf
  && Nat.leb (String.length pre + String.length suf) (String.length name).

(** The behaviour the program takes from its environment: the iteration
    order of sets and of directory listings (any order, but an order of the
    same elements), the XML serialiser (whose output parses back to the
    document written) and the size of the archive a tree compresses to.
    About the host file system it tells which directories exist besides
    those that hold a file of the host ([dir_exists], asked with the
    directory part of a path), whether two paths in different directory
    parts name one file ([same_file], as [os.path.samefile]), and the text
    of the error raised for a path whose directory is missing ([enoent]). *)
Record Runtime : Type := mkRuntime {
  set_iter : list string -> list string;
  set_iter_perm : forall s, Permutation (set_iter s) s;
  scandir : list string -> list string;
  scandir_perm : forall l, Permutation (scandir l) l;
  xml_write : Xml -> File;
  xml_write_parse : forall d, f_xml (xml_write d) = WellFormed d;
  zip_size : Tree -> Z;
  dir_exists : string -> bool;
  same_file : string -> string -> bool;
  enoent : string -> string
}.

(** [dir.glob(pre + '*' + suf)]: the names found. *)
Definition glob (rt : Runtime) (t : Tree) (d pre suf : string) : list string :=
  scandir rt (filter (fnmatch pre suf) (listdir t d)).

(** [repr] of a set of plain identifiers. *)
Definition set_repr (rt : Runtime) (s : pyset) : string :=
  "{" ++ join ", " (map (fun x => "'" ++ x ++ "'") (set_iter rt s)) ++ "}".

(** ** Exceptions and results *)

Inductive Exn : Type :=
| FileNotFoundError (msg : string)
| ValueError (msg : string)
| VsdxFormatError (msg : string)
| ParseError (msg : string)
| UnicodeDecodeError
| IsADirectoryError
| BadZipFile
| SameFileError (src dst : string).

Inductive Result (A : Type) : Type :=
| Ok (a : A)
| Raise (e : Exn).
Arguments Ok {A} a.
Arguments Raise {A} e.

Definition bindR {A B} (r : Result A) (k : A -> Result B) : Result B :=
  match r with Ok a => k a | Raise e => Raise e end.

Declare Scope result_scope.
Delimit Scope result_scope with result.
Notation "x <- r ;; k" := (bindR r (fun x => k))
  (at level 61, r at next level, right associativity) : result_scope.
Notation "' p <- r ;; k" := (bindR r (fun p => k))
  (at level 61, p pattern, r at next level, right associativity) : result_scope.

(** A float the program computes, kept as the expression that computes it. *)
Inductive PyFloat : Type :=
| Float0
| BytesToMb (size_bytes : Z)
| Percent (reduction original_size : Z).

(** [round(size_bytes / (1024 * 1024), 2)] *)
Definition _bytes_to_mb (size_bytes : Z) : PyFloat := BytesToMb size_bytes.

(** ** Locating and reading the documents *)

Record VsdxPaths : Type := mkVsdxPaths {
  root : string;
  pages_dir : string;
  masters_dir : string;
  masters_xml : string;
  rels_path : string
}.

(** Paths are relative to the extraction root, which is the root of the tree. *)
Definition _make_vsdx_paths : VsdxPaths :=
  let masters_dir := joinpath "visio" "masters" in
  {| root := "";
     pages_dir := joinpath "visio" "pages";
     masters_dir := masters_dir;
     masters_xml := joinpath masters_dir "masters.xml";
     rels_path := joinpath (joinpath masters_dir "_rels") "masters.xml.rels" |}.

Definition _get_namespace (element : Element) : string :=
  if contains_char "}"%char (tag element)
  then strip "{"%char (fst (span (fun c => negb (Ascii.eqb c "}"%char)) (tag element)))
  else "".

Definition _get_rel_id (rel_element : option Element) : string :=
  match rel_element with
  | None => ""
  | Some rel => str_or (get rel (qname REL_NS "id") "") (get rel "r:id" "")
  end.

Local Open Scope result_scope.

Inductive Encoding : Type := utf_8 | utf_8_sig.

(** [path.read_text(encoding)]. A byte-order mark is outside the range of
    characters of the embedding, so both encodings decode alike. *)
Definition read_text (t : Tree) (path : string) (encoding : Encoding)
  : Result string :=
  match dict_get t path with
  | Some (FileNode f) =>
      match f_text f with
      | Some s => Ok s
      | None => Raise UnicodeDecodeError
      end
  | Some (DirNode _) => Raise IsADirectoryError
  | None => Raise (FileNotFoundError path)
  end.

Definition _read_xml_file (t : Tree) (path : string) : Result string :=
  match read_text t path utf_8 with
  | Raise UnicodeDecodeError => read_text t path utf_8_sig
  | r => r
  end.

(** [ET.parse(path).getroot()] *)
Definition ET_parse (t : Tree) (path : string) : Result Element :=
  match dict_get t path with
  | Some (FileNode f) =>
      match f_xml f with
      | WellFormed doc => Ok (fromxml doc)
      | Malformed why => Raise (ParseError why)
      end
  | Some (DirNode _) => Raise IsADirectoryError
  | None => Raise (FileNotFoundError path)
  end.

Definition _parse_xml_file (t : Tree) (path : string) : Result Element :=
  match ET_parse t path with
  | Raise (ParseError e) =>
      Raise (VsdxFormatError ("Invalid XML in " ++ basename path ++ ": " ++ e))
  | r => r
  end.

Definition is_empty {A} (l : list A) : bool :=
  match l with [] => true | _ => false end.

(** [l.append(x)] and [l.extend(m)], as values. *)
Definition append {A} (l : list A) (x : A) : list A := (l ++ [x])%list.
Definition extend {A} (l m : list A) : list A := (l ++ m)%list.

Definition _get_page_files (rt : Runtime) (t : Tree) (pages_dir : string)
  : Result (list string) :=
  let pages_rels := joinpath (joinpath pages_dir "_rels") "pages.xml.rels" in
  page_files <-
    (if exists_ t pages_rels then
       match _parse_xml_file t pages_rels with
       | Ok root =>
           Ok (flat_map
                 (fun rel =>
                    let target := get rel "Target" "" in
                    if nonempty target then
                      let page_path := joinpath pages_dir target in
                      if exists_ t page_path then [page_path] else []
                    else [])
                 (findall root (qname PKG_REL_NS "Relationship")))
       | Raise (VsdxFormatError _) => Ok []
       | Raise e => Raise e
       end
     else Ok []) ;;
  if is_empty page_files
  then Ok (map (joinpath pages_dir) (glob rt t pages_dir "page" ".xml"))
  else Ok page_files.

(** ** Structural validation *)

Definition required_attrs : pyset := ["ID"; "NameU"].

(** The ids of the relationship index, as collected in step 4. *)
Definition collect_rels_ids (rels_root : Element) : pyset :=
  fold_left
    (fun rels_ids rel =>
       let rel_id := get rel "Id" "" in
       if nonempty rel_id then set_add rels_ids rel_id else rels_ids)
    (findall rels_root (qname PKG_REL_NS "Relationship")) [].

(** The message of step 5 for one catalog entry, if it has one. *)
Definition integrity_error (rels_ids : pyset) (master : Element) : list string :=
  match find master (qname VISIO_NS "Rel") with
  | Some rel =>
      let rel_id := _get_rel_id (Some rel) in
      if nonempty rel_id && negb (set_mem rel_id rels_ids) then
        let master_name := get master "NameU" (get master "ID" "unknown") in
        ["Master '" ++ master_name
           ++ "' references non-existent relationship: " ++ rel_id]
      else []
  | None => []
  end.

(** Step 1 of [_validate_vsdx_structure]: required files. *)
Definition check_required_files (t : Tree) (paths : VsdxPaths)
    (errors : list string) : list string :=
  let errors :=
    if negb (exists_ t (rels_path paths))
    then append errors ("Missing relationships file: " ++ basename (rels_path paths))
    else errors in
  if negb (exists_ t (pages_dir paths))
  then append errors "Missing pages directory"
  else errors.

(** Step 2: the namespace of the catalog. *)
Definition check_namespace (root : Element) (errors : list string)
  : list string :=
  let ns := _get_namespace root in
  if nonempty ns && negb (String.eqb ns VISIO_NS)
  then append errors ("Unexpected namespace: " ++ ns ++ str newline
                        ++ "    Expected: " ++ VISIO_NS)
  else errors.

(** Step 3: the shape of the first entry. *)
Definition check_sample (rt : Runtime) (masters : list Element)
    (errors : list string) : list string :=
  match masters with
  | sample :: _ =>
      let missing := set_diff required_attrs (set_of (keys (attrib sample))) in
      let errors :=
        if negb (is_empty missing)
        then append errors ("Master elements missing required attributes: "
                              ++ set_repr rt missing)
        else errors in
      (* Check Rel child element exists and uses expected namespace *)
      match find sample (qname VISIO_NS "Rel") with
      | None => append errors "Master elements missing Rel child element"
      | Some rel =>
          let rel_id_full_ns := qname REL_NS "id" in
          let has_full_ns := dict_mem rel_id_full_ns (attrib rel) in
          let has_prefixed := dict_mem "r:id" (attrib rel) in
          if negb has_full_ns && negb has_prefixed then
            let id_attrs :=
              filter (fun k => endswith k "}id" || String.eqb k "id")
                     (keys (attrib rel)) in
            match id_attrs with
            | a :: _ =>
                append errors ("Rel element uses unexpected namespace for id: "
                                 ++ a ++ str newline ++ "    Expected: " ++ REL_NS)
            | [] => append errors "Rel element missing r:id attribute"
            end
          else errors
      end
  | [] => errors
  end.

(** Step 4: the namespace of the relationship index, and its ids. *)
Definition check_rels_file (t : Tree) (paths : VsdxPaths)
    (errors : list string) : Result (list string * pyset) :=
  if exists_ t (rels_path paths) then
    rels_root <- _parse_xml_file t (rels_path paths) ;;
    let rels_ns := _get_namespace rels_root in
    let errors :=
      if nonempty rels_ns && negb (String.eqb rels_ns PKG_REL_NS)
      then append errors ("Unexpected relationships namespace: " ++ rels_ns
                            ++ str newline ++ "    Expected: " ++ PKG_REL_NS)
      else errors in
    Ok (errors, collect_rels_ids rels_root)
  else Ok (errors, []).

(** Step 5: every entry's relationship id must exist in the index. *)
Definition check_integrity (masters : list Element) (rels_ids : pyset)
    (errors : list string) : list string :=
  if negb (is_empty masters) && negb (is_empty rels_ids)
  then extend errors (flat_map (integrity_error rels_ids) masters)
  else errors.

(** The list [errors] at the end of [_validate_vsdx_structure], for a tree
    whose catalog file exists. *)
Definition validation_errors (rt : Runtime) (t : Tree) (paths : VsdxPaths)
  : Result (list string) :=
  let errors := check_required_files t paths [] in
  root <- _parse_xml_file t (masters_xml paths) ;;
  let errors := check_namespace root errors in
  let masters := findall root (qname VISIO_NS "Master") in
  let errors := check_sample rt masters errors in
  '(errors, rels_ids) <- check_rels_file t paths errors ;;
  Ok (check_integrity masters rels_ids errors).

Definition validation_message (errors : list string) : string :=
  "VSDX format validation failed:" ++ str newline ++ "  - "
  ++ join (str newline ++ "  - ") errors
  ++ str newline ++ str newline
  ++ "This file may use a newer or different format version.".

Definition _validate_vsdx_structure (rt : Runtime) (t : Tree) (paths : VsdxPaths)
  : Result unit :=
  if negb (exists_ t (masters_xml paths)) then Ok tt
  else
    errors <- validation_errors rt t paths ;;
    if negb (is_empty errors)
    then Raise (VsdxFormatError (validation_message errors))
    else Ok tt.

(** ** Reference resolution *)

(** The value stored under a name in [masters_info]. *)
Record MasterInfo : Type := mkMasterInfo {
  info_id : string;
  info_rel_id : string;
  info_element : Element
}.

(** [{info['id']: name for name, info in masters_info.items()}] *)
Definition id_to_name_of (masters_info : dict MasterInfo) : dict string :=
  fold_left (fun d (item : string * MasterInfo) =>
               dict_set d (info_id (snd item)) (fst item))
            masters_info [].

(** Method 2 on one page: the names of the ids found. *)
Definition add_by_id (id_to_name : dict string) (used_names : pyset)
    (master_id : string) : pyset :=
  match dict_get id_to_name master_id with
  | Some name => set_add used_names name
  | None => used_names
  end.

(** The loop of [_find_used_masters] over the page files. *)
Fixpoint scan_pages (t : Tree) (id_to_name : dict string)
    (page_files : list string) (used_names : pyset) : Result pyset :=
  match page_files with
  | [] => Ok used_names
  | page_file :: rest =>
      content <- _read_xml_file t page_file ;;
      let used_names := set_update used_names (use_pattern_findall content) in
      let used_names :=
        fold_left (add_by_id id_to_name)
                  (master_attr_pattern_findall content) used_names in
      scan_pages t id_to_name rest used_names
  end.

Definition _find_used_masters (rt : Runtime) (t : Tree) (pages_dir : string)
    (masters_info : dict MasterInfo) : Result pyset :=
  let used_names : pyset := [] in
  let id_to_name := id_to_name_of masters_info in
  page_files <- _get_page_files rt t pages_dir ;;
  scan_pages t id_to_name page_files used_names.

(** The loop of [_parse_masters_xml] over the entries found. *)
Definition record_master (masters_info : dict MasterInfo) (master : Element)
  : dict MasterInfo :=
  let name := get master "NameU" "" in
  if nonempty name then
    let rel := find master (qname VISIO_NS "Rel") in
    dict_set masters_info name
      {| info_id := get master "ID" "";
         info_rel_id := _get_rel_id rel;
         info_element := master |}
  else masters_info.

Definition _parse_masters_xml (t : Tree) (masters_xml_path : string)
  : Result (Element * dict MasterInfo) :=
  root <- ET_parse t masters_xml_path ;;
  let masters_info :=
    fold_left record_master (findall root (qname VISIO_NS "Master")) [] in
  Ok (root, masters_info).

Definition record_rel (rels_info : dict string) (rel : Element) : dict string :=
  let rel_id := get rel "Id" "" in
  let target := get rel "Target" "" in
  if nonempty rel_id && nonempty target
  then dict_set rels_info rel_id target
  else rels_info.

Definition _parse_rels_xml (t : Tree) (rels_path : string)
  : Result (Element * dict string) :=
  root <- ET_parse t rels_path ;;
  let rels_info :=
    fold_left record_rel (findall root (qname PKG_REL_NS "Relationship")) [] in
  Ok (root, rels_info).

(** [path.stat().st_size] inside the tree *)
Definition node_size (n : Node) : Z :=
  match n with FileNode f => f_size f | DirNode sz => sz end.

Definition _calculate_unused_size (rt : Runtime) (t : Tree)
    (unused_names : pyset) (masters_info : dict MasterInfo)
    (rels_info : dict string) (masters_dir : string) : Z :=
  fold_left
    (fun total name =>
       let rel_id :=
         match dict_get masters_info name with
         | Some info => info_rel_id info
         | None => ""
         end in
       let target := get_default rels_info rel_id "" in
       if nonempty target then
         let target_file := joinpath masters_dir target in
         match dict_get t target_file with
         | Some n => (total + node_size n)%Z
         | None => total
         end
       else total)
    (set_iter rt unused_names) 0%Z.

(** ** Analysis of an extracted tree *)

Record AnalysisResult : Type := mkAnalysisResult {
  total_masters : nat;
  used_masters : nat;
  unused_masters : nat;
  used_names : list string;
  unused_names : list string;
  potential_savings_mb : PyFloat
}.

(** The body of the [with] block of [analyze_vsdx], once the archive is
    extracted to [t]. *)
Definition analyze_extracted (rt : Runtime) (t : Tree) : Result AnalysisResult :=
  let paths := _make_vsdx_paths in
  if negb (exists_ t (masters_xml paths)) then
    Ok {| total_masters := 0; used_masters := 0; unused_masters := 0;
          used_names := []; unused_names := [];
          potential_savings_mb := Float0 |}
  else
    _ <- _validate_vsdx_structure rt t paths ;;
    '(_, masters_info) <- _parse_masters_xml t (masters_xml paths) ;;
    '(_, rels_info) <- _parse_rels_xml t (rels_path paths) ;;
    used <- _find_used_masters rt t (pages_dir paths) masters_info ;;
    let all_names := set_of (keys masters_info) in
    let unused := set_diff all_names used in
    let unused_size :=
      _calculate_unused_size rt t unused masters_info rels_info
                             (masters_dir paths) in
    Ok {| total_masters := List.length all_names;
          used_masters := List.length (set_inter used all_names);
          unused_masters := List.length unused;
          used_names := sorted (set_iter rt (set_inter used all_names));
          unused_names := sorted (set_iter rt unused);
          potential_savings_mb := _bytes_to_mb unused_size |}.

(** ** The file system and its effects *)

(** A path of the host file system, split by [pathlib] into the part before
    the suffix and the suffix. *)
Record Path : Type := mkPath {
  stem_path : string;
  suffix : string
}.

Definition path_str (p : Path) : string := stem_path p ++ suffix p.

(** The path string of [p.with_suffix(s)]. *)
Definition with_suffix (p : Path) (s : string) : string := stem_path p ++ s.

Inductive HostFile : Type :=
| ZipFile (size : Z) (content : Tree)
| PlainFile (size : Z).

Definition host_size (f : HostFile) : Z :=
  match f with ZipFile sz _ => sz | PlainFile sz => sz end.

Inductive Event : Type :=
| Copy (src dst : string)
| MkTemp
| Extract (src : string)
| WriteXml (path : string) (doc : Xml)
| Unlink (path : string)
| CreateZip
| Move (dst : string)
| RmTemp.

(** The files outside the program's temporary directory ([host]), the tree
    extracted inside it ([work], empty when no temporary directory is open),
    the archive built inside it ([temp_output]) and the effects performed so
    far, oldest first ([log]). *)
Record World : Type := mkWorld {
  host : dict HostFile;
  work : Tree;
  temp_output : option HostFile;
  log : list Event
}.

(** What [_create_vsdx] stores: the regular files, hence the tree they
    extract to, the directories that hold one included. *)
Definition zip_tree (t : Tree) : Tree :=
  filter (fun item : string * Node =>
            match snd item with
            | FileNode _ => true
            | DirNode _ =>
                existsb (fun k => is_file t k && startswith k (fst item ++ "/"))
                        (keys t)
            end) t.

Definition apply_event (rt : Runtime) (ev : Event) (w : World) : World :=
  match ev with
  | Copy src dst =>
      match dict_get (host w) src with
      | Some f => mkWorld (dict_set (host w) dst f) (work w) (temp_output w) (log w)
      | None => w
      end
  | MkTemp => mkWorld (host w) [] None (log w)
  | Extract src =>
      match dict_get (host w) src with
      | Some (ZipFile _ content) => mkWorld (host w) content (temp_output w) (log w)
      | _ => w
      end
  | WriteXml path doc =>
      mkWorld (host w) (dict_set (work w) path (FileNode (xml_write rt doc)))
              (temp_output w) (log w)
  | Unlink path => mkWorld (host w) (dict_del (work w) path) (temp_output w) (log w)
  | CreateZip =>
      let content := zip_tree (work w) in
      mkWorld (host w) (work w) (Some (ZipFile (zip_size rt content) content)) (log w)
  | Move dst =>
      match temp_output w with
      | Some f => mkWorld (dict_set (host w) dst f) (work w) None (log w)
      | None => w
      end
  | RmTemp => mkWorld (host w) [] None (log w)
  end.

Definition record_event (ev : Event) (w : World) : World :=
  mkWorld (host w) (work w) (temp_output w) (log w ++ [ev])%list.

(** The state reached from [w] by a sequence of effects. *)
Definition replay (rt : Runtime) (evs : list Event) (w : World) : World :=
  fold_left (fun w ev => record_event ev (apply_event rt ev w)) evs w.

Definition M (A : Type) : Type := World -> Result A * World.

Definition ret {A} (a : A) : M A := fun w => (Ok a, w).
Definition raise {A} (e : Exn) : M A := fun w => (Raise e, w).
Definition lift {A} (r : Result A) : M A := fun w => (r, w).

Definition bind {A B} (m : M A) (k : A -> M B) : M B :=
  fun w =>
    match m w with
    | (Ok a, w') => k a w'
    | (Raise e, w') => (Raise e, w')
    end.

Declare Scope world_scope.
Delimit Scope world_scope with world.
Notation "x <- m ;; k" := (bind m (fun x => k))
  (at level 61, m at next level, right associativity) : world_scope.

Definition perform (rt : Runtime) (ev : Event) : M unit :=
  fun w => (Ok tt, record_event ev (apply_event rt ev w)).

Definition get_work : M Tree := fun w => (Ok (work w), w).

(** [with tempfile.TemporaryDirectory(): body]: the directory is removed on
    every way out of the block. *)
Definition with_tempdir {A} (rt : Runtime) (body : M A) : M A :=
  fun w =>
    let (r, w') := body (snd (perform rt MkTemp w)) in
    (r, snd (perform rt RmTemp w')).

(** [path.stat().st_size] on the host *)
Definition stat_size (p : string) : M Z :=
  fun w =>
    match dict_get (host w) p with
    | Some f => (Ok (host_size f), w)
    | None => (Raise (FileNotFoundError p), w)
    end.

(** [with zipfile.ZipFile(path, 'r') as zf: zf.extractall(extract_dir)] *)
Definition extractall (rt : Runtime) (p : string) : M unit :=
  fun w =>
    match dict_get (host w) p with
    | Some (ZipFile _ _) => perform rt (Extract p) w
    | Some (PlainFile _) => (Raise BadZipFile, w)
    | None => (Raise (FileNotFoundError p), w)
    end.

(** [path.unlink()] inside the tree *)
Definition unlink (rt : Runtime) (p : string) : M unit :=
  fun w =>
    match dict_get (work w) p with
    | Some (FileNode _) => perform rt (Unlink p) w
    | Some (DirNode _) => (Raise IsADirectoryError, w)
    | None => (Raise (FileNotFoundError p), w)
    end.

Local Open Scope world_scope.

Definition _validate_vsdx_path (p : Path) : M Path :=
  fun w =>
    if negb (dict_mem (path_str p) (host w))
    then (Raise (FileNotFoundError ("File not found: " ++ path_str p)), w)
    else if negb (String.eqb (lower (suffix p)) ".vsdx")
    then (Raise (ValueError ("Not a .vsdx file: " ++ path_str p)), w)
    else (Ok p, w).

Definition analyze_vsdx (rt : Runtime) (vsdx_path : Path) : M AnalysisResult :=
  path <- _validate_vsdx_path vsdx_path ;;
  with_tempdir rt (
    _ <- extractall rt (path_str path) ;;
    extract_dir <- get_work ;;
    lift (analyze_extracted rt extract_dir)).

(** ** Pruning *)

Record ShrinkResult : Type := mkShrinkResult {
  original_size_mb : PyFloat;
  new_size_mb : PyFloat;
  reduction_mb : PyFloat;
  reduction_percent : PyFloat;
  masters_removed : nat;
  output_path : string
}.

Definition _empty_result (original_size : Z) (output_path : string)
  : ShrinkResult :=
  let size_mb := _bytes_to_mb original_size in
  {| original_size_mb := size_mb;
     new_size_mb := size_mb;
     reduction_mb := Float0;
     reduction_percent := Float0;
     masters_removed := 0;
     output_path := output_path |}.

(** [element.remove(sub)]: the first child that is the object [sub]. *)
Definition remove (element sub : Element) : Result Element :=
  match remove_child (oid sub) (children element) with
  | Some cs => Ok (Elem (oid element) (tag element) (attrib element) cs)
  | None => Raise (ValueError "list.remove(x): x not in list")
  end.

(** One turn of the loop that fills [keep_rel_ids] and [keep_files]. *)
Definition record_keep (masters_info : dict MasterInfo) (rels_info : dict string)
    (keep : pyset * pyset) (name : string) : pyset * pyset :=
  match dict_get masters_info name with
  | Some info =>
      let rel_id := info_rel_id info in
      let keep_rel_ids := set_add (fst keep) rel_id in
      let keep_files :=
        match dict_get rels_info rel_id with
        | Some target => set_add (snd keep) target
        | None => snd keep
        end in
      (keep_rel_ids, keep_files)
  | None => keep
  end.

(** The loop that fills [keep_rel_ids] and [keep_files]. *)
Definition keep_sets (rt : Runtime) (masters_info : dict MasterInfo)
    (rels_info : dict string) (used_names : pyset) : pyset * pyset :=
  fold_left (record_keep masters_info rels_info) (set_iter rt used_names) ([], []).

(** The loop over [names_to_remove]. *)
Fixpoint remove_unused (masters_info : dict MasterInfo) (names : list string)
    (masters_root : Element) (masters_removed : nat) : Result (Element * nat) :=
  match names with
  | [] => Ok (masters_root, masters_removed)
  | name :: rest =>
      match dict_get masters_info name with
      | Some info =>
          bindR (remove masters_root (info_element info))
                (fun masters_root =>
                   remove_unused masters_info rest masters_root (S masters_removed))
      | None => remove_unused masters_info rest masters_root masters_removed
      end
  end.

(** The loop over [list(rels_root)]. *)
Fixpoint remove_rels (keep_rel_ids : pyset) (rels : list Element)
    (rels_root : Element) : Result Element :=
  match rels with
  | [] => Ok rels_root
  | rel :: rest =>
      let rel_id := get rel "Id" "" in
      if nonempty rel_id && negb (set_mem rel_id keep_rel_ids)
      then bindR (remove rels_root rel) (remove_rels keep_rel_ids rest)
      else remove_rels keep_rel_ids rest rels_root
  end.

(** [ET.ElementTree(root).write(path, encoding='utf-8', xml_declaration=True)] *)
Definition write_xml (rt : Runtime) (root : Element) (path : string) : M unit :=
  perform rt (WriteXml path (toxml root)).

(** The test of the loop that deletes files, on the name of a file. *)
Definition unused_file (keep_files : pyset) (name : string) : bool :=
  negb (String.eqb name "masters.xml") && negb (set_mem name keep_files).

(** The loop over [masters_dir.glob('master*.xml')]. *)
Fixpoint unlink_unused (rt : Runtime) (masters_dir : string) (keep_files : pyset)
    (master_files : list string) : M unit :=
  match master_files with
  | [] => ret tt
  | name :: rest =>
      _ <- (if unused_file keep_files name
            then unlink rt (joinpath masters_dir name)
            else ret tt) ;;
      unlink_unused rt masters_dir keep_files rest
  end.

(** The directory that [dst] lies in exists: it holds a file of the host,
    or the environment knows it. *)
Definition parent_exists (rt : Runtime) (files : dict HostFile) (dst : string)
  : bool :=
  existsb (fun k => String.eqb (dir_prefix k) (dir_prefix dst)) (keys files)
  || dir_exists rt (dir_prefix dst).

(** [p] names a directory of the host. *)
Definition host_isdir (rt : Runtime) (files : dict HostFile) (p : string) : bool :=
  existsb (fun k => String.eqb (dir_prefix k) (p ++ "/")) (keys files)
  || dir_exists rt (p ++ "/").

(** [dst] is another spelling of the file [src]. Two names in one directory
    part are two files. *)
Definition other_spelling (rt : Runtime) (src dst : string) : bool :=
  negb (String.eqb (dir_prefix src) (dir_prefix dst)) && same_file rt src dst.

(** What [shutil.copy2] raises instead of copying: it refuses to copy a
    file onto itself, then opens the destination for writing. *)
Definition copy2_refusal (rt : Runtime) (files : dict HostFile)
    (src dst : string) : option Exn :=
  if other_spelling rt src dst then Some (SameFileError src dst)
  else if negb (parent_exists rt files dst)
  then Some (FileNotFoundError (enoent rt dst))
  else None.

(** [shutil.copy2] to a destination that is not a directory. *)
Definition copy2 (rt : Runtime) (src dst : string) : M unit :=
  fun w =>
    match copy2_refusal rt (host w) src dst with
    | Some e => (Raise e, w)
    | None => perform rt (Copy src dst) w
    end.

(** What [shutil.move] raises instead of moving the archive built in the
    temporary directory. *)
Definition move_refusal (rt : Runtime) (files : dict HostFile) (dst : string)
  : option Exn :=
  if negb (parent_exists rt files dst)
  then Some (FileNotFoundError (enoent rt dst))
  else None.

(** [shutil.move] to a destination that is not a directory. *)
Definition move (rt : Runtime) (dst : string) : M unit :=
  fun w =>
    match move_refusal rt (host w) dst with
    | Some e => (Raise e, w)
    | None => perform rt (Move dst) w
    end.

(** The body of the [with] block of [shrink_vsdx]: the result of the early
    return, or the number of entries removed. *)
Definition shrink_extracted (rt : Runtime) (path final_output : Path)
    (original_size : Z) : M (ShrinkResult + nat) :=
  _ <- extractall rt (path_str path) ;;
  extract_dir <- get_work ;;
  let paths := _make_vsdx_paths in
  if negb (exists_ extract_dir (masters_xml paths)) then
    _ <- (if negb (String.eqb (path_str final_output) (path_str path))
          then copy2 rt (path_str path) (path_str final_output)
          else ret tt) ;;
    ret (inl (_empty_result original_size (path_str final_output)))
  else
    (* Validate structure before processing *)
    _ <- lift (_validate_vsdx_structure rt extract_dir paths) ;;
    (* Parse masters and relationships *)
    parsed_masters <- lift (_parse_masters_xml extract_dir (masters_xml paths)) ;;
    let masters_root := fst parsed_masters in
    let masters_info := snd parsed_masters in
    parsed_rels <- lift (_parse_rels_xml extract_dir (rels_path paths)) ;;
    let rels_root := fst parsed_rels in
    let rels_info := snd parsed_rels in
    (* Identify used vs unused masters *)
    used <- lift (_find_used_masters rt extract_dir (pages_dir paths) masters_info) ;;
    let all_names := set_of (keys masters_info) in
    let names_to_remove := set_diff all_names used in
    (* Determine what to keep *)
    let keep := keep_sets rt masters_info rels_info used in
    let keep_rel_ids := fst keep in
    let keep_files := snd keep in
    (* Remove unused masters from XML *)
    removed <- lift (remove_unused masters_info (set_iter rt names_to_remove)
                                   masters_root 0) ;;
    let masters_root := fst removed in
    let masters_removed := snd removed in
    _ <- write_xml rt masters_root (masters_xml paths) ;;
    (* Remove unused relationships *)
    rels_root <- lift (remove_rels keep_rel_ids (children rels_root) rels_root) ;;
    _ <- write_xml rt rels_root (rels_path paths) ;;
    (* Delete unused master files *)
    now_dir <- get_work ;;
    _ <- unlink_unused rt (masters_dir paths) keep_files
           (glob rt now_dir (masters_dir paths) "master" ".xml") ;;
    (* Create new VSDX *)
    _ <- perform rt CreateZip ;;
    _ <- move rt (path_str final_output) ;;
    ret (inr masters_removed).

Definition shrink_vsdx (rt : Runtime) (input_path : Path)
    (output_path : option Path) (backup : bool) : M ShrinkResult :=
  path <- _validate_vsdx_path input_path ;;
  original_size <- stat_size (path_str path) ;;
  (* Determine final output path *)
  final_output <-
    match output_path with
    | None =>
        _ <- (if backup
              then copy2 rt (path_str path) (with_suffix path ".vsdx.bak")
              else ret tt) ;;
        ret path
    | Some o => ret o
    end ;;
  r <- with_tempdir rt (shrink_extracted rt path final_output original_size) ;;
  match r with
  | inl early => ret early
  | inr masters_removed =>
      new_size <- stat_size (path_str final_output) ;;
      let reduction := (original_size - new_size)%Z in
      ret {| original_size_mb := _bytes_to_mb original_size;
             new_size_mb := _bytes_to_mb new_size;
             reduction_mb := _bytes_to_mb reduction;
             reduction_percent :=
               if Z.eqb original_size 0 then Float0
               else Percent reduction original_size;
             masters_removed := masters_removed;
             output_path := path_str final_output |}
  end.

(** ** A run of the pruner, described

    The values a successful run of [shrink_vsdx] computes on an archive with
    a catalog, the effects it performs and the tree it leaves. *)

Record Pruning : Type := mkPruning {
  pr_masters_root : Element;
  pr_masters_info : dict MasterInfo;
  pr_rels_root : Element;
  pr_rels_info : dict string;
  pr_used_names : pyset;
  pr_new_masters_root : Element;
  pr_removed : nat;
  pr_new_rels_root : Element
}.

Definition names_to_remove (pr : Pruning) : pyset :=
  set_diff (set_of (keys (pr_masters_info pr))) (pr_used_names pr).

Definition keep_rel_ids (rt : Runtime) (pr : Pruning) : pyset :=
  fst (keep_sets rt (pr_masters_info pr) (pr_rels_info pr) (pr_used_names pr)).

Definition keep_files (rt : Runtime) (pr : Pruning) : pyset :=
  snd (keep_sets rt (pr_masters_info pr) (pr_rels_info pr) (pr_used_names pr)).

(** [pr] holds the values computed on the extracted tree [content]. *)
Definition prunes (rt : Runtime) (content : Tree) (pr : Pruning) : Prop :=
  let paths := _make_vsdx_paths in
  _validate_vsdx_structure rt content paths = Ok tt
  /\ _parse_masters_xml content (masters_xml paths)
     = Ok (pr_masters_root pr, pr_masters_info pr)
  /\ _parse_rels_xml content (rels_path paths)
     = Ok (pr_rels_root pr, pr_rels_info pr)
  /\ _find_used_masters rt content (pages_dir paths) (pr_masters_info pr)
     = Ok (pr_used_names pr)
  /\ remove_unused (pr_masters_info pr) (set_iter rt (names_to_remove pr))
                   (pr_masters_root pr) 0
     = Ok (pr_new_masters_root pr, pr_removed pr)
  /\ remove_rels (keep_rel_ids rt pr) (children (pr_rels_root pr))
                 (pr_rels_root pr)
     = Ok (pr_new_rels_root pr).

(** The two documents being rewritten. *)
Definition write_events (pr : Pruning) : list Event :=
  [WriteXml (masters_xml _make_vsdx_paths) (toxml (pr_new_masters_root pr));
   WriteXml (rels_path _make_vsdx_paths) (toxml (pr_new_rels_root pr))].

(** The extracted tree once the two documents are rewritten. *)
Definition rewritten (rt : Runtime) (content : Tree) (pr : Pruning) : Tree :=
  dict_set
    (dict_set content (masters_xml _make_vsdx_paths)
              (FileNode (xml_write rt (toxml (pr_new_masters_root pr)))))
    (rels_path _make_vsdx_paths)
    (FileNode (xml_write rt (toxml (pr_new_rels_root pr)))).

(** The names of the files the run deletes, in the order of deletion. *)
Definition deleted (rt : Runtime) (content : Tree) (pr : Pruning) : list string :=
  filter (unused_file (keep_files rt pr))
         (glob rt (rewritten rt content pr)
               (masters_dir _make_vsdx_paths) "master" ".xml").

(** The tree that is archived. *)
Definition pruned_tree (rt : Runtime) (content : Tree) (pr : Pruning) : Tree :=
  fold_left dict_del
            (map (joinpath (masters_dir _make_vsdx_paths)) (deleted rt content pr))
            (rewritten rt content pr).

Definition unlink_events (rt : Runtime) (content : Tree) (pr : Pruning)
  : list Event :=
  map (fun name => Unlink (joinpath (masters_dir _make_vsdx_paths) name))
      (deleted rt content pr).

(** The effects on the extracted tree, in order. *)
Definition prune_events (rt : Runtime) (content : Tree) (pr : Pruning)
  : list Event :=
  (write_events pr ++ unlink_events rt content pr)%list.

Definition final_output_of (input_path : Path) (output_path : option Path) : Path :=
  match output_path with None => input_path | Some o => o end.

Definition backup_events (input_path : Path) (output_path : option Path)
    (backup : bool) : list Event :=
  match output_path with
  | None =>
      if backup
      then [Copy (path_str input_path) (with_suffix input_path ".vsdx.bak")]
      else []
  | Some _ => []
  end.

(** All the effects of a successful run on an archive with a catalog. *)
Definition shrink_events (rt : Runtime) (input_path : Path)
    (output_path : option Path) (backup : bool) (content : Tree) (pr : Pruning)
  : list Event :=
  (backup_events input_path output_path backup
   ++ [MkTemp; Extract (path_str input_path)]
   ++ prune_events rt content pr
   ++ [CreateZip; Move (path_str (final_output_of input_path output_path)); RmTemp])%list.

(** All the effects of a run on an archive without a catalog. *)
Definition copy_events (input_path : Path) (output_path : option Path)
    (backup : bool) : list Event :=
  let final_output := final_output_of input_path output_path in
  (backup_events input_path output_path backup
   ++ [MkTemp; Extract (path_str input_path)]
   ++ (if negb (String.eqb (path_str final_output) (path_str input_path))
       then [Copy (path_str input_path) (path_str final_output)] else [])
   ++ [RmTemp])%list.

(** ** The command line *)
Definition MAX_DISPLAY_ITEMS : nat := 10.

(** What the interpreter prints for a float, and for an exception that
    carries no message of the program. *)
Record Printer : Type := mkPrinter {
  float_str : PyFloat -> string;
  os_error_str : Exn -> string
}.

(** [str(n)] for a natural number. *)
Definition str_nat (n : nat) : string := NilEmpty.string_of_uint (Nat.to_uint n).

(** [str(e)] *)
Definition exn_str (py : Printer) (e : Exn) : string :=
  match e with
  | FileNotFoundError msg | ValueError msg | VsdxFormatError msg
  | ParseError msg => msg
  | UnicodeDecodeError | IsADirectoryError | BadZipFile
  | SameFileError _ _ => os_error_str py e
  end.

(** The arguments once [parser.parse_args()] has returned them.  The input is
    taken as the path [Path(args.input)] prints, so that one text serves for
    the call and for the lines printed. *)
Record Args : Type := mkArgs {
  input : Path;
  output : option Path;
  no_backup : bool;
  analyze : bool;
  quiet : bool
}.

(** The texts printed to each stream, one per call of [print]; a text may
    span several lines. Printing is taken to succeed. *)
Record Console : Type := mkConsole {
  stdout : list string;
  stderr : list string
}.

Definition _print_analysis (py : Printer) (input_path : string)
    (result : AnalysisResult) : list string :=
  let printed :=
    [ "Analysis of: " ++ input_path;
      "  Total masters:      " ++ str_nat (total_masters result);
      "  Used masters:       " ++ str_nat (used_masters result);
      "  Unused masters:     " ++ str_nat (unused_masters result);
      "  Potential savings:  " ++ float_str py (potential_savings_mb result)
        ++ " MB" ] in
  let unused := unused_names result in
  if negb (is_empty unused) then
    let printed :=
      append printed (str newline ++ "Unused masters ("
                        ++ str_nat (List.length unused) ++ "):") in
    let printed :=
      extend printed (map (fun name => "    " ++ name)
                          (firstn MAX_DISPLAY_ITEMS unused)) in
    if Nat.ltb MAX_DISPLAY_ITEMS (List.length unused)
    then append printed ("    ... and "
                           ++ str_nat (List.length unused - MAX_DISPLAY_ITEMS)
                           ++ " more")
    else printed
  else printed.

Definition _print_shrink_result (py : Printer) (input_path : string)
    (result : ShrinkResult) : list string :=
  [ "Shrunk: " ++ input_path;
    "  Original size:    " ++ float_str py (original_size_mb result) ++ " MB";
    "  New size:         " ++ float_str py (new_size_mb result) ++ " MB";
    "  Reduction:        " ++ float_str py (reduction_mb result) ++ " MB ("
      ++ float_str py (reduction_percent result) ++ "%)";
    "  Masters removed:  " ++ str_nat (masters_removed result);
    "  Output:           " ++ output_path result ].

(** The body of the [try] block of [main]: the texts it prints. *)
Definition main_try (rt : Runtime) (py : Printer) (args : Args)
  : M (list string) :=
  if analyze args then
    bind (analyze_vsdx rt (input args)) (fun result =>
    ret (if negb (quiet args)
         then _print_analysis py (path_str (input args)) result else []))
  else
    bind (shrink_vsdx rt (input args) (output args) (negb (no_backup args)))
         (fun result =>
    ret (if negb (quiet args)
         then _print_shrink_result py (path_str (input args)) result else [])).

(** [main], from the parsed arguments on: the exit status, what was printed
    and the file system it leaves. *)
Definition main (rt : Runtime) (py : Printer) (args : Args) (w : World)
  : nat * Console * World :=
  match main_try rt py args w with
  | (Ok printed, w') => (0, mkConsole printed [], w')
  | (Raise (VsdxFormatError msg), w') =>
      (2, mkConsole [] ["Format error: " ++ msg], w')
  | (Raise e, w') =>
      (1, mkConsole [] ["Error: " ++ exn_str py e], w')
  end.

(** ** Notions for the statements and their proofs *)

(** The loop of [build] over the children, named. *)
Fixpoint build_all (l : list Xml) (n : nat) : list Element * nat :=
  match l with
  | [] => ([], n)
  | c :: r =>
      let (c', n1) := build c n in
      let (r', n2) := build_all r n1 in
      (c' :: r', n2)
  end.

(** The identities of some elements and of their descendants. *)
Definition oids (l : list Element) : list nat := map oid (flat_map iter l).

(** These identities are distinct and lie between [n] and [n']. *)
Definition fresh_between (n n' : nat) (l : list Element) : Prop :=
  n <= n' /\ Forall (fun i => n <= i < n') (oids l) /\ NoDup (oids l).

(** The names one page contributes to [used_names]. *)
Definition page_names (id_to_name : dict string) (content : string)
  : list string :=
  (use_pattern_findall content
   ++ flat_map (fun master_id =>
                  match dict_get id_to_name master_id with
                  | Some name => [name]
                  | None => []
                  end)
               (master_attr_pattern_findall content))%list.

(** The entry [c] is the element recorded under one of [names]. *)
Definition recorded_under (mi : dict MasterInfo) (names : list string)
    (c : Element) : bool :=
  existsb (fun name =>
             match dict_get mi name with
             | Some info => Nat.eqb (oid (info_element info)) (oid c)
             | None => false
             end) names.

(** The loop over the relationships removes [rel] when this holds. *)
Definition rel_dropped (keep_rel_ids : pyset) (rel : Element) : bool :=
  nonempty (get rel "Id" "") && negb (set_mem (get rel "Id" "") keep_rel_ids).

(** What [masters_info] records under a name describes an entry of that name. *)
Definition describes (master : Element) (name : string) (info : MasterInfo) : Prop :=
  info_element info = master
  /\ get master "NameU" "" = name
  /\ nonempty name = true
  /\ info_id info = get master "ID" ""
  /\ info_rel_id info = _get_rel_id (find master (qname VISIO_NS "Rel")).

(** The entry [c] is the element recorded for a name that is removed. *)
Definition entry_pruned (pr : Pruning) (c : Element) : bool :=
  recorded_under (pr_masters_info pr) (names_to_remove pr) c.

(** ** Observing archives *)

(** The document stored at [path] of a tree, when that file parses. *)
Definition document (t : Tree) (path : string) : option Xml :=
  match dict_get t path with
  | Some (FileNode f) =>
      match f_xml f with
      | WellFormed doc => Some doc
      | Malformed _ => None
      end
  | _ => None
  end.

(** The tree the archive at host path [p] extracts to. *)
Definition archive_at (w : World) (p : string) : option Tree :=
  match dict_get (host w) p with
  | Some (ZipFile _ content) => Some content
  | _ => None
  end.

(** What [analyze_vsdx] returns for an archive without a catalog. *)
Definition no_masters : AnalysisResult :=
  {| total_masters := 0; used_masters := 0; unused_masters := 0;
     used_names := []; unused_names := [];
     potential_savings_mb := Float0 |}.

(** [t] holds every path of [t'] and, for every document of [t'], a document
    with at least its top-level entries. *)
Definition holds_all (t t' : Tree) : Prop :=
  (forall path, exists_ t' path = true -> exists_ t path = true)
  /\ (forall path doc',
        document t' path = Some doc' ->
        exists doc, document t path = Some doc
                    /\ incl (xchildren doc') (xchildren doc)).

(** ** Sample archives *)

(** A run-time environment that iterates in insertion order. *)
Definition plain_runtime : Runtime :=
  {| set_iter := fun s => s;
     set_iter_perm := fun s => Permutation_refl s;
     scandir := fun l => l;
     scandir_perm := fun l => Permutation_refl l;
     xml_write := fun doc => mkFile 0 None (WellFormed doc);
     xml_write_parse := fun doc => eq_refl;
     zip_size := fun t => Z.of_nat (List.length t);
     dir_exists := fun d => String.eqb d "";
     same_file := fun _ _ => false;
     enoent := fun p => "[Errno 2] No such file or directory: '" ++ p ++ "'" |}.

(** One that iterates the other way round. *)
Definition reversed_runtime : Runtime :=
  {| set_iter := fun s => rev s;
     set_iter_perm := fun s => Permutation_sym (Permutation_rev s);
     scandir := fun l => rev l;
     scandir_perm := fun l => Permutation_sym (Permutation_rev l);
     xml_write := fun doc => mkFile 0 None (WellFormed doc);
     xml_write_parse := fun doc => eq_refl;
     zip_size := fun t => Z.of_nat (List.length t);
     dir_exists := fun d => String.eqb d "";
     same_file := fun _ _ => false;
     enoent := fun p => "[Errno 2] No such file or directory: '" ++ p ++ "'" |}.

(** A host in which [sub] is the only directory besides the current one, so
    that [sub/../x] is another spelling of [x]. *)
Definition strict_runtime : Runtime :=
  {| set_iter := fun s => s;
     set_iter_perm := fun s => Permutation_refl s;
     scandir := fun l => l;
     scandir_perm := fun l => Permutation_refl l;
     xml_write := fun doc => mkFile 0 None (WellFormed doc);
     xml_write_parse := fun doc => eq_refl;
     zip_size := fun t => Z.of_nat (List.length t);
     dir_exists := fun d =>
       String.eqb d "" || String.eqb d "sub/" || String.eqb d "sub/../";
     same_file := fun p q =>
       String.eqb ("sub/../" ++ p) q || String.eqb p ("sub/../" ++ q);
     enoent := fun p => "[Errno 2] No such file or directory: '" ++ p ++ "'" |}.

Definition master_entry (name id rel_id : string) : Xml :=
  XNode (qname VISIO_NS "Master") [("ID", id); ("NameU", name)]
        [XNode (qname VISIO_NS "Rel") [(qname REL_NS "id", rel_id)] []].

Definition relationship (rel_id target : string) : Xml :=
  XNode (qname PKG_REL_NS "Relationship") [("Id", rel_id); ("Target", target)] [].

Definition catalog (entries : list Xml) : Node :=
  FileNode (mkFile 100 None (WellFormed (XNode (qname VISIO_NS "Masters") [] entries))).

Definition index (rels : list Xml) : Node :=
  FileNode (mkFile 100 None
              (WellFormed (XNode (qname PKG_REL_NS "Relationships") [] rels))).

Definition page (text : string) : Node :=
  FileNode (mkFile 50 (Some text) (Malformed "not parsed")).

Definition backing (size : Z) : Node :=
  FileNode (mkFile size None (Malformed "not parsed")).

Definition quoted (s : string) : string := str dquote ++ s ++ str dquote.

Definition directories : Tree :=
  [("visio", DirNode 0); ("visio/masters", DirNode 0);
   ("visio/masters/_rels", DirNode 0); ("visio/pages", DirNode 0)].

(** The scenario of the specification: masters A, B and C; one page uses A
    by name and B by identifier. *)
Definition demo_tree : Tree :=
  (directories ++
   [("visio/masters/masters.xml",
     catalog [master_entry "A" "1" "rId1"; master_entry "B" "2" "rId2";
              master_entry "C" "3" "rId3"]);
    ("visio/masters/_rels/masters.xml.rels",
     index [relationship "rId1" "master1.xml"; relationship "rId2" "master2.xml";
            relationship "rId3" "master3.xml"]);
    ("visio/masters/master1.xml", backing 1000);
    ("visio/masters/master2.xml", backing 2000);
    ("visio/masters/master3.xml", backing 3000);
    ("visio/pages/page1.xml",
     page ("<Shape F=" ++ quoted ("USE(" ++ quoted "A" ++ ")")
           ++ " Master=" ++ quoted "2" ++ "/>"))])%list.

Definition demo_path : Path := mkPath "demo" ".vsdx".

Definition demo_world : World :=
  mkWorld [("demo.vsdx", ZipFile 7000 demo_tree)] [] None [].

(** An archive without a catalog. *)
Definition bare_tree : Tree :=
  [("visio", DirNode 0); ("visio/pages", DirNode 0);
   ("visio/pages/page1.xml", page "<PageContents/>")].

Definition bare_path : Path := mkPath "bare" ".vsdx".

Definition bare_world : World :=
  mkWorld [("bare.vsdx", ZipFile 500 bare_tree)] [] None [].

(** The first entry of the catalog lacks one of the required attributes. *)
Definition sample_lacks_attribute (masters_root : Element) : Prop :=
  exists sample rest,
    findall masters_root (qname VISIO_NS "Master") = sample :: rest
    /\ (dict_get (attrib sample) "ID" = None
        \/ dict_get (attrib sample) "NameU" = None).

(** The index lists at least one id and some entry of the catalog carries a
    relationship id that is not among them. *)
Definition unresolved_relationship (t : Tree) (masters_root : Element) : Prop :=
  exists rels_root master rel,
    _parse_xml_file t (rels_path _make_vsdx_paths) = Ok rels_root
    /\ collect_rels_ids rels_root <> []
    /\ In master (findall masters_root (qname VISIO_NS "Master"))
    /\ find master (qname VISIO_NS "Rel") = Some rel
    /\ _get_rel_id (Some rel) <> ""
    /\ ~ In (_get_rel_id (Some rel)) (collect_rels_ids rels_root).

(** The name under which step 5 reports an entry. *)
Definition reported_name (master : Element) : string :=
  match dict_get (attrib master) "NameU" with
  | Some name => name
  | None =>
      match dict_get (attrib master) "ID" with
      | Some ident => ident
      | None => "unknown"
      end
  end.

(** A catalog whose entry B points to a relationship the index lacks. *)
Definition unresolved_tree : Tree :=
  (directories ++
   [("visio/masters/masters.xml",
     catalog [master_entry "A" "1" "rId1"; master_entry "B" "2" "rId9"]);
    ("visio/masters/_rels/masters.xml.rels",
     index [relationship "rId1" "master1.xml"]);
    ("visio/masters/master1.xml", backing 1000);
    ("visio/pages/page1.xml", page ("USE(" ++ quoted "A" ++ ")"))])%list.

Definition unresolved_path : Path := mkPath "unresolved" ".vsdx".

Definition unresolved_world : World :=
  mkWorld [("unresolved.vsdx", ZipFile 4000 unresolved_tree)] [] None [].

(** A catalog whose second entry has an identifier but no name attribute. *)
Definition nameless_second_tree : Tree :=
  (directories ++
   [("visio/masters/masters.xml",
     catalog [master_entry "A" "1" "rId1";
              XNode (qname VISIO_NS "Master") [("ID", "2")]
                    [XNode (qname VISIO_NS "Rel") [(qname REL_NS "id", "rId2")] []]]);
    ("visio/masters/_rels/masters.xml.rels",
     index [relationship "rId1" "master1.xml"; relationship "rId2" "master2.xml"]);
    ("visio/masters/master1.xml", backing 1000);
    ("visio/masters/master2.xml", backing 2000);
    ("visio/pages/page1.xml", page ("USE(" ++ quoted "A" ++ ")"))])%list.

Definition nameless_second_world : World :=
  mkWorld [("nameless.vsdx", ZipFile 4000 nameless_second_tree)] [] None [].

(** A catalog whose entry points to [rId1] while the index lists nothing. *)
Definition empty_index_tree : Tree :=
  (directories ++
   [("visio/masters/masters.xml", catalog [master_entry "A" "1" "rId1"]);
    ("visio/masters/_rels/masters.xml.rels", index []);
    ("visio/masters/master1.xml", backing 1000);
    ("visio/pages/page1.xml", page ("USE(" ++ quoted "A" ++ ")"))])%list.

(** Two used masters whose relationships spell the target [./masterN.xml]:
    A is referenced by identifier, B by name. *)
Definition dotted_tree : Tree :=
  (directories ++
   [("visio/masters/masters.xml",
     catalog [master_entry "A" "1" "rId1"; master_entry "B" "2" "rId2"]);
    ("visio/masters/_rels/masters.xml.rels",
     index [relationship "rId1" "./master1.xml";
            relationship "rId2" "./master2.xml"]);
    ("visio/masters/master1.xml", backing 1000);
    ("visio/masters/master2.xml", backing 2000);
    ("visio/pages/page1.xml",
     page ("<Shape Master=" ++ quoted "1" ++ "><Cell N='PinX' F='USE("
           ++ quoted "B" ++ ")'/></Shape>"))])%list.

Definition dotted_path : Path := mkPath "dotted" ".vsdx".

Definition dotted_world : World :=
  mkWorld [("dotted.vsdx", ZipFile 5000 dotted_tree)] [] None [].

(** A catalog with a used entry A and an entry without a name. *)
Definition legacy_tree : Tree :=
  (directories ++
   [("visio/masters/masters.xml",
     catalog [master_entry "A" "1" "rId1"; master_entry "" "2" "rId2"]);
    ("visio/masters/_rels/masters.xml.rels",
     index [relationship "rId1" "master1.xml"; relationship "rId2" "master2.xml"]);
    ("visio/masters/master1.xml", backing 1000);
    ("visio/masters/master2.xml", backing 2000);
    ("visio/pages/page1.xml", page ("USE(" ++ quoted "A" ++ ")"))])%list.

Definition legacy_path : Path := mkPath "legacy" ".vsdx".

Definition legacy_world : World :=
  mkWorld [("legacy.vsdx", ZipFile 4000 legacy_tree)] [] None [].

(** A used entry A and an entry without a name that share a relationship. *)
Definition shared_tree : Tree :=
  (directories ++
   [("visio/masters/masters.xml",
     catalog [master_entry "A" "1" "rId1"; master_entry "" "2" "rId1"]);
    ("visio/masters/_rels/masters.xml.rels",
     index [relationship "rId1" "master1.xml"]);
    ("visio/masters/master1.xml", backing 1000);
    ("visio/pages/page1.xml", page ("USE(" ++ quoted "A" ++ ")"))])%list.

Definition shared_path : Path := mkPath "shared" ".vsdx".

Definition shared_world : World :=
  mkWorld [("shared.vsdx", ZipFile 3000 shared_tree)] [] None [].

(** A catalog whose two entries are both used. *)
Definition full_tree : Tree :=
  (directories ++
   [("visio/masters/masters.xml",
     catalog [master_entry "A" "1" "rId1"; master_entry "B" "2" "rId2"]);
    ("visio/masters/_rels/masters.xml.rels",
     index [relationship "rId1" "master1.xml"; relationship "rId2" "master2.xml"]);
    ("visio/masters/master1.xml", backing 1000);
    ("visio/masters/master2.xml", backing 2000);
    ("visio/pages/page1.xml",
     page ("USE(" ++ quoted "A" ++ ") Master=" ++ quoted "2"))])%list.

Definition full_path : Path := mkPath "full" ".vsdx".

Definition full_world : World :=
  mkWorld [("full.vsdx", ZipFile 4000 full_tree)] [] None [].

(** Two used entries, and a relationship of the index that no entry of the
    catalog points to. *)
Definition orphan_tree : Tree :=
  (directories ++
   [("visio/masters/masters.xml",
     catalog [master_entry "A" "1" "rId1"; master_entry "B" "2" "rId2"]);
    ("visio/masters/_rels/masters.xml.rels",
     index [relationship "rId1" "master1.xml"; relationship "rId2" "master2.xml";
            relationship "rId5" "master5.xml"]);
    ("visio/masters/master1.xml", backing 1000);
    ("visio/masters/master2.xml", backing 2000);
    ("visio/masters/master5.xml", backing 5000);
    ("visio/pages/page1.xml",
     page ("USE(" ++ quoted "A" ++ ") Master=" ++ quoted "2"))])%list.

Definition orphan_path : Path := mkPath "orphan" ".vsdx".

Definition orphan_world : World :=
  mkWorld [("orphan.vsdx", ZipFile 9000 orphan_tree)] [] None [].

(** ** What a call may write *)

(** The host files of [w'] are those of [w], except perhaps at the paths [ps]. *)
Definition same_except (ps : list string) (w w' : World) : Prop :=
  forall q, ~ In q ps -> dict_get (host w') q = dict_get (host w) q.

(** Whatever its outcome, [m] changes host files at the paths [ps] only. *)
Definition writes_only {A} (ps : list string) (m : M A) : Prop :=
  forall w r w', m w = (r, w') -> same_except ps w w'.

(** The host paths a call of [shrink_vsdx] may write. *)
Definition written_paths (input_path : Path) (output_path : option Path)
    (backup : bool) : list string :=
  path_str (final_output_of input_path output_path)
  :: match output_path with
     | None => if backup then [with_suffix input_path ".vsdx.bak"] else []
     | Some _ => []
     end.

(** ** Tables filled by a loop *)

(** The entry of a table filled by a loop of conditional assignments. *)
Definition entry_of {E V} (key : E -> option (string * V)) (d : dict V) (e : E)
  : dict V :=
  match key e with
  | Some (k, v) => dict_set d k v
  | None => d
  end.

Definition master_key (master : Element) : option (string * MasterInfo) :=
  let name := get master "NameU" "" in
  if nonempty name
  then Some (name, {| info_id := get master "ID" "";
                      info_rel_id := _get_rel_id (find master (qname VISIO_NS "Rel"));
                      info_element := master |})
  else None.

Definition rel_key (rel : Element) : option (string * string) :=
  let rel_id := get rel "Id" "" in
  let target := get rel "Target" "" in
  if nonempty rel_id && nonempty target then Some (rel_id, target) else None.

(** ** Texts the patterns match *)

(** Every character of [s] satisfies [p]. *)
Fixpoint all_chars (p : ascii -> bool) (s : string) : bool :=
  match s with
  | EmptyString => true
  | String c r => p c && all_chars p r
  end.

(** The character before the position reached once [s] is passed. *)
Fixpoint prev_after (prev : option ascii) (s : string) : option ascii :=
  match s with
  | EmptyString => prev
  | String c r => prev_after (Some c) r
  end.

(** The text of one reference by name, followed by [rest]. *)
Definition use_text (name rest : string) : string :=
  "USE(" ++ String dquote (name ++ String dquote (String ")" rest)).

(** The text of one reference by identifier, followed by [rest]. *)
Definition master_attr_text (q : ascii) (digits : string) (q' : ascii)
    (rest : string) : string :=
  "Master=" ++ String q (digits ++ String q' rest).

(** ** Shapes of an extracted tree *)

(** The relationships file of the pages, for a pages directory [d]. *)
Definition pages_rels_of (d : string) : string :=
  joinpath (joinpath d "_rels") "pages.xml.rels".

(** What the validator requires of the first entry of the catalog. *)
Definition sample_wellformed (sample : Element) : Prop :=
  dict_mem "ID" (attrib sample) = true
  /\ dict_mem "NameU" (attrib sample) = true
  /\ exists rel,
       find sample (qname VISIO_NS "Rel") = Some rel
       /\ (dict_mem (qname REL_NS "id") (attrib rel) = true
           \/ dict_mem "r:id" (attrib rel) = true).

(** The relationship id of [master], if it carries one, is among [rels_ids]. *)
Definition resolves (rels_ids : pyset) (master : Element) : Prop :=
  forall rel, find master (qname VISIO_NS "Rel") = Some rel ->
              _get_rel_id (Some rel) = ""
              \/ In (_get_rel_id (Some rel)) rels_ids.




(** ** Classes of exceptions *)




(** ** Further sample archives and arguments *)

(** The archive of the scenario next to a file of another kind. *)
Definition shelf_world : World :=
  mkWorld [("demo.vsdx", ZipFile 7000 demo_tree); ("notes.txt", PlainFile 12)]
          [] None [].

Definition notes_path : Path := mkPath "notes" ".txt".

(** A host without any file. *)
Definition empty_world : World := mkWorld [] [] None [].

(** A catalog whose two entries have the same name, and an index whose two
    relationships have the same id. *)
Definition twins_tree : Tree :=
  (directories ++
   [("visio/masters/masters.xml",
     catalog [master_entry "A" "1" "rId1"; master_entry "A" "2" "rId2"]);
    ("visio/masters/_rels/masters.xml.rels",
     index [relationship "rId1" "master1.xml"; relationship "rId1" "master9.xml"]);
    ("visio/masters/master1.xml", backing 1000);
    ("visio/pages/page1.xml", page "<PageContents/>")])%list.

(** An index in which later relationships repeat the id [rId1], one with
    another target, one without a target and one with an empty target. *)
Definition repeated_ids_tree : Tree :=
  (directories ++
   [("visio/masters/masters.xml", catalog [master_entry "A" "1" "rId1"]);
    ("visio/masters/_rels/masters.xml.rels",
     index [relationship "rId1" "master1.xml";
            relationship "rId1" "master9.xml";
            XNode (qname PKG_REL_NS "Relationship") [("Id", "rId1")] [];
            relationship "rId1" "";
            relationship "rId2" "master2.xml"]);
    ("visio/masters/master1.xml", backing 1000);
    ("visio/pages/page1.xml", page "<PageContents/>")])%list.

(** A catalog that is not well-formed XML. *)
Definition broken_tree : Tree :=
  (directories ++
   [("visio/masters/masters.xml",
     FileNode (mkFile 10 None (Malformed "no element found: line 1, column 0")));
    ("visio/masters/_rels/masters.xml.rels", index []);
    ("visio/pages/page1.xml", page "<PageContents/>")])%list.

Definition broken_path : Path := mkPath "broken" ".vsdx".

Definition broken_world : World :=
  mkWorld [("broken.vsdx", ZipFile 300 broken_tree)] [] None [].

(** A catalog without relationship index and without pages. *)
Definition stripped_tree : Tree :=
  [("visio", DirNode 0); ("visio/masters", DirNode 0);
   ("visio/masters/masters.xml", catalog [master_entry "A" "1" "rId1"])].

(** A printer that shows every float as [0.0]. *)
Definition plain_printer : Printer :=
  {| float_str := fun _ => "0.0"; os_error_str := fun _ => "" |}.

Definition analyze_quietly : Args :=
  {| input := demo_path; output := None; no_backup := false;
     analyze := true; quiet := true |}.

Definition shrink_in_place : Args :=
  {| input := demo_path; output := None; no_backup := false;
     analyze := false; quiet := false |}.

(** * Properties *)

Local Close Scope world_scope.
Local Close Scope result_scope.

(** ** Sets and dictionaries *)

Lemma set_mem_In x s : set_mem x s = true <-> In x s.
Proof.
  unfold set_mem. rewrite existsb_exists. split.
  - intros [y [Hy He]]. apply String.eqb_eq in He. now subst.
  - intros H. exists x. split; [assumption | apply String.eqb_refl].
Qed.

Lemma set_mem_false x s : set_mem x s = false <-> ~ In x s.
Proof.
  rewrite <- set_mem_In. destruct (set_mem x s); split; intros; congruence.
Qed.

Lemma set_add_In s x y : In y (set_add s x) <-> In y s \/ y = x.
Proof.
  unfold set_add. destruct (set_mem x s) eqn:E.
  - apply set_mem_In in E. split; [tauto | intros [H | ->]; assumption].
  - rewrite in_app_iff. simpl. intuition congruence.
Qed.

Lemma set_add_NoDup s x : NoDup s -> NoDup (set_add s x).
Proof.
  intros H. unfold set_add. destruct (set_mem x s) eqn:E; [assumption |].
  apply set_mem_false in E.
  apply NoDup_rev in H. rewrite <- (rev_involutive (s ++ [x])%list).
  apply NoDup_rev. rewrite rev_app_distr. simpl. constructor; [| assumption].
  now rewrite <- in_rev.
Qed.

Lemma set_update_In l s y : In y (set_update s l) <-> In y s \/ In y l.
Proof.
  unfold set_update. revert s. induction l as [| a l IH]; intros s; simpl.
  - tauto.
  - rewrite IH, set_add_In. intuition congruence.
Qed.

Lemma set_update_NoDup l s : NoDup s -> NoDup (set_update s l).
Proof.
  unfold set_update. revert s. induction l as [| a l IH]; intros s H; simpl.
  - assumption.
  - apply IH, set_add_NoDup, H.
Qed.

Lemma set_of_In l y : In y (set_of l) <-> In y l.
Proof. unfold set_of. rewrite set_update_In. simpl. tauto. Qed.

Lemma set_of_NoDup l : NoDup (set_of l).
Proof. apply set_update_NoDup. constructor. Qed.

Lemma set_diff_In a b x : In x (set_diff a b) <-> In x a /\ ~ In x b.
Proof.
  unfold set_diff. rewrite filter_In, negb_true_iff, set_mem_false. tauto.
Qed.

Lemma set_inter_In a b x : In x (set_inter a b) <-> In x a /\ In x b.
Proof. unfold set_inter. rewrite filter_In, set_mem_In. tauto. Qed.

Lemma set_iter_In rt s x : In x (set_iter rt s) <-> In x s.
Proof.
  split; apply Permutation_in;
    [apply set_iter_perm | apply Permutation_sym, set_iter_perm].
Qed.

Lemma scandir_In rt l x : In x (scandir rt l) <-> In x l.
Proof.
  split; apply Permutation_in;
    [apply scandir_perm | apply Permutation_sym, scandir_perm].
Qed.

Section DictFacts.
Context {V : Type}.
Implicit Types (d : dict V) (k : string) (v : V).

Lemma dict_get_set d k v k' :
  dict_get (dict_set d k v) k' =
  if String.eqb k k' then Some v else dict_get d k'.
Proof.
  induction d as [| [a b] d IH]; simpl.
  - reflexivity.
  - destruct (String.eqb a k) eqn:E; simpl.
    + apply String.eqb_eq in E. subst a.
      destruct (String.eqb k k'); reflexivity.
    + rewrite IH. destruct (String.eqb a k') eqn:E'; [| reflexivity].
      apply String.eqb_eq in E'. subst a. now rewrite String.eqb_sym, E.
Qed.

Lemma dict_get_del d k k' :
  dict_get (dict_del d k) k' =
  if String.eqb k k' then None else dict_get d k'.
Proof.
  unfold dict_del. induction d as [| [a b] d IH]; simpl.
  - now destruct (String.eqb k k').
  - destruct (String.eqb a k) eqn:E; simpl.
    + apply String.eqb_eq in E. subst a. rewrite IH.
      now destruct (String.eqb k k').
    + rewrite IH. destruct (String.eqb a k') eqn:E'; [| reflexivity].
      apply String.eqb_eq in E'. subst a. now rewrite String.eqb_sym, E.
Qed.

Lemma dict_get_Some_In d k v : dict_get d k = Some v -> In (k, v) d.
Proof.
  induction d as [| [a b] d IH]; simpl; [discriminate |].
  destruct (String.eqb a k) eqn:E.
  - apply String.eqb_eq in E. intros [= ->]. left. now subst.
  - intros H. right. now apply IH.
Qed.

Lemma dict_get_None d k : dict_get d k = None <-> ~ In k (keys d).
Proof.
  unfold keys. induction d as [| [a b] d IH]; simpl; [tauto |].
  destruct (String.eqb a k) eqn:E.
  - apply String.eqb_eq in E. split; [discriminate | tauto].
  - apply String.eqb_neq in E. rewrite IH. tauto.
Qed.

Lemma dict_mem_In d k : dict_mem k d = true <-> In k (keys d).
Proof.
  unfold dict_mem. destruct (dict_get d k) eqn:E.
  - split; [| reflexivity]. intros _.
    apply dict_get_Some_In in E. unfold keys.
    change k with (fst (k, v)). now apply in_map.
  - apply dict_get_None in E. split; [discriminate | tauto].
Qed.

Lemma dict_set_keys d k v x :
  In x (keys (dict_set d k v)) <-> In x (keys d) \/ x = k.
Proof.
  unfold keys. induction d as [| [a b] d IH]; simpl.
  - intuition congruence.
  - destruct (String.eqb a k) eqn:E; simpl.
    + apply String.eqb_eq in E. subst. intuition congruence.
    + rewrite IH. tauto.
Qed.

Lemma dict_set_NoDup d k v : NoDup (keys d) -> NoDup (keys (dict_set d k v)).
Proof.
  unfold keys. induction d as [| [a b] d IH]; simpl; intros H.
  - constructor; [tauto | constructor].
  - inversion H as [| ? ? Hn Hd]; subst.
    destruct (String.eqb a k) eqn:E; simpl.
    + apply String.eqb_eq in E. subst. now constructor.
    + constructor; [| now apply IH].
      intros Hin. apply (dict_set_keys d k v a) in Hin.
      apply String.eqb_neq in E.
      destruct Hin as [Hin | Hin]; [exact (Hn Hin) | congruence].
Qed.
End DictFacts.

(** ** Sorting *)

Lemma compare_as_OT a b : String_as_OT.compare a b = String.compare a b.
Proof. revert b. induction a; destruct b; simpl; auto. Qed.

Lemma string_compare_spec a b :
  CompareSpec (a = b) (String_as_OT.lt a b) (String_as_OT.lt b a)
              (String.compare a b).
Proof. rewrite <- compare_as_OT. apply String_as_OT.compare_spec. Qed.

Lemma leb_trans a b c :
  String.leb a b = true -> String.leb b c = true -> String.leb a c = true.
Proof.
  unfold String.leb.
  destruct (string_compare_spec a b) as [Hab | Hab | Hab];
    [subst b; tauto | | intros H; discriminate H].
  destruct (string_compare_spec b c) as [Hbc | Hbc | Hbc];
    [subst c | | intros _ H; discriminate H];
    intros _ _.
  - unfold String_as_OT.lt in Hab. now rewrite <- compare_as_OT, Hab.
  - assert (H : String_as_OT.lt a c)
      by (eapply (@RelationClasses.StrictOrder_Transitive _ _
                    String_as_OT.lt_strorder); eassumption).
    unfold String_as_OT.lt in H. now rewrite <- compare_as_OT, H.
Qed.

Lemma leb_false_flip a b : String.leb a b = false -> String.leb b a = true.
Proof. destruct (String.leb_total a b); congruence. Qed.

Lemma insert_sorted_comm x y l :
  insert_sorted x (insert_sorted y l) = insert_sorted y (insert_sorted x l).
Proof.
  induction l as [| z r IH]; simpl.
  - destruct (String.leb x y) eqn:Exy, (String.leb y x) eqn:Eyx; try reflexivity.
    + now rewrite (String.leb_antisym _ _ Exy Eyx).
    + apply leb_false_flip in Exy. congruence.
  - destruct (String.leb y z) eqn:Eyz, (String.leb x z) eqn:Exz; simpl;
      rewrite ?Eyz, ?Exz.
    + destruct (String.leb x y) eqn:Exy, (String.leb y x) eqn:Eyx;
        try reflexivity.
      * now rewrite (String.leb_antisym _ _ Exy Eyx).
      * apply leb_false_flip in Exy. congruence.
    + destruct (String.leb x y) eqn:Exy; [| reflexivity].
      rewrite (leb_trans _ _ _ Exy Eyz) in Exz. discriminate.
    + destruct (String.leb y x) eqn:Eyx; [| reflexivity].
      rewrite (leb_trans _ _ _ Eyx Exz) in Eyz. discriminate.
    + now rewrite IH.
Qed.

Lemma sorted_Permutation l1 l2 : Permutation l1 l2 -> sorted l1 = sorted l2.
Proof.
  unfold sorted. induction 1; simpl.
  - reflexivity.
  - now f_equal.
  - apply insert_sorted_comm.
  - congruence.
Qed.

Lemma insert_sorted_perm x l : Permutation (insert_sorted x l) (x :: l).
Proof.
  induction l as [| y r IH]; simpl.
  - apply Permutation_refl.
  - destruct (String.leb x y).
    + apply Permutation_refl.
    + eapply perm_trans; [apply perm_skip, IH | apply perm_swap].
Qed.

Lemma sorted_perm l : Permutation (sorted l) l.
Proof.
  unfold sorted. induction l as [| x l IH]; simpl.
  - constructor.
  - eapply perm_trans; [apply insert_sorted_perm | now apply perm_skip].
Qed.

Lemma insert_sorted_Sorted x l :
  StronglySorted (fun a b => String.leb a b = true) l ->
  StronglySorted (fun a b => String.leb a b = true) (insert_sorted x l).
Proof.
  induction 1 as [| y r Hr IH Hy]; simpl.
  - constructor; constructor.
  - destruct (String.leb x y) eqn:E.
    + constructor; [now constructor |].
      constructor; [assumption |].
      rewrite Forall_forall in *. intros z Hz. eapply leb_trans; eauto.
    + constructor; [assumption |].
      rewrite Forall_forall in *. intros z Hz.
      apply (Permutation_in _ (insert_sorted_perm x r)) in Hz.
      destruct Hz as [<- | Hz]; [now apply leb_false_flip | now apply Hy].
Qed.

Lemma sorted_Sorted l :
  StronglySorted (fun a b => String.leb a b = true) (sorted l).
Proof.
  unfold sorted. induction l; simpl.
  - constructor.
  - now apply insert_sorted_Sorted.
Qed.

(** ** Identities of parsed elements *)

Lemma build_node t a cs n :
  build (XNode t a cs) n =
  let (cs', n') := build_all cs (S n) in (Elem n t a cs', n').
Proof. reflexivity. Qed.

Lemma Xml_rect_list (P : Xml -> Prop) :
  (forall t a cs, Forall P cs -> P (XNode t a cs)) -> forall x, P x.
Proof.
  intros H. fix IH 1. intros [t a cs]. apply H.
  induction cs as [| c cs IHcs]; constructor; [apply IH | exact IHcs].
Qed.

Lemma iter_unfold e : iter e = e :: flat_map iter (children e).
Proof. now destruct e. Qed.

Lemma build_fresh x :
  forall n e n', build x n = (e, n') -> fresh_between n n' [e] /\ n < n'.
Proof.
  induction x as [t a cs IH] using Xml_rect_list. intros n e n'.
  rewrite build_node.
  assert (Hall : forall m l m', build_all cs m = (l, m') -> fresh_between m m' l).
  { clear n e n'. induction IH as [| c cs Hc _ IHcs]; intros m l m'; simpl.
    - intros [= <- <-]. repeat split; [lia | constructor | constructor].
    - destruct (build c m) as [c' m1] eqn:Ec.
      destruct (build_all cs m1) as [r' m2] eqn:Er. intros [= <- <-].
      destruct (Hc _ _ _ Ec) as [[_ [Hc1 Hc2]] Hlt].
      destruct (IHcs _ _ _ Er) as [Hle [Hr1 Hr2]].
      unfold fresh_between, oids in *. simpl in *.
      rewrite app_nil_r in Hc1, Hc2. rewrite map_app.
      repeat split; [lia | |].
      + apply Forall_app. split.
        * eapply Forall_impl; [| exact Hc1]. intros i Hi. simpl in Hi. lia.
        * eapply Forall_impl; [| exact Hr1]. intros i Hi. simpl in Hi. lia.
      + apply NoDup_app; try assumption.
        intros i Hi Hi'. rewrite Forall_forall in Hc1, Hr1.
        specialize (Hc1 _ Hi). specialize (Hr1 _ Hi'). simpl in *. lia. }
  destruct (build_all cs (S n)) as [cs' m'] eqn:E. intros [= <- <-].
  destruct (Hall _ _ _ E) as [Hle [H1 H2]].
  unfold fresh_between, oids in *. simpl. rewrite app_nil_r.
  repeat split; try lia.
  - constructor; [simpl; lia |].
    eapply Forall_impl; [| exact H1]. intros i Hi. simpl in Hi. lia.
  - constructor; [| assumption].
    intros Hin. rewrite Forall_forall in H1. specialize (H1 _ Hin).
    simpl in H1. lia.
Qed.

Lemma fromxml_NoDup x : NoDup (map oid (iter (fromxml x))).
Proof.
  unfold fromxml. destruct (build x 0) as [e n'] eqn:E.
  destruct (build_fresh _ _ _ _ E) as [[_ [_ H]] _].
  unfold oids in H. simpl in *. now rewrite app_nil_r in H.
Qed.

Lemma NoDup_oid_inj (l : list Element) d1 d2 :
  NoDup (map oid l) -> In d1 l -> In d2 l -> oid d1 = oid d2 -> d1 = d2.
Proof.
  induction l as [| a l IH]; simpl; [tauto |].
  intros Hnd H1 H2 Heq. inversion Hnd as [| ? ? Hn Hd]; subst.
  destruct H1 as [-> | H1], H2 as [-> | H2]; try reflexivity.
  - exfalso. apply Hn. rewrite Heq. now apply in_map.
  - exfalso. apply Hn. rewrite <- Heq. now apply in_map.
  - now apply IH.
Qed.

Lemma children_in_descendants (cs : list Element) c :
  In c cs -> In c (flat_map iter cs).
Proof.
  intros H. apply in_flat_map. exists c. split; [exact H |].
  rewrite iter_unfold. now left.
Qed.

Lemma descendants_NoDup e :
  NoDup (map oid (iter e)) -> NoDup (oids (children e)).
Proof.
  rewrite iter_unfold. simpl. intros H. now inversion H.
Qed.

Lemma children_NoDup (cs : list Element) :
  NoDup (oids cs) -> NoDup (map oid cs).
Proof.
  unfold oids. induction cs as [| c cs IH]; simpl; [constructor |].
  rewrite iter_unfold. simpl. rewrite map_app. intros H.
  inversion H as [| ? ? Hn Hd]; subst. constructor.
  - intros Hin. apply Hn. apply in_or_app. right.
    apply in_map_iff in Hin. destruct Hin as [d [Hd1 Hd2]].
    apply in_map_iff. exists d. split; [exact Hd1 |].
    now apply children_in_descendants.
  - apply IH. exact (NoDup_app_remove_l _ _ Hd).
Qed.

(** ** The resolver *)

Lemma bindR_Ok {A B} (r : Result A) (k : A -> Result B) b :
  bindR r k = Ok b -> exists a, r = Ok a /\ k a = Ok b.
Proof. destruct r as [a | e]; simpl; [eauto | discriminate]. Qed.

Lemma add_by_id_In m ids : forall u x,
  In x (fold_left (add_by_id m) ids u) <->
  In x u \/ exists i, In i ids /\ dict_get m i = Some x.
Proof.
  induction ids as [| i ids IH]; intros u x; simpl.
  - split; [tauto | intros [H | [i [[] _]]]; exact H].
  - rewrite IH. unfold add_by_id. split.
    + intros [H | [j [Hj Hm]]]; [| right; exists j; tauto].
      destruct (dict_get m i) eqn:E; [| tauto].
      apply set_add_In in H. destruct H as [H | ->]; [tauto |].
      right. exists i. tauto.
    + intros [H | [j [[<- | Hj] Hm]]].
      * left. destruct (dict_get m i); [apply set_add_In |]; tauto.
      * left. rewrite Hm. apply set_add_In. tauto.
      * right. exists j. tauto.
Qed.

Lemma add_by_id_NoDup m ids : forall u,
  NoDup u -> NoDup (fold_left (add_by_id m) ids u).
Proof.
  induction ids as [| i ids IH]; intros u H; simpl; [exact H |].
  apply IH. unfold add_by_id. destruct (dict_get m i); [| exact H].
  now apply set_add_NoDup.
Qed.

Lemma page_step_In m content u x :
  In x (fold_left (add_by_id m) (master_attr_pattern_findall content)
                  (set_update u (use_pattern_findall content))) <->
  In x u \/ In x (page_names m content).
Proof.
  rewrite add_by_id_In, set_update_In. unfold page_names.
  rewrite in_app_iff, in_flat_map. split.
  - intros [[H | H] | [i [Hi Hm]]]; [tauto | tauto |].
    right. right. exists i. rewrite Hm. simpl. tauto.
  - intros [H | [H | [i [Hi Hm]]]]; [tauto | tauto |].
    right. exists i. split; [exact Hi |].
    destruct (dict_get m i); simpl in Hm; [| tauto].
    destruct Hm as [-> | []]. reflexivity.
Qed.

Lemma scan_pages_Ok t m pages : forall u s,
  scan_pages t m pages u = Ok s ->
  Forall (fun page => exists content, _read_xml_file t page = Ok content) pages
  /\ (NoDup u -> NoDup s)
  /\ forall x, In x s <->
       In x u \/ exists page content,
                   In page pages /\ _read_xml_file t page = Ok content
                   /\ In x (page_names m content).
Proof.
  induction pages as [| page pages IH]; intros u s; simpl.
  - intros [= <-]. repeat split; [constructor | tauto | tauto |].
    intros [H | [? [? [[] _]]]]. exact H.
  - intros H. apply bindR_Ok in H. destruct H as [content [Hr H]].
    destruct (IH _ _ H) as [Hall [Hnd Hin]]. repeat split.
    + constructor; [eauto | exact Hall].
    + intros Hu. apply Hnd, add_by_id_NoDup, set_update_NoDup, Hu.
    + rewrite Hin, page_step_In.
      intros [[Hx | Hx] | [pg [c [Hpg Hc]]]]; [tauto | |].
      * right. exists page, content. tauto.
      * right. exists pg, c. tauto.
    + rewrite Hin, page_step_In.
      intros [Hx | [pg [c [[<- | Hpg] [Hc Hx]]]]]; [tauto | |].
      * left. right. rewrite Hr in Hc. injection Hc as <-. exact Hx.
      * right. exists pg, c. tauto.
Qed.

Lemma scan_pages_total t m pages : forall u,
  Forall (fun page => exists content, _read_xml_file t page = Ok content) pages ->
  exists s, scan_pages t m pages u = Ok s.
Proof.
  induction pages as [| page pages IH]; intros u H; simpl.
  - eauto.
  - inversion H as [| ? ? [content Hc] Hrest]; subst.
    rewrite Hc. simpl. apply IH, Hrest.
Qed.

Lemma _get_page_files_runtime rt1 rt2 t d l1 :
  _get_page_files rt1 t d = Ok l1 ->
  exists l2, _get_page_files rt2 t d = Ok l2 /\ Permutation l1 l2.
Proof.
  unfold _get_page_files.
  match goal with |- context [bindR ?r _] => destruct r as [pf | e] end;
    simpl; [| discriminate].
  destruct (is_empty pf).
  - intros [= <-]. eexists. split; [reflexivity |].
    apply Permutation_map. unfold glob.
    eapply perm_trans; [apply scandir_perm |].
    apply Permutation_sym, scandir_perm.
  - intros [= <-]. eexists. split; [reflexivity | apply Permutation_refl].
Qed.

Lemma _find_used_masters_Ok rt t d mi used :
  _find_used_masters rt t d mi = Ok used ->
  NoDup used /\
  exists pages,
    _get_page_files rt t d = Ok pages /\
    forall x, In x used <->
      exists page content,
        In page pages /\ _read_xml_file t page = Ok content
        /\ In x (page_names (id_to_name_of mi) content).
Proof.
  unfold _find_used_masters. intros H. apply bindR_Ok in H.
  destruct H as [pages [Hp H]].
  destruct (scan_pages_Ok _ _ _ _ _ H) as [_ [Hnd Hin]]. split.
  - apply Hnd. constructor.
  - exists pages. split; [exact Hp |]. intros x. rewrite Hin. simpl. tauto.
Qed.

Lemma _find_used_masters_runtime rt1 rt2 t d mi u1 :
  _find_used_masters rt1 t d mi = Ok u1 ->
  exists u2, _find_used_masters rt2 t d mi = Ok u2
             /\ forall x, In x u1 <-> In x u2.
Proof.
  unfold _find_used_masters. intros H. apply bindR_Ok in H.
  destruct H as [l1 [Hp H]].
  destruct (_get_page_files_runtime rt1 rt2 _ _ _ Hp) as [l2 [Hp2 Hperm]].
  rewrite Hp2. simpl.
  destruct (scan_pages_Ok _ _ _ _ _ H) as [Hall [_ Hin]].
  destruct (scan_pages_total t (id_to_name_of mi) l2 []) as [u2 Hu2].
  { rewrite Forall_forall in *. intros pg Hpg. apply Hall.
    eapply Permutation_in; [apply Permutation_sym, Hperm | exact Hpg]. }
  exists u2. split; [exact Hu2 |].
  destruct (scan_pages_Ok _ _ _ _ _ Hu2) as [_ [_ Hin2]].
  intros x. rewrite Hin, Hin2.
  split; (intros [Hx | [pg [c [Hpg Hc]]]]; [tauto |]); right; exists pg, c;
    (split; [| tauto]).
  - eapply Permutation_in; eassumption.
  - eapply Permutation_in; [apply Permutation_sym |]; eassumption.
Qed.

(** ** The validator *)

Lemma check_sample_length rt1 rt2 ms e1 e2 :
  List.length e1 = List.length e2 ->
  List.length (check_sample rt1 ms e1) = List.length (check_sample rt2 ms e2).
Proof.
  intros H. unfold check_sample, append. destruct ms as [| sample _]; [exact H |].
  repeat match goal with
    | |- context [if ?c then _ else _] => destruct c
    | |- context [match find ?a ?b with _ => _ end] => destruct (find a b)
    | |- context [match filter ?a ?b with _ => _ end] => destruct (filter a b)
    end;
    rewrite ?length_app; cbn [List.length]; lia.
Qed.

Lemma check_rels_file_length t p e1 e2 :
  List.length e1 = List.length e2 ->
  match check_rels_file t p e1, check_rels_file t p e2 with
  | Ok (e1', ids1), Ok (e2', ids2) =>
      List.length e1' = List.length e2' /\ ids1 = ids2
  | Raise x1, Raise x2 => x1 = x2
  | _, _ => False
  end.
Proof.
  intros H. unfold check_rels_file, append.
  destruct (exists_ t (rels_path p)); [| now split].
  destruct (_parse_xml_file t (rels_path p)); cbn [bindR]; [| reflexivity].
  destruct (_ && _); rewrite ?length_app; cbn [List.length]; split;
    try reflexivity; lia.
Qed.

(** The run-time environment only shows in the wording of one message. *)
Lemma validation_errors_runtime rt1 rt2 t p :
  match validation_errors rt1 t p, validation_errors rt2 t p with
  | Ok e1, Ok e2 => List.length e1 = List.length e2
  | Raise x1, Raise x2 => x1 = x2
  | _, _ => False
  end.
Proof.
  unfold validation_errors.
  destruct (_parse_xml_file t (masters_xml p)) as [mroot | e]; cbn [bindR];
    [| reflexivity].
  set (ms := findall mroot (qname VISIO_NS "Master")).
  set (e0 := check_namespace mroot (check_required_files t p [])).
  pose proof (check_sample_length rt1 rt2 ms e0 e0 eq_refl) as Hs.
  pose proof (check_rels_file_length t p _ _ Hs) as Hr.
  destruct (check_rels_file t p (check_sample rt1 ms e0)) as [[e1 ids1] | x1],
           (check_rels_file t p (check_sample rt2 ms e0)) as [[e2 ids2] | x2];
    cbn [bindR]; try exact Hr.
  destruct Hr as [Hlen <-]. unfold check_integrity, extend.
  destruct (_ && _); rewrite ?length_app; lia.
Qed.

Lemma _validate_vsdx_structure_runtime rt1 rt2 t p :
  _validate_vsdx_structure rt1 t p = Ok tt ->
  _validate_vsdx_structure rt2 t p = Ok tt.
Proof.
  unfold _validate_vsdx_structure.
  destruct (negb (exists_ t (masters_xml p))); [reflexivity |].
  pose proof (validation_errors_runtime rt1 rt2 t p) as H.
  destruct (validation_errors rt1 t p) as [e1 | x1],
           (validation_errors rt2 t p) as [e2 | x2];
    simpl; try discriminate; try contradiction.
  destruct e1, e2; simpl in *; try discriminate. reflexivity.
Qed.

(** ** Analysis *)

Lemma fold_left_Permutation {A B} (f : A -> B -> A) :
  (forall a x y, f (f a x) y = f (f a y) x) ->
  forall l1 l2, Permutation l1 l2 ->
  forall a, fold_left f l1 a = fold_left f l2 a.
Proof.
  intros Hf l1 l2 H. induction H; intros a; simpl.
  - reflexivity.
  - apply IHPermutation.
  - now rewrite Hf.
  - now rewrite IHPermutation1.
Qed.

Lemma _calculate_unused_size_runtime rt1 rt2 t unused mi ri d :
  _calculate_unused_size rt1 t unused mi ri d =
  _calculate_unused_size rt2 t unused mi ri d.
Proof.
  unfold _calculate_unused_size. apply fold_left_Permutation.
  - intros a x y.
    repeat match goal with
      | |- context [if ?c then _ else _] => destruct c
      | |- context [match dict_get t ?k with _ => _ end] => destruct (dict_get t k)
      end; lia.
  - eapply perm_trans; [apply set_iter_perm |].
    apply Permutation_sym, set_iter_perm.
Qed.

Lemma set_inter_comm_length a b :
  NoDup a -> NoDup b ->
  List.length (set_inter a b) = List.length (filter (fun x => set_mem x a) b).
Proof.
  intros Ha Hb. apply Permutation_length, NoDup_Permutation.
  - now apply NoDup_filter.
  - now apply NoDup_filter.
  - intros x. rewrite set_inter_In, filter_In, set_mem_In. tauto.
Qed.

Lemma analyze_extracted_conservation rt t r :
  analyze_extracted rt t = Ok r ->
  used_masters r + unused_masters r = total_masters r.
Proof.
  unfold analyze_extracted.
  destruct (negb (exists_ t (masters_xml _make_vsdx_paths))).
  - intros [= <-]. reflexivity.
  - intros H.
    apply bindR_Ok in H. destruct H as [_ [_ H]].
    apply bindR_Ok in H. destruct H as [[mroot mi] [_ H]].
    apply bindR_Ok in H. destruct H as [[rroot ri] [_ H]].
    apply bindR_Ok in H. destruct H as [used [Hu H]].
    injection H as <-. simpl.
    destruct (_find_used_masters_Ok _ _ _ _ _ Hu) as [Hnd _].
    rewrite set_inter_comm_length; [| exact Hnd | apply set_of_NoDup].
    unfold set_diff. apply filter_length.
Qed.

Lemma analyze_extracted_runtime rt1 rt2 t r :
  analyze_extracted rt1 t = Ok r -> analyze_extracted rt2 t = Ok r.
Proof.
  unfold analyze_extracted.
  destruct (negb (exists_ t (masters_xml _make_vsdx_paths)));
    [trivial |].
  intros H.
  apply bindR_Ok in H. destruct H as [[] [Hv H]].
  rewrite (_validate_vsdx_structure_runtime rt1 rt2 _ _ Hv). cbn [bindR].
  apply bindR_Ok in H. destruct H as [[mroot mi] [Hm H]]. rewrite Hm. cbn [bindR].
  apply bindR_Ok in H. destruct H as [[rroot ri] [Hr H]]. rewrite Hr. cbn [bindR].
  apply bindR_Ok in H. destruct H as [u1 [Hu H]].
  destruct (_find_used_masters_runtime rt1 rt2 _ _ _ _ Hu) as [u2 [Hu2 Hsame]].
  rewrite Hu2. cbn [bindR]. injection H as <-.
  destruct (_find_used_masters_Ok _ _ _ _ _ Hu) as [Hnd1 _].
  destruct (_find_used_masters_Ok _ _ _ _ _ Hu2) as [Hnd2 _].
  assert (Hdiff : set_diff (set_of (keys mi)) u2 = set_diff (set_of (keys mi)) u1).
  { apply filter_ext. intros x. f_equal.
    destruct (set_mem x u1) eqn:E1, (set_mem x u2) eqn:E2; try reflexivity.
    - apply set_mem_In, Hsame, set_mem_In in E1. congruence.
    - apply set_mem_In, Hsame, set_mem_In in E2. congruence. }
  assert (Hinter : Permutation (set_inter u2 (set_of (keys mi)))
                               (set_inter u1 (set_of (keys mi)))).
  { apply NoDup_Permutation; try (apply NoDup_filter; assumption).
    intros x. rewrite !set_inter_In, Hsame. tauto. }
  rewrite Hdiff. f_equal. f_equal.
  - apply Permutation_length, Hinter.
  - apply sorted_Permutation.
    eapply perm_trans; [apply set_iter_perm |].
    eapply perm_trans; [apply Hinter |]. apply Permutation_sym, set_iter_perm.
  - apply sorted_Permutation.
    eapply perm_trans; [apply set_iter_perm |].
    apply Permutation_sym, set_iter_perm.
  - f_equal. apply _calculate_unused_size_runtime.
Qed.

Lemma analyze_vsdx_eq rt p w :
  analyze_vsdx rt p w =
  if negb (dict_mem (path_str p) (host w))
  then (Raise (FileNotFoundError ("File not found: " ++ path_str p)), w)
  else if negb (String.eqb (lower (suffix p)) ".vsdx")
  then (Raise (ValueError ("Not a .vsdx file: " ++ path_str p)), w)
  else
    match dict_get (host w) (path_str p) with
    | Some (ZipFile _ content) =>
        (analyze_extracted rt content,
         replay rt [MkTemp; Extract (path_str p); RmTemp] w)
    | Some (PlainFile _) => (Raise BadZipFile, replay rt [MkTemp; RmTemp] w)
    | None =>
        (Raise (FileNotFoundError (path_str p)), replay rt [MkTemp; RmTemp] w)
    end.
Proof.
  unfold analyze_vsdx, bind, _validate_vsdx_path.
  destruct (negb (dict_mem (path_str p) (host w))); [reflexivity |].
  destruct (negb (String.eqb (lower (suffix p)) ".vsdx")); [reflexivity |].
  unfold with_tempdir, extractall, perform, get_work, lift, replay. simpl.
  destruct (dict_get (host w) (path_str p)) as [[sz content | sz] |];
    reflexivity.
Qed.

Lemma replay_host_analysis rt p w :
  host (replay rt [MkTemp; Extract p; RmTemp] w) = host w.
Proof.
  unfold replay. simpl. destruct (dict_get (host w) p) as [[] |]; reflexivity.
Qed.

(** ** Removing children *)

Lemma remove_child_Some k cs : forall cs',
  remove_child k cs = Some cs' ->
  In k (map oid cs) /\
  (NoDup (map oid cs) -> cs' = filter (fun c => negb (Nat.eqb (oid c) k)) cs).
Proof.
  induction cs as [| c cs IH]; intros cs'; simpl; [discriminate |].
  destruct (Nat.eqb (oid c) k) eqn:E.
  - apply Nat.eqb_eq in E. intros [= <-]. split; [now left |].
    intros Hnd. inversion Hnd as [| ? ? Hn _]; subst. simpl.
    symmetry. apply forallb_filter_id. apply forallb_forall.
    intros d Hd. apply negb_true_iff, Nat.eqb_neq. intros Heq.
    apply Hn. rewrite <- Heq. now apply in_map.
  - destruct (remove_child k cs) as [r |] eqn:Er; simpl; [| discriminate].
    intros [= <-]. destruct (IH _ eq_refl) as [Hin Hf]. split; [now right |].
    intros Hnd. inversion Hnd; subst. simpl. f_equal. now apply Hf.
Qed.

Lemma remove_child_None k cs :
  remove_child k cs = None -> ~ In k (map oid cs).
Proof.
  induction cs as [| c cs IH]; simpl; [tauto |].
  destruct (Nat.eqb (oid c) k) eqn:E; [discriminate |].
  apply Nat.eqb_neq in E.
  destruct (remove_child k cs); simpl; [discriminate |].
  intros _ [H | H]; [contradiction | now apply IH].
Qed.

Lemma remove_Ok root sub root' :
  remove root sub = Ok root' ->
  oid root' = oid root /\ tag root' = tag root /\ attrib root' = attrib root
  /\ In (oid sub) (map oid (children root))
  /\ (NoDup (map oid (children root)) ->
      children root' =
      filter (fun c => negb (Nat.eqb (oid c) (oid sub))) (children root)).
Proof.
  unfold remove. destruct (remove_child _ _) as [cs |] eqn:E; [| discriminate].
  intros [= <-]. simpl. destruct (remove_child_Some _ _ _ E). tauto.
Qed.

Lemma filter_filter {A} (f g : A -> bool) l :
  filter f (filter g l) = filter (fun x => g x && f x) l.
Proof.
  induction l as [| a l IH]; simpl; [reflexivity |].
  destruct (g a); simpl; [destruct (f a) |]; now rewrite IH.
Qed.

Lemma NoDup_map_filter {A B} (f : A -> B) (p : A -> bool) l :
  NoDup (map f l) -> NoDup (map f (filter p l)).
Proof.
  induction l as [| a l IH]; simpl; [trivial |].
  intros H. inversion H as [| ? ? Hn Hd]; subst.
  destruct (p a); simpl; [constructor |]; auto.
  intros Hin. apply Hn. apply in_map_iff in Hin.
  destruct Hin as [x [Hx Hin]]. apply filter_In in Hin.
  apply in_map_iff. exists x. tauto.
Qed.

Lemma remove_unused_Ok mi names : forall root n root' n',
  NoDup (map oid (children root)) ->
  remove_unused mi names root n = Ok (root', n') ->
  oid root' = oid root /\ tag root' = tag root /\ attrib root' = attrib root
  /\ children root' =
     filter (fun c => negb (recorded_under mi names c)) (children root)
  /\ n' = n + List.length (filter (fun name => dict_mem name mi) names).
Proof.
  induction names as [| name names IH]; intros root n root' n' Hnd; simpl.
  - intros [= <- <-]. repeat split; [| lia].
    symmetry. apply forallb_filter_id. now apply forallb_forall.
  - destruct (dict_get mi name) as [info |] eqn:E.
    + intros H. apply bindR_Ok in H. destruct H as [root1 [Hr H]].
      destruct (remove_Ok _ _ _ Hr) as [Ho [Ht [Ha [_ Hc]]]].
      specialize (Hc Hnd).
      apply IH in H; [| rewrite Hc; now apply NoDup_map_filter].
      destruct H as [Ho' [Ht' [Ha' [Hc' Hn']]]].
      repeat split; try congruence.
      * rewrite Hc', Hc, filter_filter. apply filter_ext. intros c.
        rewrite ?E, negb_orb. now rewrite Nat.eqb_sym.
      * unfold dict_mem at 1. rewrite E. simpl. lia.
    + intros H. apply IH in H; [| exact Hnd].
      destruct H as [Ho' [Ht' [Ha' [Hc' Hn']]]].
      repeat split; try assumption.
      unfold dict_mem at 1. now rewrite E.
Qed.

Lemma remove_rels_Ok keep rels : forall root,
  NoDup (map oid (children root)) ->
  (forall r, In r rels -> In (oid r) (map oid (children root))) ->
  NoDup (map oid rels) ->
  exists root',
    remove_rels keep rels root = Ok root'
    /\ oid root' = oid root /\ tag root' = tag root /\ attrib root' = attrib root
    /\ children root' =
       filter (fun c => negb (existsb (fun r => rel_dropped keep r
                                               && Nat.eqb (oid r) (oid c)) rels))
              (children root).
Proof.
  induction rels as [| rel rels IH]; intros root Hnd Hin Hnr; simpl.
  - exists root. repeat split.
    symmetry. apply forallb_filter_id. now apply forallb_forall.
  - inversion Hnr as [| ? ? Hn Hr]; subst.
    fold (rel_dropped keep rel). destruct (rel_dropped keep rel) eqn:E.
    + unfold remove at 1.
      destruct (remove_child (oid rel) (children root)) as [cs |] eqn:Ec.
      2:{ exfalso. apply remove_child_None in Ec. apply Ec, Hin. now left. }
      destruct (remove_child_Some _ _ _ Ec) as [_ Hcs]. specialize (Hcs Hnd).
      cbn [bindR].
      destruct (IH (Elem (oid root) (tag root) (attrib root) cs)) as [root' H].
      * simpl. rewrite Hcs. now apply NoDup_map_filter.
      * intros r Hr'. simpl. rewrite Hcs.
        specialize (Hin r (or_intror Hr')).
        apply in_map_iff in Hin. destruct Hin as [c [Hc1 Hc2]].
        apply in_map_iff. exists c. split; [exact Hc1 |].
        apply filter_In. split; [exact Hc2 |].
        apply negb_true_iff, Nat.eqb_neq. intros Heq. apply Hn.
        rewrite <- Heq, Hc1. now apply in_map.
      * exact Hr.
      * exists root'. simpl in H.
        destruct H as [H [Ho [Ht [Ha Hc]]]]. repeat split; try assumption.
        rewrite Hc, Hcs, filter_filter. apply filter_ext. intros c.
        rewrite negb_orb. simpl. now rewrite Nat.eqb_sym.
    + destruct (IH root Hnd) as [root' H]; [intros; apply Hin; now right | exact Hr |].
      exists root'. destruct H as [H [Ho [Ht [Ha Hc]]]].
      repeat split; assumption.
Qed.

Lemma remove_rels_children keep root :
  NoDup (map oid (children root)) ->
  exists root',
    remove_rels keep (children root) root = Ok root'
    /\ tag root' = tag root /\ attrib root' = attrib root
    /\ children root' =
       filter (fun c => negb (rel_dropped keep c)) (children root).
Proof.
  intros Hnd.
  destruct (remove_rels_Ok keep (children root) root Hnd) as [root' H];
    [intros r Hr; now apply in_map | exact Hnd |].
  exists root'. destruct H as [H [_ [Ht [Ha Hc]]]].
  repeat split; try assumption. rewrite Hc. apply filter_ext_in.
  intros c Hc'. f_equal.
  destruct (rel_dropped keep c) eqn:E.
  - apply existsb_exists. exists c. rewrite E, Nat.eqb_refl. tauto.
  - destruct (existsb _ _) eqn:Ex; [| reflexivity].
    apply existsb_exists in Ex. destruct Ex as [r [Hr Hx]].
    apply andb_true_iff in Hx. destruct Hx as [Hd Heq].
    apply Nat.eqb_eq in Heq.
    rewrite (NoDup_oid_inj _ _ _ Hnd Hr Hc' Heq) in Hd. congruence.
Qed.

(** ** Paths *)

Lemma append_inj_l (a b c : string) : a ++ b = a ++ c -> b = c.
Proof. induction a; simpl; [trivial |]. intros [= H]. auto. Qed.

Lemma strip_prefix_append p s : strip_prefix p (p ++ s) = Some s.
Proof. induction p; simpl; [reflexivity |]. now rewrite Ascii.eqb_refl. Qed.

Lemma strip_prefix_Some p : forall s r, strip_prefix p s = Some r -> s = p ++ r.
Proof.
  induction p as [| a p IH]; intros s r; simpl.
  - now intros [= ->].
  - destruct s as [| b s]; [discriminate |].
    destruct (Ascii.eqb a b) eqn:E; [| discriminate].
    apply Ascii.eqb_eq in E. subst b. intros H. now rewrite (IH _ _ H).
Qed.

Lemma append_assoc (a b c : string) : (a ++ b) ++ c = a ++ (b ++ c).
Proof. induction a; simpl; [reflexivity |]. now rewrite IHa. Qed.

Lemma joinpath_inj d n1 n2 : joinpath d n1 = joinpath d n2 -> n1 = n2.
Proof. unfold joinpath. intros H. apply append_inj_l in H. now injection H. Qed.

Lemma child_name_joinpath d n :
  nonempty n = true -> contains_char "/"%char n = false ->
  child_name d (joinpath d n) = Some n.
Proof.
  intros H1 H2. unfold child_name, joinpath.
  rewrite <- append_assoc, strip_prefix_append, H1, H2. reflexivity.
Qed.

Lemma child_name_Some d k n :
  child_name d k = Some n ->
  k = joinpath d n /\ nonempty n = true /\ contains_char "/"%char n = false.
Proof.
  unfold child_name. destruct (strip_prefix (d ++ "/") k) as [r |] eqn:E;
    [| discriminate].
  destruct (nonempty r) eqn:E1; [| discriminate].
  destruct (contains_char "/"%char r) eqn:E2; [discriminate |].
  intros [= <-]. apply strip_prefix_Some in E. subst k.
  unfold joinpath. now rewrite append_assoc.
Qed.

Lemma listdir_In t d n :
  In n (listdir t d) <->
  In (joinpath d n) (keys t) /\ nonempty n = true
  /\ contains_char "/"%char n = false.
Proof.
  unfold listdir. rewrite in_flat_map. split.
  - intros [k [Hk Hn]]. destruct (child_name d k) as [m |] eqn:E;
      [| contradiction].
    destruct Hn as [<- | []]. apply child_name_Some in E.
    destruct E as [-> [? ?]]. tauto.
  - intros [Hk [H1 H2]]. exists (joinpath d n). split; [exact Hk |].
    rewrite child_name_joinpath by assumption. now left.
Qed.

Lemma glob_In rt t d pre suf n :
  In n (glob rt t d pre suf) <->
  In (joinpath d n) (keys t) /\ contains_char "/"%char n = false
  /\ nonempty n = true /\ fnmatch pre suf n = true.
Proof.
  unfold glob. rewrite scandir_In, filter_In, listdir_In. tauto.
Qed.

Lemma with_suffix_fresh p :
  lower (suffix p) = ".vsdx" -> with_suffix p ".vsdx.bak" <> path_str p.
Proof.
  unfold with_suffix, path_str. intros H Heq. apply append_inj_l in Heq.
  rewrite <- Heq in H. discriminate.
Qed.

(** ** Effects *)

Lemma bind_Ok {A B} (m : M A) (k : A -> M B) w b w' :
  bind m k w = (Ok b, w') ->
  exists a w1, m w = (Ok a, w1) /\ k a w1 = (Ok b, w').
Proof.
  unfold bind. destruct (m w) as [[a | e] w1]; [eauto | discriminate].
Qed.

Lemma lift_Ok {A} (r : Result A) w a w' :
  lift r w = (Ok a, w') -> r = Ok a /\ w' = w.
Proof. unfold lift. now intros [= -> ->]. Qed.

Lemma replay_app rt a b w :
  replay rt (a ++ b) w = replay rt b (replay rt a w).
Proof. apply fold_left_app. Qed.

Lemma replay_log rt evs : forall w, log (replay rt evs w) = (log w ++ evs)%list.
Proof.
  induction evs as [| ev evs IH]; intros w; simpl.
  - now rewrite app_nil_r.
  - change (log (replay rt evs (record_event ev (apply_event rt ev w)))
            = (log w ++ ev :: evs)%list).
    rewrite IH. simpl.
    replace (log (apply_event rt ev w)) with (log w).
    + now rewrite <- app_assoc.
    + destruct ev; simpl; try reflexivity;
        repeat match goal with
          | |- context [match ?x with _ => _ end] => destruct x
          end; reflexivity.
Qed.

(** *** Destinations *)

Lemma contains_slash_append s x :
  contains_char "/"%char (s ++ x)
  = contains_char "/"%char s || contains_char "/"%char x.
Proof.
  induction s as [| c s IH]; simpl; [reflexivity |].
  now rewrite IH, orb_assoc.
Qed.

Lemma dir_prefix_append s x :
  contains_char "/"%char x = false -> dir_prefix (s ++ x) = dir_prefix s.
Proof.
  intros Hx. induction s as [| c s IH]; simpl.
  - destruct x as [| a x]; [reflexivity |]. simpl in *.
    apply orb_false_iff in Hx. destruct Hx as [Ha Hx]. now rewrite Hx, Ha.
  - rewrite contains_slash_append, Hx, orb_false_r, IH. reflexivity.
Qed.

Lemma lower_char_slash c :
  Ascii.eqb (lower_char c) "/"%char = Ascii.eqb c "/"%char.
Proof. destruct c as [[] [] [] [] [] [] [] []]; reflexivity. Qed.

Lemma lower_slash s :
  contains_char "/"%char (lower s) = contains_char "/"%char s.
Proof.
  induction s as [| c s IH]; simpl; [reflexivity |].
  now rewrite lower_char_slash, IH.
Qed.

(** The backup lies in the directory of the input. *)
Lemma backup_dir_prefix p :
  lower (suffix p) = ".vsdx" ->
  dir_prefix (with_suffix p ".vsdx.bak") = dir_prefix (path_str p).
Proof.
  intros H. unfold with_suffix, path_str.
  rewrite !dir_prefix_append; [reflexivity | | reflexivity].
  rewrite <- lower_slash, H. reflexivity.
Qed.

Lemma parent_exists_sibling rt (files : dict HostFile) src dst :
  dict_mem src files = true -> dir_prefix dst = dir_prefix src ->
  parent_exists rt files dst = true.
Proof.
  intros Hm Hd. unfold parent_exists. apply orb_true_iff. left.
  apply existsb_exists. exists src. split.
  - apply dict_mem_In. exact Hm.
  - rewrite Hd. apply String.eqb_refl.
Qed.

(** A copy next to its source cannot be refused. *)
Lemma copy2_refusal_sibling rt (files : dict HostFile) src dst :
  dict_mem src files = true -> dir_prefix dst = dir_prefix src ->
  copy2_refusal rt files src dst = None.
Proof.
  intros Hm Hd. unfold copy2_refusal, other_spelling.
  rewrite Hd, String.eqb_refl. cbn [negb andb].
  now rewrite (parent_exists_sibling rt _ src dst Hm Hd).
Qed.

Lemma copy2_backup rt p w :
  dict_mem (path_str p) (host w) = true -> lower (suffix p) = ".vsdx" ->
  copy2 rt (path_str p) (with_suffix p ".vsdx.bak") w
  = perform rt (Copy (path_str p) (with_suffix p ".vsdx.bak")) w.
Proof.
  intros Hm Hs. unfold copy2.
  rewrite copy2_refusal_sibling; [reflexivity | exact Hm |].
  now apply backup_dir_prefix.
Qed.


Lemma copy2_Ok rt src dst w u w' :
  copy2 rt src dst w = (Ok u, w') ->
  copy2_refusal rt (host w) src dst = None /\ w' = replay rt [Copy src dst] w.
Proof.
  unfold copy2. destruct (copy2_refusal rt (host w) src dst); [discriminate |].
  unfold perform. intros [= _ <-]. auto.
Qed.

Lemma move_Ok rt dst w u w' :
  move rt dst w = (Ok u, w') ->
  move_refusal rt (host w) dst = None /\ w' = replay rt [Move dst] w.
Proof.
  unfold move. destruct (move_refusal rt (host w) dst); [discriminate |].
  unfold perform. intros [= _ <-]. auto.
Qed.

Lemma copy2_accepted rt src dst w :
  copy2_refusal rt (host w) src dst = None ->
  copy2 rt src dst w = (Ok tt, replay rt [Copy src dst] w).
Proof. unfold copy2. now intros ->. Qed.


Lemma copy2_refused rt src dst w e :
  copy2_refusal rt (host w) src dst = Some e ->
  copy2 rt src dst w = (Raise e, w).
Proof. unfold copy2. now intros ->. Qed.

Lemma move_refused rt dst w e :
  move_refusal rt (host w) dst = Some e -> move rt dst w = (Raise e, w).
Proof. unfold move. now intros ->. Qed.

Lemma unlink_unused_Ok rt d keep names : forall w u w',
  unlink_unused rt d keep names w = (Ok u, w') ->
  w' = replay rt (map (fun name => Unlink (joinpath d name))
                      (filter (unused_file keep) names)) w.
Proof.
  induction names as [| name names IH]; intros w u w'; simpl.
  - unfold ret. now intros [= _ <-].
  - intros H. apply bind_Ok in H. destruct H as [[] [w1 [H1 H2]]].
    apply IH in H2. subst w'.
    destruct (unused_file keep name); simpl.
    + unfold unlink in H1.
      destruct (dict_get (work w) (joinpath d name)) as [[f | sz] |];
        try discriminate.
      unfold perform in H1. injection H1 as <-. reflexivity.
    + unfold ret in H1. injection H1 as <-. reflexivity.
Qed.
Lemma with_tempdir_Ok {A} rt (body : M A) w a w' :
  with_tempdir rt body w = (Ok a, w') ->
  exists w1, body (replay rt [MkTemp] w) = (Ok a, w1) /\ w' = replay rt [RmTemp] w1.
Proof.
  unfold with_tempdir, perform, replay. simpl.
  match goal with |- context [body ?x] => destruct (body x) as [r w1] end.
  intros [= -> <-]. eauto.
Qed.

Lemma shrink_extracted_Ok rt path final osz w r w' :
  shrink_extracted rt path final osz w = (Ok r, w') ->
  exists sz content,
  dict_get (host w) (path_str path) = Some (ZipFile sz content) /\
  if exists_ content (masters_xml _make_vsdx_paths) then
    exists pr,
      prunes rt content pr /\ r = inr (pr_removed pr) /\
      w' = replay rt (Extract (path_str path) :: prune_events rt content pr
                      ++ [CreateZip; Move (path_str final)]) w
  else
    r = inl (_empty_result osz (path_str final)) /\
    w' = replay rt (Extract (path_str path) ::
                    (if negb (String.eqb (path_str final) (path_str path))
                     then [Copy (path_str path) (path_str final)] else [])) w.
Proof.
  intros H. unfold shrink_extracted in H.
  apply bind_Ok in H. destruct H as [[] [w1 [He H]]].
  unfold extractall in He.
  destruct (dict_get (host w) (path_str path)) as [[sz content | ?] |] eqn:Hhost;
    try discriminate.
  exists sz, content. split; [reflexivity |].
  unfold perform in He. injection He as <-.
  apply bind_Ok in H. destruct H as [t [w2 [Hg H]]].
  unfold get_work in Hg. injection Hg as <- <-.
  cbn [work record_event apply_event] in H. rewrite Hhost in H. cbn [work] in H.
  match type of H with ?f ?x = _ => set (w1 := x) in * end.
  assert (Hw1 : replay rt [Extract (path_str path)] w = w1).
  { unfold replay. simpl. now rewrite Hhost. }
  assert (Hwork : work w1 = content) by reflexivity.
  clearbody w1.
  change (Extract (path_str path) :: ?l) with ([Extract (path_str path)] ++ l)%list.
  destruct (exists_ content (masters_xml _make_vsdx_paths)); cbn [negb] in H.
  - apply bind_Ok in H. destruct H as [[] [w2 [Hv H]]].
    apply lift_Ok in Hv. destruct Hv as [Hv ->].
    apply bind_Ok in H. destruct H as [[mroot mi] [w2 [Hm H]]].
    apply lift_Ok in Hm. destruct Hm as [Hm ->]. cbn [fst snd] in H.
    apply bind_Ok in H. destruct H as [[rroot ri] [w2 [Hr H]]].
    apply lift_Ok in Hr. destruct Hr as [Hr ->]. cbn [fst snd] in H.
    apply bind_Ok in H. destruct H as [used [w2 [Hu H]]].
    apply lift_Ok in Hu. destruct Hu as [Hu ->].
    apply bind_Ok in H. destruct H as [[mroot' n] [w2 [Hrm H]]].
    apply lift_Ok in Hrm. destruct Hrm as [Hrm ->]. cbn [fst snd] in H.
    apply bind_Ok in H. destruct H as [[] [w2 [Hw H]]].
    unfold write_xml, perform in Hw. injection Hw as <-.
    apply bind_Ok in H. destruct H as [rroot' [w3 [Hrr H]]].
    apply lift_Ok in Hrr. destruct Hrr as [Hrr ->].
    apply bind_Ok in H. destruct H as [[] [w3 [Hw H]]].
    unfold write_xml, perform in Hw. injection Hw as <-.
    apply bind_Ok in H. destruct H as [now_dir [w3 [Hg H]]].
    unfold get_work in Hg. injection Hg as <- <-.
    apply bind_Ok in H. destruct H as [[] [w3 [Hun H]]].
    apply unlink_unused_Ok in Hun.
    apply bind_Ok in H. destruct H as [[] [w4 [Hz H]]].
    unfold perform in Hz. injection Hz as <-.
    apply bind_Ok in H. destruct H as [[] [w4 [Hmv H]]].
    apply move_Ok in Hmv. destruct Hmv as [_ Hmv].
    unfold replay in Hmv. cbn [fold_left] in Hmv. subst w4.
    unfold ret in H. injection H as <- <-.
    exists (mkPruning mroot mi rroot ri used mroot' n rroot').
    split; [repeat split; assumption |]. split; [reflexivity |].
    rewrite !replay_app, Hw1. subst w3.
    unfold prune_events, unlink_events, deleted, rewritten, write_events.
    rewrite replay_app. cbn [work record_event apply_event replay fold_left].
    rewrite Hwork. reflexivity.
  - apply bind_Ok in H. destruct H as [[] [w2 [Hc H]]].
    unfold ret in H. injection H as <- <-. split; [reflexivity |].
    rewrite replay_app, Hw1.
    destruct (negb (path_str final =? path_str path)).
    + apply copy2_Ok in Hc. now destruct Hc as (_ & ->).
    + unfold ret in Hc. now injection Hc as <-.
Qed.


Lemma shrink_vsdx_Ok rt input output backup w res w' :
  shrink_vsdx rt input output backup w = (Ok res, w') ->
  exists sz content,
    dict_get (host w) (path_str input) = Some (ZipFile sz content) /\
    lower (suffix input) = ".vsdx" /\
    if exists_ content (masters_xml _make_vsdx_paths) then
      exists pr, prunes rt content pr /\
        w' = replay rt (shrink_events rt input output backup content pr) w /\
        masters_removed res = pr_removed pr /\
        output_path res = path_str (final_output_of input output) /\
        original_size_mb res = _bytes_to_mb sz
    else
      res = _empty_result sz (path_str (final_output_of input output)) /\
      w' = replay rt (copy_events input output backup) w.
Proof.
  intros H. unfold shrink_vsdx in H.
  apply bind_Ok in H. destruct H as [path [w1 [Hp H]]].
  unfold _validate_vsdx_path in Hp.
  destruct (negb (dict_mem (path_str input) (host w))); [discriminate |].
  destruct (negb (lower (suffix input) =? ".vsdx")) eqn:Esuf; [discriminate |].
  injection Hp as <- <-.
  apply negb_false_iff, String.eqb_eq in Esuf.
  apply bind_Ok in H. destruct H as [osz [w1 [Hs H]]].
  unfold stat_size in Hs.
  destruct (dict_get (host w) (path_str input)) as [f |] eqn:Hf; [| discriminate].
  injection Hs as <- <-.
  apply bind_Ok in H. destruct H as [final [w1 [Hfin H]]].
  assert (Hw1 : final = final_output_of input output /\
                w1 = replay rt (backup_events input output backup) w).
  { unfold final_output_of, backup_events. destruct output as [o |].
    - unfold ret in Hfin. now injection Hfin as <- <-.
    - apply bind_Ok in Hfin. destruct Hfin as [[] [w2 [Hb Hfin]]].
      unfold ret in Hfin. injection Hfin as <- <-. split; [reflexivity |].
      destruct backup.
      + apply copy2_Ok in Hb. now destruct Hb as (_ & ->).
      + unfold ret in Hb. now injection Hb as <-. }
  destruct Hw1 as [-> Hw1].
  assert (Hhost1 : dict_get (host w1) (path_str input) = Some f).
  { subst w1. unfold backup_events.
    destruct output as [o |]; [exact Hf |]. destruct backup; [| exact Hf].
    unfold replay. simpl. rewrite Hf. simpl. rewrite dict_get_set.
    destruct (with_suffix input ".vsdx.bak" =? path_str input) eqn:E; [| exact Hf].
    apply String.eqb_eq in E. now apply with_suffix_fresh in E. }
  apply bind_Ok in H. destruct H as [r [w2 [Hwt H]]].
  apply with_tempdir_Ok in Hwt. destruct Hwt as [w3 [Hbody Hw2]].
  apply shrink_extracted_Ok in Hbody.
  destruct Hbody as [sz [content [Hhost3 Hbody]]].
  change (host (replay rt [MkTemp] w1)) with (host w1) in Hhost3.
  rewrite Hhost1 in Hhost3. injection Hhost3 as ->.
  exists sz, content. split; [reflexivity |]. split; [exact Esuf |].
  destruct (exists_ content (masters_xml _make_vsdx_paths)).
  - destruct Hbody as [pr [Hpr [-> Hw3]]]. exists pr. split; [exact Hpr |].
    apply bind_Ok in H. destruct H as [new_size [w4 [Hst H]]].
    unfold stat_size in Hst.
    destruct (dict_get (host w2) _); [| discriminate].
    injection Hst as <- <-. unfold ret in H. injection H as <- <-.
    split; [| repeat split].
    unfold shrink_events. rewrite Hw2, Hw3, Hw1, <- !replay_app.
    f_equal; cbn [app]; rewrite <- ?app_assoc; reflexivity.
  - destruct Hbody as [-> Hw3]. unfold ret in H. injection H as <- <-.
    split; [reflexivity |].
    unfold copy_events. rewrite Hw2, Hw3, Hw1, <- !replay_app.
    f_equal; cbn [app]; rewrite <- ?app_assoc; reflexivity.
Qed.

(** ** Parsing and serialising *)

Lemma toxml_build x : forall n, toxml (fst (build x n)) = x.
Proof.
  induction x as [t a cs IH] using Xml_rect_list. intros n.
  rewrite build_node.
  assert (Hall : forall m, map toxml (fst (build_all cs m)) = cs).
  { induction IH as [| c cs Hc _ IHcs]; intros m; simpl; [reflexivity |].
    specialize (Hc m). destruct (build c m) as [c' m1].
    specialize (IHcs m1). destruct (build_all cs m1) as [r' m2].
    simpl in *. now rewrite Hc, IHcs. }
  specialize (Hall (S n)). destruct (build_all cs (S n)) as [cs' n'].
  simpl in *. now rewrite Hall.
Qed.

Lemma toxml_fromxml x : toxml (fromxml x) = x.
Proof. apply toxml_build. Qed.

Lemma toxml_children e : xchildren (toxml e) = map toxml (children e).
Proof. now destruct e. Qed.

Lemma fromxml_children_NoDup x : NoDup (map oid (children (fromxml x))).
Proof. apply children_NoDup, descendants_NoDup, fromxml_NoDup. Qed.

Lemma ET_parse_Ok t path root :
  ET_parse t path = Ok root ->
  exists f doc, dict_get t path = Some (FileNode f)
                /\ f_xml f = WellFormed doc /\ root = fromxml doc.
Proof.
  unfold ET_parse. destruct (dict_get t path) as [[f | sz] |]; try discriminate.
  destruct (f_xml f) as [why | doc] eqn:E; [discriminate |].
  intros [= <-]. eauto.
Qed.

(** ** The table of masters *)

Lemma record_master_fold todo : forall done acc,
  NoDup (keys acc) ->
  (forall name info, dict_get acc name = Some info ->
     exists m, In m done /\ describes m name info) ->
  NoDup (keys (fold_left record_master todo acc))
  /\ (forall name info,
        dict_get (fold_left record_master todo acc) name = Some info ->
        exists m, In m (done ++ todo)%list /\ describes m name info).
Proof.
  induction todo as [| m todo IH]; intros done acc Hnd Hacc; simpl.
  - split; [exact Hnd |]. intros name info H. rewrite app_nil_r. eauto.
  - destruct (IH (done ++ [m])%list (record_master acc m)) as [H1 H2].
    + unfold record_master. destruct (nonempty _); [| exact Hnd].
      now apply dict_set_NoDup.
    + intros name info. unfold record_master.
      destruct (nonempty (get m "NameU" "")) eqn:En.
      * rewrite dict_get_set.
        destruct (String.eqb (get m "NameU" "") name) eqn:E.
        -- apply String.eqb_eq in E. intros [= <-]. exists m.
           split; [apply in_or_app; right; now left |].
           subst name. repeat split; assumption.
        -- intros H. destruct (Hacc _ _ H) as [m' [Hm' Hd]].
           exists m'. split; [apply in_or_app; now left | exact Hd].
      * intros H. destruct (Hacc _ _ H) as [m' [Hm' Hd]].
        exists m'. split; [apply in_or_app; now left | exact Hd].
    + split; [exact H1 |]. intros name info H.
      destruct (H2 _ _ H) as [m' [Hm' Hd]]. exists m'.
      split; [| exact Hd]. now rewrite <- app_assoc in Hm'.
Qed.

Lemma _parse_masters_xml_Ok t path root mi :
  _parse_masters_xml t path = Ok (root, mi) ->
  (exists f doc, dict_get t path = Some (FileNode f)
                 /\ f_xml f = WellFormed doc /\ root = fromxml doc)
  /\ NoDup (keys mi)
  /\ forall name info, dict_get mi name = Some info ->
       exists m, In m (findall root (qname VISIO_NS "Master"))
                 /\ describes m name info.
Proof.
  unfold _parse_masters_xml. intros H. apply bindR_Ok in H.
  destruct H as [r [Hp H]]. injection H as -> <-.
  split; [now apply ET_parse_Ok |].
  apply (record_master_fold _ [] []); [constructor | discriminate].
Qed.

Lemma _parse_rels_xml_Ok t path root ri :
  _parse_rels_xml t path = Ok (root, ri) ->
  exists f doc, dict_get t path = Some (FileNode f)
                /\ f_xml f = WellFormed doc /\ root = fromxml doc.
Proof.
  unfold _parse_rels_xml. intros H. apply bindR_Ok in H.
  destruct H as [r [Hp H]]. injection H as -> <-. now apply ET_parse_Ok.
Qed.

Lemma findall_In root t m :
  In m (findall root t) <->
  In m (flat_map iter (children root)) /\ tag m = t.
Proof.
  unfold findall. rewrite filter_In. split; intros [H1 H2]; split; trivial.
  - now apply String.eqb_eq.
  - now apply String.eqb_eq.
Qed.

(** Two records of the table never share an element. *)
Lemma masters_info_elements t path root mi n1 n2 i1 i2 :
  _parse_masters_xml t path = Ok (root, mi) ->
  dict_get mi n1 = Some i1 -> dict_get mi n2 = Some i2 ->
  oid (info_element i1) = oid (info_element i2) -> n1 = n2.
Proof.
  intros Hp H1 H2 Ho.
  destruct (_parse_masters_xml_Ok _ _ _ _ Hp) as [[f [doc [_ [_ ->]]]] [_ Hd]].
  destruct (Hd _ _ H1) as [m1 [Hm1 [He1 [Hn1 _]]]].
  destruct (Hd _ _ H2) as [m2 [Hm2 [He2 [Hn2 _]]]].
  apply findall_In in Hm1, Hm2. destruct Hm1 as [Hm1 _], Hm2 as [Hm2 _].
  rewrite He1, He2 in Ho.
  assert (m1 = m2).
  { eapply NoDup_oid_inj; try eassumption.
    apply (descendants_NoDup _ (fromxml_NoDup doc)). }
  congruence.
Qed.

(** ** What is kept *)

Lemma keep_sets_In rt mi ri used :
  (forall x, In x (fst (keep_sets rt mi ri used)) <->
     exists name info, In name used /\ dict_get mi name = Some info
                       /\ info_rel_id info = x)
  /\ (forall y, In y (snd (keep_sets rt mi ri used)) <->
        exists name info, In name used /\ dict_get mi name = Some info
                          /\ dict_get ri (info_rel_id info) = Some y).
Proof.
  unfold keep_sets.
  assert (Hgen : forall names keep,
    let r := fold_left (record_keep mi ri) names keep in
    (forall x, In x (fst r) <->
       In x (fst keep) \/
       exists name info, In name names /\ dict_get mi name = Some info
                         /\ info_rel_id info = x)
    /\ (forall y, In y (snd r) <->
          In y (snd keep) \/
          exists name info, In name names /\ dict_get mi name = Some info
                            /\ dict_get ri (info_rel_id info) = Some y)).
  { induction names as [| name names IH]; intros keep; simpl.
    - split; intros z; (split; [tauto | intros [H | [? [? [[] _]]]]; exact H]).
    - destruct (IH (record_keep mi ri keep name)) as [H1 H2].
      split; intros z; [rewrite H1 | rewrite H2]; clear H1 H2;
        unfold record_keep; destruct (dict_get mi name) as [info |] eqn:E; simpl.
      + rewrite set_add_In. split.
        * intros [[H | ->] | [n [i [Hn Hi]]]]; [tauto | |].
          -- right. exists name, info. tauto.
          -- right. exists n, i. tauto.
        * intros [H | [n [i [[<- | Hn] [Hi Hx]]]]]; [tauto | |].
          -- left. right. congruence.
          -- right. exists n, i. tauto.
      + split.
        * intros [H | [n [i [Hn Hi]]]]; [tauto |]. right. exists n, i. tauto.
        * intros [H | [n [i [[<- | Hn] [Hi Hx]]]]]; [tauto | congruence |].
          right. exists n, i. tauto.
      + destruct (dict_get ri (info_rel_id info)) as [target |] eqn:Et.
        * rewrite set_add_In. split.
          -- intros [[H | ->] | [n [i [Hn Hi]]]]; [tauto | |].
             ++ right. exists name, info. tauto.
             ++ right. exists n, i. tauto.
          -- intros [H | [n [i [[<- | Hn] [Hi Hx]]]]]; [tauto | |].
             ++ left. right. congruence.
             ++ right. exists n, i. tauto.
        * split.
          -- intros [H | [n [i [Hn Hi]]]]; [tauto |]. right. exists n, i. tauto.
          -- intros [H | [n [i [[<- | Hn] [Hi Hx]]]]]; [tauto | congruence |].
             right. exists n, i. tauto.
      + split.
        * intros [H | [n [i [Hn Hi]]]]; [tauto |]. right. exists n, i. tauto.
        * intros [H | [n [i [[<- | Hn] [Hi Hx]]]]]; [tauto | congruence |].
          right. exists n, i. tauto. }
  destruct (Hgen (set_iter rt used) ([], [])) as [H1 H2].
  split; intros z; [rewrite H1 | rewrite H2]; simpl;
    (split; [intros [[] | [n [i [Hn Hi]]]] | intros [n [i [Hn Hi]]]; right]);
    exists n, i; (split; [| exact Hi]); now apply (set_iter_In rt).
Qed.

(** ** Looking up the trees of a run *)

Lemma fold_dict_del_get {V} paths : forall (t : dict V) k,
  dict_get (fold_left dict_del paths t) k =
  if existsb (String.eqb k) paths then None else dict_get t k.
Proof.
  induction paths as [| p paths IH]; intros t k; simpl; [reflexivity |].
  rewrite IH, dict_get_del, (String.eqb_sym k p).
  destruct (String.eqb p k), (existsb (String.eqb k) paths); reflexivity.
Qed.

Lemma dict_get_filter_None {V} (p : string * V -> bool) (t : dict V) k :
  dict_get t k = None -> dict_get (filter p t) k = None.
Proof.
  induction t as [| [a b] t IH]; simpl; [trivial |].
  destruct (String.eqb a k) eqn:E; [discriminate |]. intros H.
  destruct (p (a, b)); simpl; [rewrite E |]; now apply IH.
Qed.

Lemma dict_get_filter_Some {V} (p : string * V -> bool) (t : dict V) k v :
  dict_get t k = Some v -> p (k, v) = true -> dict_get (filter p t) k = Some v.
Proof.
  induction t as [| [a b] t IH]; simpl; [discriminate |].
  destruct (String.eqb a k) eqn:E.
  - apply String.eqb_eq in E. subst a. intros [= ->] Hp. rewrite Hp. simpl.
    now rewrite String.eqb_refl.
  - intros H Hp. destruct (p (a, b)); simpl; [rewrite E |]; now apply IH.
Qed.

Lemma zip_tree_file t k f :
  dict_get t k = Some (FileNode f) -> dict_get (zip_tree t) k = Some (FileNode f).
Proof. intros H. unfold zip_tree. now apply dict_get_filter_Some. Qed.

Lemma zip_tree_absent t k : exists_ t k = false -> exists_ (zip_tree t) k = false.
Proof.
  unfold exists_, dict_mem, zip_tree. destruct (dict_get t k) eqn:E;
    [discriminate |]. now rewrite dict_get_filter_None.
Qed.

Lemma replay_unlinks rt paths : forall w,
  replay rt (map Unlink paths) w =
  mkWorld (host w) (fold_left dict_del paths (work w)) (temp_output w)
          (log w ++ map Unlink paths)%list.
Proof.
  induction paths as [| p paths IH]; intros w.
  - simpl. rewrite app_nil_r. now destruct w.
  - change (replay rt (map Unlink (p :: paths)) w)
      with (replay rt (map Unlink paths)
                   (record_event (Unlink p) (apply_event rt (Unlink p) w))).
    rewrite IH. simpl. now rewrite <- app_assoc.
Qed.

Lemma backup_events_host rt input output backup w f :
  dict_get (host w) (path_str input) = Some f ->
  host (replay rt (backup_events input output backup) w) =
  match output with
  | None =>
      if backup then dict_set (host w) (with_suffix input ".vsdx.bak") f
      else host w
  | Some _ => host w
  end.
Proof.
  intros H. unfold backup_events. destruct output; [reflexivity |].
  destruct backup; [| reflexivity]. unfold replay. simpl. now rewrite H.
Qed.

Lemma backup_events_lookup rt input output backup w f :
  dict_get (host w) (path_str input) = Some f ->
  lower (suffix input) = ".vsdx" ->
  dict_get (host (replay rt (backup_events input output backup) w))
           (path_str input) = Some f.
Proof.
  intros H Hs. rewrite (backup_events_host _ _ _ _ _ _ H).
  destruct output; [exact H |]. destruct backup; [| exact H].
  rewrite dict_get_set.
  destruct (String.eqb _ _) eqn:E; [| exact H].
  apply String.eqb_eq in E. now apply with_suffix_fresh in E.
Qed.

(** The world a successful run on an archive with a catalog leaves. *)
Lemma shrink_events_world rt input output backup content pr w sz :
  dict_get (host w) (path_str input) = Some (ZipFile sz content) ->
  lower (suffix input) = ".vsdx" ->
  let out := zip_tree (pruned_tree rt content pr) in
  replay rt (shrink_events rt input output backup content pr) w =
  mkWorld
    (dict_set (host (replay rt (backup_events input output backup) w))
              (path_str (final_output_of input output))
              (ZipFile (zip_size rt out) out))
    [] None
    (log w ++ shrink_events rt input output backup content pr)%list.
Proof.
  intros Hhost Hs out. unfold shrink_events at 1.
  rewrite replay_app.
  pose proof (backup_events_lookup rt input output backup w _ Hhost Hs) as Hb.
  pose proof (replay_log rt (backup_events input output backup) w) as Hl.
  set (wb := replay rt (backup_events input output backup) w) in *.
  rewrite replay_app. unfold prune_events. rewrite !replay_app.
  unfold unlink_events. rewrite <- map_map with (g := Unlink).
  rewrite replay_unlinks. unfold replay, write_events. simpl.
  rewrite Hb. simpl. unfold out, pruned_tree, rewritten.
  unfold shrink_events, prune_events, unlink_events, write_events.
  rewrite Hl, <- (map_map (joinpath (masters_dir _make_vsdx_paths)) Unlink).
  unfold record_event. cbn [log host work temp_output]. f_equal.
  rewrite <- !app_assoc. reflexivity.
Qed.

Lemma existsb_Permutation {A} (f : A -> bool) l1 l2 :
  Permutation l1 l2 -> existsb f l1 = existsb f l2.
Proof.
  intros H. destruct (existsb f l1) eqn:E1, (existsb f l2) eqn:E2; trivial.
  - apply existsb_exists in E1. destruct E1 as [x [Hx Hf]].
    assert (existsb f l2 = true)
      by (apply existsb_exists; exists x; split;
          [eapply Permutation_in; eassumption | exact Hf]).
    congruence.
  - apply existsb_exists in E2. destruct E2 as [x [Hx Hf]].
    assert (existsb f l1 = true)
      by (apply existsb_exists; exists x; split;
          [eapply Permutation_in; [apply Permutation_sym |]; eassumption
          | exact Hf]).
    congruence.
Qed.

Lemma toxml_unfold e :
  toxml e = XNode (tag e) (attrib e) (map toxml (children e)).
Proof. now destruct e. Qed.

Lemma fromxml_tag x : tag (fromxml x) = xtag x.
Proof. rewrite <- (toxml_fromxml x) at 2. now rewrite toxml_unfold. Qed.

Lemma fromxml_attrib x : attrib (fromxml x) = xattrib x.
Proof. rewrite <- (toxml_fromxml x) at 2. now rewrite toxml_unfold. Qed.

Lemma names_to_remove_recorded pr name :
  In name (names_to_remove pr) -> dict_mem name (pr_masters_info pr) = true.
Proof.
  unfold names_to_remove. rewrite set_diff_In, set_of_In.
  intros [H _]. now apply dict_mem_In.
Qed.

(** What the parsed documents and the rewritten ones are. *)
Lemma prunes_documents rt content pr :
  prunes rt content pr ->
  exists fm xm fr xr,
    dict_get content (masters_xml _make_vsdx_paths) = Some (FileNode fm)
    /\ f_xml fm = WellFormed xm /\ pr_masters_root pr = fromxml xm
    /\ dict_get content (rels_path _make_vsdx_paths) = Some (FileNode fr)
    /\ f_xml fr = WellFormed xr /\ pr_rels_root pr = fromxml xr
    /\ tag (pr_new_masters_root pr) = xtag xm
    /\ attrib (pr_new_masters_root pr) = xattrib xm
    /\ children (pr_new_masters_root pr)
       = filter (fun c => negb (entry_pruned pr c)) (children (fromxml xm))
    /\ tag (pr_new_rels_root pr) = xtag xr
    /\ attrib (pr_new_rels_root pr) = xattrib xr
    /\ children (pr_new_rels_root pr)
       = filter (fun r => negb (rel_dropped (keep_rel_ids rt pr) r))
                (children (fromxml xr))
    /\ pr_removed pr = List.length (names_to_remove pr).
Proof.
  intros [_ [Hm [Hr [_ [Hrm Hrr]]]]].
  destruct (_parse_masters_xml_Ok _ _ _ _ Hm) as [[fm [xm [Hfm [Hxm Hroot]]]] _].
  destruct (_parse_rels_xml_Ok _ _ _ _ Hr) as [fr [xr [Hfr [Hxr Hrroot]]]].
  exists fm, xm, fr, xr.
  apply remove_unused_Ok in Hrm;
    [| rewrite Hroot; apply fromxml_children_NoDup].
  destruct Hrm as [_ [Ht [Ha [Hc Hn]]]].
  destruct (remove_rels_children (keep_rel_ids rt pr) (pr_rels_root pr))
    as [root' [Hrr' [Ht' [Ha' Hc']]]];
    [rewrite Hrroot; apply fromxml_children_NoDup |].
  rewrite Hrr in Hrr'. injection Hrr' as <-.
  rewrite Hroot in *. rewrite Hrroot in *.
  repeat split; try assumption.
  - now rewrite Ht, fromxml_tag.
  - now rewrite Ha, fromxml_attrib.
  - rewrite Hc. apply filter_ext. intros c. f_equal.
    unfold entry_pruned, recorded_under.
    apply existsb_Permutation, set_iter_perm.
  - now rewrite Ht', fromxml_tag.
  - now rewrite Ha', fromxml_attrib.
  - rewrite Hn. simpl.
    rewrite forallb_filter_id.
    + apply Permutation_length, set_iter_perm.
    + apply forallb_forall. intros name Hin.
      apply names_to_remove_recorded. exact (proj1 (set_iter_In rt _ _) Hin).
Qed.

Lemma fnmatch_nonempty suf n : fnmatch "master" suf n = true -> nonempty n = true.
Proof.
  unfold fnmatch, startswith. destruct n; [discriminate | reflexivity].
Qed.

Lemma deleted_In rt content pr n :
  In n (deleted rt content pr) <->
  In (joinpath (masters_dir _make_vsdx_paths) n) (keys (rewritten rt content pr))
  /\ contains_char "/"%char n = false
  /\ fnmatch "master" ".xml" n = true
  /\ unused_file (keep_files rt pr) n = true.
Proof.
  unfold deleted. rewrite filter_In, glob_In. split.
  - tauto.
  - intros [H1 [H2 [H3 H4]]]. repeat split; try assumption.
    eapply fnmatch_nonempty, H3.
Qed.

Lemma pruned_tree_get rt content pr k :
  dict_get (pruned_tree rt content pr) k =
  if existsb (String.eqb k)
             (map (joinpath (masters_dir _make_vsdx_paths)) (deleted rt content pr))
  then None else dict_get (rewritten rt content pr) k.
Proof. apply fold_dict_del_get. Qed.

Lemma not_deleted rt content pr k :
  (forall n, In n (deleted rt content pr) ->
             joinpath (masters_dir _make_vsdx_paths) n <> k) ->
  dict_get (pruned_tree rt content pr) k = dict_get (rewritten rt content pr) k.
Proof.
  intros H. rewrite pruned_tree_get.
  destruct (existsb _ _) eqn:E; [| reflexivity].
  apply existsb_exists in E. destruct E as [p [Hp He]].
  apply String.eqb_eq in He. subst p.
  apply in_map_iff in Hp. destruct Hp as [n [Hn Hin]].
  now apply H in Hin.
Qed.

Lemma pruned_tree_catalog rt content pr :
  dict_get (pruned_tree rt content pr) (masters_xml _make_vsdx_paths) =
  Some (FileNode (xml_write rt (toxml (pr_new_masters_root pr)))).
Proof.
  rewrite not_deleted.
  - unfold rewritten. now rewrite !dict_get_set.
  - intros n Hn Heq. apply deleted_In in Hn. destruct Hn as [_ [_ [_ Hu]]].
    change (masters_xml _make_vsdx_paths)
      with (joinpath (masters_dir _make_vsdx_paths) "masters.xml") in Heq.
    apply joinpath_inj in Heq. subst n. discriminate.
Qed.

Lemma pruned_tree_index rt content pr :
  dict_get (pruned_tree rt content pr) (rels_path _make_vsdx_paths) =
  Some (FileNode (xml_write rt (toxml (pr_new_rels_root pr)))).
Proof.
  rewrite not_deleted.
  - unfold rewritten. now rewrite dict_get_set.
  - intros n Hn Heq. apply deleted_In in Hn. destruct Hn as [_ [Hs _]].
    change (rels_path _make_vsdx_paths)
      with (joinpath (masters_dir _make_vsdx_paths) "_rels/masters.xml.rels")
      in Heq.
    apply joinpath_inj in Heq. subst n. discriminate.
Qed.

(** A file the deletion loop selects is not in the tree that is archived. *)
Lemma pruned_tree_gone rt content pr n :
  fnmatch "master" ".xml" n = true -> contains_char "/"%char n = false ->
  unused_file (keep_files rt pr) n = true ->
  exists_ (pruned_tree rt content pr)
          (joinpath (masters_dir _make_vsdx_paths) n) = false.
Proof.
  intros Hf Hs Hu. unfold exists_, dict_mem. rewrite pruned_tree_get.
  destruct (existsb _ _) eqn:E; [reflexivity |].
  destruct (dict_get (rewritten rt content pr) _) eqn:Eg; [| reflexivity].
  exfalso.
  assert (Hin : In n (deleted rt content pr)).
  { apply deleted_In. repeat split; try assumption.
    apply dict_mem_In. unfold dict_mem. now rewrite Eg. }
  assert (Hex : existsb (String.eqb (joinpath (masters_dir _make_vsdx_paths) n))
                  (map (joinpath (masters_dir _make_vsdx_paths))
                       (deleted rt content pr)) = true).
  { apply existsb_exists. eexists. split; [apply in_map, Hin |].
    apply String.eqb_refl. }
  congruence.
Qed.

(** Everything else in the masters directory is left as it was. *)
Lemma pruned_tree_kept rt content pr n :
  n <> "masters.xml" -> n <> "_rels/masters.xml.rels" ->
  unused_file (keep_files rt pr) n = false
  \/ fnmatch "master" ".xml" n = false
  \/ contains_char "/"%char n = true ->
  dict_get (pruned_tree rt content pr)
           (joinpath (masters_dir _make_vsdx_paths) n)
  = dict_get content (joinpath (masters_dir _make_vsdx_paths) n).
Proof.
  intros H1 H2 H3. rewrite not_deleted.
  - unfold rewritten. rewrite !dict_get_set.
    destruct (String.eqb (rels_path _make_vsdx_paths) _) eqn:E.
    { apply String.eqb_eq in E.
      change (rels_path _make_vsdx_paths)
        with (joinpath (masters_dir _make_vsdx_paths) "_rels/masters.xml.rels")
        in E.
      apply joinpath_inj in E. congruence. }
    destruct (String.eqb (masters_xml _make_vsdx_paths) _) eqn:E'; [| reflexivity].
    apply String.eqb_eq in E'.
    change (masters_xml _make_vsdx_paths)
      with (joinpath (masters_dir _make_vsdx_paths) "masters.xml") in E'.
    apply joinpath_inj in E'. congruence.
  - intros m Hm Heq. apply joinpath_inj in Heq. subst m.
    apply deleted_In in Hm. destruct Hm as [_ [Hs [Hf Hu]]].
    destruct H3 as [H3 | [H3 | H3]]; congruence.
Qed.

(** ** What the validator reports *)

Lemma check_namespace_app root e :
  exists a, check_namespace root e = (e ++ a)%list.
Proof.
  unfold check_namespace, append. destruct (_ && _); eexists;
    [reflexivity | now rewrite app_nil_r].
Qed.

Lemma check_sample_app rt ms e :
  exists a, check_sample rt ms e = (e ++ a)%list.
Proof.
  unfold check_sample, append. destruct ms as [| sample _].
  - exists []. now rewrite app_nil_r.
  - repeat match goal with
      | |- context [if ?c then _ else _] => destruct c
      | |- context [match find ?a ?b with _ => _ end] => destruct (find a b)
      | |- context [match filter ?a ?b with _ => _ end] => destruct (filter a b)
      end;
      rewrite <- ?app_assoc; eexists; try reflexivity;
      now rewrite app_nil_r.
Qed.

Lemma _parse_xml_file_Ok t path root :
  _parse_xml_file t path = Ok root ->
  exists f doc, dict_get t path = Some (FileNode f)
                /\ f_xml f = WellFormed doc /\ root = fromxml doc.
Proof.
  unfold _parse_xml_file. destruct (ET_parse t path) as [r | e] eqn:E.
  - intros [= <-]. now apply ET_parse_Ok.
  - destruct e; discriminate.
Qed.

Lemma _parse_xml_file_regular t path :
  (forall sz, dict_get t path <> Some (DirNode sz)) ->
  exists_ t path = true ->
  (exists root, _parse_xml_file t path = Ok root)
  \/ exists msg, _parse_xml_file t path = Raise (VsdxFormatError msg).
Proof.
  intros Hd He. unfold exists_, dict_mem in He.
  unfold _parse_xml_file, ET_parse.
  destruct (dict_get t path) as [[f | sz] |] eqn:E; try discriminate.
  - destruct (f_xml f); eauto.
  - now destruct (Hd sz).
Qed.

Lemma check_rels_file_Ok t p e rroot :
  _parse_xml_file t (rels_path p) = Ok rroot ->
  exists a, check_rels_file t p e = Ok ((e ++ a)%list, collect_rels_ids rroot).
Proof.
  intros H. unfold check_rels_file, append.
  destruct (_parse_xml_file_Ok _ _ _ H) as [f [doc [Hf _]]].
  unfold exists_, dict_mem. rewrite Hf, H. cbn [bindR].
  destruct (_ && _); eexists; [reflexivity | now rewrite app_nil_r].
Qed.

Lemma check_rels_file_regular t p e :
  (forall sz, dict_get t (rels_path p) <> Some (DirNode sz)) ->
  (exists a ids, check_rels_file t p e = Ok ((e ++ a)%list, ids))
  \/ exists msg, check_rels_file t p e = Raise (VsdxFormatError msg).
Proof.
  intros Hd. unfold check_rels_file.
  destruct (exists_ t (rels_path p)) eqn:E.
  - destruct (_parse_xml_file_regular _ _ Hd E) as [[root H] | [msg H]].
    + left. destruct (check_rels_file_Ok t p e root H) as [a Ha].
      unfold check_rels_file in Ha. rewrite E in Ha. eauto.
    + right. rewrite H. simpl. eauto.
  - left. exists [], []. now rewrite app_nil_r.
Qed.

Lemma check_integrity_app ms ids e :
  exists a, check_integrity ms ids e = (e ++ a)%list.
Proof.
  unfold check_integrity, extend. destruct (_ && _); eexists;
    [reflexivity | now rewrite app_nil_r].
Qed.

Lemma raise_nonempty rt t p errors :
  exists_ t (masters_xml p) = true ->
  validation_errors rt t p = Ok errors -> errors <> [] ->
  _validate_vsdx_structure rt t p
  = Raise (VsdxFormatError (validation_message errors)).
Proof.
  intros He Hv Hn. unfold _validate_vsdx_structure. rewrite He, Hv. simpl.
  destruct errors; [contradiction | reflexivity].
Qed.

Lemma is_empty_false {A} (l : list A) x : In x l -> is_empty l = false.
Proof. destruct l; [contradiction | reflexivity]. Qed.

Lemma check_sample_missing rt sample rest e :
  dict_get (attrib sample) "ID" = None \/ dict_get (attrib sample) "NameU" = None ->
  exists msg a, check_sample rt (sample :: rest) e = (e ++ msg :: a)%list.
Proof.
  intros H. unfold check_sample.
  assert (Hm : is_empty (set_diff required_attrs (set_of (keys (attrib sample))))
               = false).
  { destruct H as [H | H]; apply dict_get_None in H.
    - apply (is_empty_false _ "ID"). apply set_diff_In.
      split; [now left |]. now rewrite set_of_In.
    - apply (is_empty_false _ "NameU"). apply set_diff_In.
      split; [right; now left |]. now rewrite set_of_In. }
  rewrite Hm. cbn [negb]. unfold append.
  repeat match goal with
    | |- context [if ?c then _ else _] => destruct c
    | |- context [match find ?a ?b with _ => _ end] => destruct (find a b)
    | |- context [match filter ?a ?b with _ => _ end] => destruct (filter a b)
    end;
    rewrite <- ?app_assoc; eexists; eexists; reflexivity.
Qed.

Lemma integrity_error_unresolved ids master rel :
  find master (qname VISIO_NS "Rel") = Some rel ->
  _get_rel_id (Some rel) <> "" -> ~ In (_get_rel_id (Some rel)) ids ->
  integrity_error ids master =
  ["Master '" ++ get master "NameU" (get master "ID" "unknown")
     ++ "' references non-existent relationship: " ++ _get_rel_id (Some rel)].
Proof.
  intros Hf Hn Hi. unfold integrity_error. rewrite Hf.
  apply set_mem_false in Hi. rewrite Hi.
  destruct (_get_rel_id (Some rel)); [contradiction | reflexivity].
Qed.

Lemma validation_errors_steps rt t p mroot :
  _parse_xml_file t (masters_xml p) = Ok mroot ->
  validation_errors rt t p =
  bindR (check_rels_file t p
           (check_sample rt (findall mroot (qname VISIO_NS "Master"))
              (check_namespace mroot (check_required_files t p []))))
        (fun r => Ok (check_integrity (findall mroot (qname VISIO_NS "Master"))
                                      (snd r) (fst r))).
Proof.
  intros H. unfold validation_errors. rewrite H. cbn [bindR].
  destruct (check_rels_file _ _ _) as [[e ids] | x]; reflexivity.
Qed.

Lemma validation_errors_unresolved rt t p mroot rroot master rel :
  _parse_xml_file t (masters_xml p) = Ok mroot ->
  _parse_xml_file t (rels_path p) = Ok rroot ->
  collect_rels_ids rroot <> [] ->
  In master (findall mroot (qname VISIO_NS "Master")) ->
  find master (qname VISIO_NS "Rel") = Some rel ->
  _get_rel_id (Some rel) <> "" ->
  ~ In (_get_rel_id (Some rel)) (collect_rels_ids rroot) ->
  exists errors,
    validation_errors rt t p = Ok errors
    /\ In ("Master '" ++ get master "NameU" (get master "ID" "unknown")
             ++ "' references non-existent relationship: "
             ++ _get_rel_id (Some rel)) errors.
Proof.
  intros Hm Hr Hids Hin Hf Hn Hu.
  rewrite (validation_errors_steps _ _ _ _ Hm).
  destruct (check_rels_file_Ok t p
              (check_sample rt (findall mroot (qname VISIO_NS "Master"))
                 (check_namespace mroot (check_required_files t p []))) _ Hr)
    as [a Ha].
  rewrite Ha. cbn [bindR fst snd]. eexists. split; [reflexivity |].
  unfold check_integrity, extend.
  destruct (findall mroot (qname VISIO_NS "Master")) as [| m0 ms] eqn:Em;
    [contradiction |].
  destruct (collect_rels_ids rroot) as [| i0 is_] eqn:Ei; [contradiction |].
  cbn [is_empty negb andb]. apply in_or_app. right.
  apply in_flat_map. exists master. split; [exact Hin |].
  rewrite (integrity_error_unresolved _ _ _ Hf Hn Hu). now left.
Qed.

Lemma validation_errors_sample rt t p mroot sample rest :
  _parse_xml_file t (masters_xml p) = Ok mroot ->
  (forall sz, dict_get t (rels_path p) <> Some (DirNode sz)) ->
  findall mroot (qname VISIO_NS "Master") = sample :: rest ->
  dict_get (attrib sample) "ID" = None \/ dict_get (attrib sample) "NameU" = None ->
  (exists errors, validation_errors rt t p = Ok errors /\ errors <> [])
  \/ exists msg, validation_errors rt t p = Raise (VsdxFormatError msg).
Proof.
  intros Hm Hd Hs Hmiss. rewrite (validation_errors_steps _ _ _ _ Hm), Hs.
  destruct (check_sample_missing rt sample rest
              (check_namespace mroot (check_required_files t p [])) Hmiss)
    as [msg [a Ha]].
  rewrite Ha.
  set (e0 := check_namespace mroot (check_required_files t p [])).
  destruct (check_rels_file_regular t p (e0 ++ msg :: a)%list Hd)
    as [[b [ids Hb]] | [m Hb]]; rewrite Hb; cbn [bindR fst snd].
  - left. eexists. split; [reflexivity |].
    destruct (check_integrity_app (sample :: rest) ids
                ((e0 ++ msg :: a) ++ b)%list) as [c ->].
    rewrite <- !app_assoc. intros Habs.
    apply app_eq_nil in Habs. destruct Habs as [_ Habs]. discriminate.
  - right. eauto.
Qed.

(** ** Running [shrink_vsdx] forwards *)

Lemma dict_get_mem {V} (d : dict V) k v : dict_get d k = Some v -> dict_mem k d = true.
Proof. unfold dict_mem. now intros ->. Qed.

Lemma bind_step {A B} (m : M A) (k : A -> M B) w a w1 :
  m w = (Ok a, w1) -> bind m k w = k a w1.
Proof. unfold bind. now intros ->. Qed.

Lemma shrink_extracted_no_catalog rt path final osz w sz content :
  dict_get (host w) (path_str path) = Some (ZipFile sz content) ->
  exists_ content (masters_xml _make_vsdx_paths) = false ->
  shrink_extracted rt path final osz w =
  let w1 := replay rt [Extract (path_str path)] w in
  if String.eqb (path_str final) (path_str path)
  then (Ok (inl (_empty_result osz (path_str final))), w1)
  else
    match copy2_refusal rt (host w) (path_str path) (path_str final) with
    | Some e => (Raise e, w1)
    | None =>
        (Ok (inl (_empty_result osz (path_str final))),
         replay rt [Copy (path_str path) (path_str final)] w1)
    end.
Proof.
  intros Hh He. unfold shrink_extracted, bind, extractall, get_work, perform.
  rewrite Hh. cbn [work record_event apply_event]. rewrite Hh. cbn [work].
  rewrite He. cbn [negb]. cbv zeta.
  assert (Hw : replay rt [Extract (path_str path)] w
               = record_event (Extract (path_str path))
                   (mkWorld (host w) content (temp_output w) (log w))).
  { unfold replay. cbn [fold_left apply_event]. now rewrite Hh. }
  rewrite Hw.
  destruct (path_str final =? path_str path); cbn [negb]; [reflexivity |].
  unfold copy2. cbn [host record_event].
  destruct (copy2_refusal rt (host w) (path_str path) (path_str final));
    reflexivity.
Qed.

Lemma shrink_extracted_invalid rt path final osz w sz content e :
  dict_get (host w) (path_str path) = Some (ZipFile sz content) ->
  exists_ content (masters_xml _make_vsdx_paths) = true ->
  _validate_vsdx_structure rt content _make_vsdx_paths = Raise e ->
  shrink_extracted rt path final osz w =
  (Raise e, replay rt [Extract (path_str path)] w).
Proof.
  intros Hh He Hv. unfold shrink_extracted, bind, extractall, get_work, perform.
  rewrite Hh. cbn [work record_event apply_event]. rewrite Hh. cbn [work].
  rewrite He. cbn [negb]. unfold lift. rewrite Hv.
  unfold replay; cbn [fold_left apply_event]; rewrite Hh. reflexivity.
Qed.

Lemma shrink_vsdx_start rt input output backup w f :
  dict_get (host w) (path_str input) = Some f ->
  lower (suffix input) = ".vsdx" ->
  shrink_vsdx rt input output backup w =
  let final_output := final_output_of input output in
  let original_size := host_size f in
  match shrink_extracted rt input final_output original_size
          (replay rt (backup_events input output backup ++ [MkTemp]) w) with
  | (Ok (inl early), w') => (Ok early, replay rt [RmTemp] w')
  | (Ok (inr masters_removed), w') =>
      bind (stat_size (path_str final_output))
           (fun new_size =>
              let reduction := (original_size - new_size)%Z in
              ret {| original_size_mb := _bytes_to_mb original_size;
                     new_size_mb := _bytes_to_mb new_size;
                     reduction_mb := _bytes_to_mb reduction;
                     reduction_percent :=
                       if Z.eqb original_size 0 then Float0
                       else Percent reduction original_size;
                     masters_removed := masters_removed;
                     output_path := path_str final_output |})
           (replay rt [RmTemp] w')
  | (Raise e, w') => (Raise e, replay rt [RmTemp] w')
  end.
Proof.
  intros Hh Hs. unfold shrink_vsdx.
  rewrite (bind_step _ _ _ input w).
  2:{ unfold _validate_vsdx_path.
      now rewrite (dict_get_mem _ _ _ Hh), Hs. }
  rewrite (bind_step _ _ _ (host_size f) w).
  2:{ unfold stat_size. now rewrite Hh. }
  rewrite (bind_step _ _ _ (final_output_of input output)
                     (replay rt (backup_events input output backup) w)).
  2:{ unfold final_output_of, backup_events. destruct output; [reflexivity |].
      destruct backup; [| reflexivity].
      unfold bind. now rewrite copy2_backup by eauto using dict_get_mem. }
  rewrite replay_app. unfold bind at 1. unfold with_tempdir.
  change (snd (perform rt MkTemp ?x)) with (replay rt [MkTemp] x).
  destruct (shrink_extracted _ _ _ _ _) as [[[early | n] | e] w3]; reflexivity.
Qed.

(** * Main results *)

(** ** Analysis *)

(** C3. Conservation: whenever [analyze_vsdx] returns a result, for an archive
    with a catalog as for one without, the number of used masters plus the
    number of unused masters is the total number of masters. *)
Theorem conservation rt vsdx_path w result w' :
  analyze_vsdx rt vsdx_path w = (Ok result, w') ->
  used_masters result + unused_masters result = total_masters result.
Proof.
  rewrite analyze_vsdx_eq.
  destruct (negb _); [discriminate |]. destruct (negb _); [discriminate |].
  destruct (dict_get _ _) as [[sz content | sz] |]; try discriminate.
  intros [= H _]. eapply analyze_extracted_conservation, H.
Qed.

Lemma conservation_witness :
  exists result w',
    analyze_vsdx plain_runtime demo_path demo_world = (Ok result, w')
    /\ total_masters result = 3
    /\ used_masters result + unused_masters result = total_masters result.
Proof.
  eexists. eexists. split; [vm_compute; reflexivity |].
  split; [reflexivity |].
  apply (conservation plain_runtime demo_path demo_world _
           (replay plain_runtime [MkTemp; Extract "demo.vsdx"; RmTemp] demo_world)).
  vm_compute. reflexivity.
Defined.

(** C8. Idempotence of analysis: when [analyze_vsdx] returns a result, it has
    left every file of the host as it was, and a second run on the world it
    left returns the same result: the same counts, the same sorted lists of
    names and the same savings. The two runs may iterate over sets and
    directories in different orders ([rt1] and [rt2]). *)
Theorem analysis_idempotent rt1 rt2 vsdx_path w result w1 :
  analyze_vsdx rt1 vsdx_path w = (Ok result, w1) ->
  host w1 = host w
  /\ exists w2, analyze_vsdx rt2 vsdx_path w1 = (Ok result, w2).
Proof.
  rewrite analyze_vsdx_eq.
  destruct (negb (dict_mem _ _)) eqn:Em; [discriminate |].
  destruct (negb (String.eqb _ _)) eqn:Es; [discriminate |].
  destruct (dict_get (host w) (path_str vsdx_path))
    as [[sz content | sz] |] eqn:Eh; try discriminate.
  intros Heq.
  assert (H : analyze_extracted rt1 content = Ok result) by congruence.
  assert (Hw : w1 = replay rt1 [MkTemp; Extract (path_str vsdx_path); RmTemp] w)
    by congruence.
  assert (Hhost : host w1 = host w)
    by (rewrite Hw; apply replay_host_analysis).
  clear Heq Hw. split; [exact Hhost |].
  rewrite analyze_vsdx_eq, Hhost, Em, Es, Eh.
  rewrite (analyze_extracted_runtime rt1 rt2 _ _ H). eauto.
Qed.

Lemma analysis_idempotent_witness :
  exists result w1 w2,
    analyze_vsdx plain_runtime demo_path demo_world = (Ok result, w1)
    /\ unused_names result = ["C"]
    /\ host w1 = host demo_world
    /\ analyze_vsdx reversed_runtime demo_path w1 = (Ok result, w2).
Proof.
  eexists. eexists.
  destruct (analysis_idempotent plain_runtime reversed_runtime demo_path
              demo_world _ _ eq_refl) as [Hh [w2 H2]].
  exists w2. split; [reflexivity |]. split; [reflexivity |].
  split; [exact Hh | exact H2].
Defined.

(** ** Archives without a catalog *)

(** C6, as the code has it. For an archive without a catalog file,
    [analyze_vsdx] returns zero masters and zero savings and leaves the host
    as it was. [shrink_vsdx] returns the zero-reduction result when no
    output path is given or the output path is the input path; nothing
    changes then, except that with no output path and the backup enabled the
    [.vsdx.bak] copy of the input is written. With another output path, one
    that is not a directory, [shrink_vsdx] copies the input to it: when the
    copy is refused (the output path is the input file in another spelling,
    or lies in a directory that does not exist) [shrink_vsdx] raises what the
    copy raises and the host is as it was; otherwise the output path holds a
    copy of the input, nothing else has changed and the zero-reduction
    result is returned. *)
Theorem absent_catalog rt input_path output_path backup w size content :
  dict_get (host w) (path_str input_path) = Some (ZipFile size content) ->
  lower (suffix input_path) = ".vsdx" ->
  exists_ content (masters_xml _make_vsdx_paths) = false ->
  let archive := ZipFile size content in
  let result :=
    _empty_result size (path_str (final_output_of input_path output_path)) in
  (exists w1, analyze_vsdx rt input_path w = (Ok no_masters, w1)
              /\ host w1 = host w)
  /\ reduction_mb result = Float0 /\ reduction_percent result = Float0
  /\ masters_removed result = 0
  /\ new_size_mb result = original_size_mb result
  /\ match output_path with
     | None =>
         exists w2,
           shrink_vsdx rt input_path None backup w = (Ok result, w2)
           /\ host w2 =
              if backup
              then dict_set (host w) (with_suffix input_path ".vsdx.bak") archive
              else host w
     | Some o =>
         if String.eqb (path_str o) (path_str input_path)
         then exists w2,
                shrink_vsdx rt input_path (Some o) backup w = (Ok result, w2)
                /\ host w2 = host w
         else
           host_isdir rt (host w) (path_str o) = false ->
           match copy2_refusal rt (host w) (path_str input_path) (path_str o) with
           | Some e =>
               exists w2,
                 shrink_vsdx rt input_path (Some o) backup w = (Raise e, w2)
                 /\ host w2 = host w
           | None =>
               exists w2,
                 shrink_vsdx rt input_path (Some o) backup w = (Ok result, w2)
                 /\ host w2 = dict_set (host w) (path_str o) archive
           end
     end.
Proof.
  intros Hh Hs He archive result. split.
  { rewrite analyze_vsdx_eq, (dict_get_mem _ _ _ Hh), Hs, Hh.
    eexists. split; [| apply replay_host_analysis].
    unfold analyze_extracted. now rewrite He. }
  do 4 (split; [reflexivity |]).
  assert (Hrun : forall output,
            shrink_vsdx rt input_path output backup w =
            let w0 := replay rt (backup_events input_path output backup
                                 ++ [MkTemp]) w in
            let w1 := replay rt [Extract (path_str input_path)] w0 in
            let final := final_output_of input_path output in
            if String.eqb (path_str final) (path_str input_path)
            then (Ok (_empty_result size (path_str final)), replay rt [RmTemp] w1)
            else
              match copy2_refusal rt (host w0) (path_str input_path)
                                  (path_str final) with
              | Some e => (Raise e, replay rt [RmTemp] w1)
              | None =>
                  (Ok (_empty_result size (path_str final)),
                   replay rt [RmTemp]
                     (replay rt [Copy (path_str input_path) (path_str final)] w1))
              end).
  { intros output. rewrite (shrink_vsdx_start _ _ _ _ _ _ Hh Hs). cbv zeta.
    rewrite (shrink_extracted_no_catalog _ _ _ _ _ size content);
      [| | exact He].
    2:{ rewrite replay_app.
        change (host (replay rt [MkTemp] ?x)) with (host x).
        now apply backup_events_lookup. }
    cbv zeta. destruct (String.eqb _ _); [reflexivity |].
    destruct (copy2_refusal _ _ _ _); reflexivity. }
  destruct output_path as [o |].
  - rewrite (Hrun (Some o)). cbv zeta. cbn [final_output_of backup_events app].
    change (host (replay rt [MkTemp] w)) with (host w).
    destruct (String.eqb (path_str o) (path_str input_path)).
    + eexists. split; [reflexivity |].
      unfold replay. simpl. now rewrite Hh.
    + intros _.
      destruct (copy2_refusal rt (host w) (path_str input_path) (path_str o)).
      * eexists. split; [reflexivity |]. unfold replay. simpl. now rewrite Hh.
      * eexists. split; [reflexivity |].
        unfold replay. simpl. rewrite Hh. simpl. now rewrite Hh.
  - rewrite (Hrun None). cbv zeta. cbn [final_output_of].
    rewrite String.eqb_refl. eexists. split; [reflexivity |].
    unfold backup_events.
    destruct backup; unfold replay; simpl; rewrite Hh; simpl.
    + rewrite dict_get_set.
      destruct (String.eqb _ _) eqn:E; [| now rewrite Hh].
      apply String.eqb_eq in E. now apply with_suffix_fresh in E.
    + reflexivity.
Qed.

Lemma absent_catalog_witness :
  (exists w1, analyze_vsdx plain_runtime bare_path bare_world = (Ok no_masters, w1)
              /\ host w1 = host bare_world)
  /\ exists w2,
       shrink_vsdx plain_runtime bare_path (Some (mkPath "copy" ".vsdx")) true
                   bare_world = (Ok (_empty_result 500 "copy.vsdx"), w2)
       /\ host w2 = [("bare.vsdx", ZipFile 500 bare_tree);
                     ("copy.vsdx", ZipFile 500 bare_tree)].
Proof.
  destruct (absent_catalog plain_runtime bare_path (Some (mkPath "copy" ".vsdx"))
              true bare_world 500 bare_tree eq_refl eq_refl eq_refl)
    as (Ha & _ & _ & _ & _ & Hs).
  split; [exact Ha |]. exact (Hs eq_refl).
Defined.

(** The copy refused: the output path is the input in another spelling, or
    lies in a directory that does not exist. Nothing is written. *)
Example absent_catalog_copy_refused :
  (exists w2,
     shrink_vsdx strict_runtime bare_path (Some (mkPath "sub/../bare" ".vsdx"))
                 true bare_world
     = (Raise (SameFileError "bare.vsdx" "sub/../bare.vsdx"), w2)
     /\ host w2 = host bare_world)
  /\ exists w2,
       shrink_vsdx strict_runtime bare_path (Some (mkPath "nodir/copy" ".vsdx"))
                   true bare_world
       = (Raise (FileNotFoundError (enoent strict_runtime "nodir/copy.vsdx")), w2)
       /\ host w2 = host bare_world.
Proof.
  split; eexists; (split; [vm_compute; reflexivity | reflexivity]).
Qed.

(** C6 as stated fails: overwriting in place with the backup enabled is not
    a no-op on an archive without a catalog, a file [bare.vsdx.bak] appears. *)
Lemma absent_catalog_backup_written :
  exists result w2,
    shrink_vsdx plain_runtime bare_path None true bare_world = (Ok result, w2)
    /\ exists_ bare_tree (masters_xml _make_vsdx_paths) = false
    /\ dict_get (host bare_world) "bare.vsdx.bak" = None
    /\ dict_get (host w2) "bare.vsdx.bak" = Some (ZipFile 500 bare_tree)
    /\ host w2 <> host bare_world.
Proof.
  eexists. eexists. split; [vm_compute; reflexivity |].
  repeat split. discriminate.
Qed.

(** ** Validation *)

Lemma analyze_extracted_invalid rt t e :
  exists_ t (masters_xml _make_vsdx_paths) = true ->
  _validate_vsdx_structure rt t _make_vsdx_paths = Raise e ->
  analyze_extracted rt t = Raise e.
Proof. intros He Hv. unfold analyze_extracted. now rewrite He, Hv. Qed.

Lemma _parse_xml_file_exists t path root :
  _parse_xml_file t path = Ok root -> exists_ t path = true.
Proof.
  intros H. destruct (_parse_xml_file_Ok _ _ _ H) as [f [doc [Hf _]]].
  unfold exists_, dict_mem. now rewrite Hf.
Qed.

Lemma reported_name_get master :
  get master "NameU" (get master "ID" "unknown") = reported_name master.
Proof. reflexivity. Qed.

(** The integrity check where it runs. When the relationship index lists at
    least one id, every catalog entry that carries a relationship id not
    among them gets an error of its own in the list the validator
    accumulates; the message names the entry by its [NameU] attribute, by
    its [ID] attribute when [NameU] is absent, and validation raises the
    format error made of that list. *)
Theorem unresolved_relationship_reported rt t masters_root rels_root master rel :
  _parse_xml_file t (masters_xml _make_vsdx_paths) = Ok masters_root ->
  _parse_xml_file t (rels_path _make_vsdx_paths) = Ok rels_root ->
  collect_rels_ids rels_root <> [] ->
  In master (findall masters_root (qname VISIO_NS "Master")) ->
  find master (qname VISIO_NS "Rel") = Some rel ->
  _get_rel_id (Some rel) <> "" ->
  ~ In (_get_rel_id (Some rel)) (collect_rels_ids rels_root) ->
  exists errors,
    validation_errors rt t _make_vsdx_paths = Ok errors
    /\ In ("Master '" ++ reported_name master
             ++ "' references non-existent relationship: "
             ++ _get_rel_id (Some rel)) errors
    /\ _validate_vsdx_structure rt t _make_vsdx_paths
       = Raise (VsdxFormatError (validation_message errors)).
Proof.
  intros Hm Hr Hids Hin Hf Hn Hu.
  destruct (validation_errors_unresolved rt _ _ _ _ _ _ Hm Hr Hids Hin Hf Hn Hu)
    as [errors [He Hmsg]].
  exists errors. rewrite reported_name_get in Hmsg.
  split; [exact He |]. split; [exact Hmsg |].
  apply raise_nonempty; [eapply _parse_xml_file_exists, Hm | exact He |].
  intros ->. contradiction.
Qed.

Lemma unresolved_relationship_reported_witness :
  exists errors,
    validation_errors plain_runtime unresolved_tree _make_vsdx_paths = Ok errors
    /\ In "Master 'B' references non-existent relationship: rId9" errors
    /\ _validate_vsdx_structure plain_runtime unresolved_tree _make_vsdx_paths
       = Raise (VsdxFormatError (validation_message errors)).
Proof.
  refine (unresolved_relationship_reported plain_runtime unresolved_tree _ _
            (Elem 3 (qname VISIO_NS "Master") [("ID", "2"); ("NameU", "B")]
               [Elem 4 (qname VISIO_NS "Rel") [(qname REL_NS "id", "rId9")] []])
            (Elem 4 (qname VISIO_NS "Rel") [(qname REL_NS "id", "rId9")] [])
            eq_refl eq_refl _ _ eq_refl _ _).
  - vm_compute. discriminate.
  - vm_compute. right. left. reflexivity.
  - vm_compute. discriminate.
  - vm_compute. intros [H | []]. discriminate.
Defined.

(** C5. The code at the failing input. The entry A of this catalog points
    to [rId1] and the relationship index, which parses, lists no id at all:
    the relationship id of A does not resolve. Step 5 is guarded by
    [if masters and rels_ids:], so the check the comment above it announces
    ("every master's Rel r:id must exist in .rels") is skipped: the list of
    errors is empty and validation passes, where C5 requires an error naming
    A. *)
Lemma unresolved_relationship_unreported :
  exists masters_root rels_root master rel,
    _parse_xml_file empty_index_tree (masters_xml _make_vsdx_paths) = Ok masters_root
    /\ _parse_xml_file empty_index_tree (rels_path _make_vsdx_paths) = Ok rels_root
    /\ In master (findall masters_root (qname VISIO_NS "Master"))
    /\ find master (qname VISIO_NS "Rel") = Some rel
    /\ _get_rel_id (Some rel) = "rId1"
    /\ ~ In "rId1" (collect_rels_ids rels_root)
    /\ validation_errors plain_runtime empty_index_tree _make_vsdx_paths = Ok []
    /\ _validate_vsdx_structure plain_runtime empty_index_tree _make_vsdx_paths
       = Ok tt.
Proof.
  eexists. eexists. eexists. eexists.
  split; [vm_compute; reflexivity |]. split; [vm_compute; reflexivity |].
  split; [vm_compute; left; reflexivity |].
  split; [vm_compute; reflexivity |]. split; [vm_compute; reflexivity |].
  split; [vm_compute; tauto |]. split; vm_compute; reflexivity.
Qed.

Lemma shrink_vsdx_invalid rt input output backup w size content e :
  dict_get (host w) (path_str input) = Some (ZipFile size content) ->
  lower (suffix input) = ".vsdx" ->
  exists_ content (masters_xml _make_vsdx_paths) = true ->
  _validate_vsdx_structure rt content _make_vsdx_paths = Raise e ->
  shrink_vsdx rt input output backup w =
  (Raise e,
   replay rt (backup_events input output backup
              ++ [MkTemp; Extract (path_str input); RmTemp]) w).
Proof.
  intros Hh Hs He Hv. rewrite (shrink_vsdx_start _ _ _ _ _ _ Hh Hs). cbv zeta.
  rewrite (shrink_extracted_invalid _ _ _ _ _ size content e); try assumption.
  - rewrite <- !replay_app, <- !app_assoc. reflexivity.
  - rewrite replay_app.
    change (host (replay rt [MkTemp] ?x)) with (host x).
    now apply backup_events_lookup.
Qed.

Lemma validation_rejects rt t masters_root :
  _parse_xml_file t (masters_xml _make_vsdx_paths) = Ok masters_root ->
  (forall sz, dict_get t (rels_path _make_vsdx_paths) <> Some (DirNode sz)) ->
  sample_lacks_attribute masters_root \/ unresolved_relationship t masters_root ->
  exists msg,
    _validate_vsdx_structure rt t _make_vsdx_paths = Raise (VsdxFormatError msg).
Proof.
  intros Hm Hd [[sample [rest [Hs Hmiss]]] | [rroot [master [rel H]]]].
  - pose proof (_parse_xml_file_exists _ _ _ Hm) as He.
    destruct (validation_errors_sample rt _ _ _ _ _ Hm Hd Hs Hmiss)
      as [[errors [Hv Hn]] | [msg Hv]].
    + exists (validation_message errors). apply raise_nonempty; assumption.
    + exists msg. unfold _validate_vsdx_structure. now rewrite He, Hv.
  - destruct H as [Hr [Hids [Hin [Hf [Hn Hu]]]]].
    destruct (validation_errors_unresolved rt _ _ _ _ _ _ Hm Hr Hids Hin Hf Hn Hu)
      as [errors [Hv Hmsg]].
    exists (validation_message errors). apply raise_nonempty.
    + eapply _parse_xml_file_exists, Hm.
    + exact Hv.
    + intros ->. contradiction.
Qed.

(** C2, as the code has it. Take an archive whose catalog parses and in
    which the path of the relationship index is not a directory. If the
    first catalog entry lacks the [ID] or the [NameU] attribute, or if some
    entry carries a relationship id that is not among the ids of an index
    that lists at least one (an index that lists none is left out: see C5),
    then [analyze_vsdx] and [shrink_vsdx] both raise the same format error.
    Neither rewrites a document, deletes a file or builds an archive: the
    effects are the extraction into the temporary directory and its removal,
    and, for [shrink_vsdx] overwriting in place with the backup enabled, the
    [.vsdx.bak] copy made before the extraction, which replaces a file of
    that name if there is one. Every other file of the host, the input
    archive included, is as it was. *)
Theorem malformed_rejected rt input_path output_path backup w size content
    masters_root :
  dict_get (host w) (path_str input_path) = Some (ZipFile size content) ->
  lower (suffix input_path) = ".vsdx" ->
  _parse_xml_file content (masters_xml _make_vsdx_paths) = Ok masters_root ->
  (forall sz, dict_get content (rels_path _make_vsdx_paths) <> Some (DirNode sz)) ->
  sample_lacks_attribute masters_root
  \/ unresolved_relationship content masters_root ->
  exists msg w1 w2,
    analyze_vsdx rt input_path w = (Raise (VsdxFormatError msg), w1)
    /\ host w1 = host w
    /\ log w1 = (log w ++ [MkTemp; Extract (path_str input_path); RmTemp])%list
    /\ shrink_vsdx rt input_path output_path backup w
       = (Raise (VsdxFormatError msg), w2)
    /\ log w2 = (log w ++ backup_events input_path output_path backup
                  ++ [MkTemp; Extract (path_str input_path); RmTemp])%list
    /\ host w2 =
       match output_path with
       | None =>
           if backup
           then dict_set (host w) (with_suffix input_path ".vsdx.bak")
                         (ZipFile size content)
           else host w
       | Some _ => host w
       end.
Proof.
  intros Hh Hs Hm Hd Hbad.
  destruct (validation_rejects rt _ _ Hm Hd Hbad) as [msg Hv].
  pose proof (_parse_xml_file_exists _ _ _ Hm) as He.
  exists msg. eexists. eexists.
  split.
  { rewrite analyze_vsdx_eq, (dict_get_mem _ _ _ Hh), Hs, Hh.
    now rewrite (analyze_extracted_invalid _ _ _ He Hv). }
  split; [apply replay_host_analysis |].
  split; [apply replay_log |].
  split; [now apply (shrink_vsdx_invalid _ _ _ _ _ size content) |].
  split; [now rewrite replay_log |].
  rewrite replay_app.
  pose proof (backup_events_host rt input_path output_path backup w _ Hh) as Hb.
  pose proof (backup_events_lookup rt input_path output_path backup w _ Hh Hs)
    as Hl.
  set (wb := replay rt (backup_events input_path output_path backup) w) in *.
  rewrite <- Hb. unfold replay. simpl. now rewrite Hl.
Qed.

Lemma malformed_rejected_witness :
  exists msg w1 w2,
    analyze_vsdx plain_runtime unresolved_path unresolved_world
    = (Raise (VsdxFormatError msg), w1)
    /\ host w1 = host unresolved_world
    /\ log w1 = [MkTemp; Extract "unresolved.vsdx"; RmTemp]
    /\ shrink_vsdx plain_runtime unresolved_path None true unresolved_world
       = (Raise (VsdxFormatError msg), w2)
    /\ log w2 = [Copy "unresolved.vsdx" "unresolved.vsdx.bak";
                 MkTemp; Extract "unresolved.vsdx"; RmTemp]
    /\ host w2 = [("unresolved.vsdx", ZipFile 4000 unresolved_tree);
                  ("unresolved.vsdx.bak", ZipFile 4000 unresolved_tree)].
Proof.
  refine (malformed_rejected plain_runtime unresolved_path None true
            unresolved_world 4000 unresolved_tree _ eq_refl eq_refl eq_refl _ _).
  - intros sz. vm_compute. discriminate.
  - right.
    exists (fromxml (XNode (qname PKG_REL_NS "Relationships") []
                       [relationship "rId1" "master1.xml"])),
      (Elem 3 (qname VISIO_NS "Master") [("ID", "2"); ("NameU", "B")]
         [Elem 4 (qname VISIO_NS "Rel") [(qname REL_NS "id", "rId9")] []]),
      (Elem 4 (qname VISIO_NS "Rel") [(qname REL_NS "id", "rId9")] []).
    split; [reflexivity |]. split; [vm_compute; discriminate |].
    split; [vm_compute; right; left; reflexivity |].
    split; [reflexivity |]. split; [vm_compute; discriminate |].
    vm_compute. intros [H | []]. discriminate.
Defined.

(** C2 as stated fails: the second entry of this catalog has no [NameU]
    attribute, yet analysis and shrinking both succeed, for the validator
    looks at the attributes of the first entry only. *)
Lemma nameless_second_entry_accepted :
  exists entry result w1 shrunk w2,
    document nameless_second_tree (masters_xml _make_vsdx_paths)
    = Some (XNode (qname VISIO_NS "Masters") []
              [master_entry "A" "1" "rId1"; entry])
    /\ dict_get (xattrib entry) "NameU" = None
    /\ analyze_vsdx plain_runtime (mkPath "nameless" ".vsdx")
         nameless_second_world = (Ok result, w1)
    /\ shrink_vsdx plain_runtime (mkPath "nameless" ".vsdx") None false
         nameless_second_world = (Ok shrunk, w2).
Proof.
  eexists. eexists. eexists. eexists. eexists.
  split; [vm_compute; reflexivity |]. split; [reflexivity |].
  split; vm_compute; reflexivity.
Qed.

(** ** The archive a run leaves *)

Lemma document_file t path f doc :
  dict_get t path = Some (FileNode f) -> f_xml f = WellFormed doc ->
  document t path = Some doc.
Proof. intros H1 H2. unfold document. now rewrite H1, H2. Qed.

Lemma pruned_catalog_document rt content pr :
  document (zip_tree (pruned_tree rt content pr)) (masters_xml _make_vsdx_paths)
  = Some (toxml (pr_new_masters_root pr)).
Proof.
  eapply document_file.
  - apply zip_tree_file, pruned_tree_catalog.
  - apply xml_write_parse.
Qed.

Lemma pruned_index_document rt content pr :
  document (zip_tree (pruned_tree rt content pr)) (rels_path _make_vsdx_paths)
  = Some (toxml (pr_new_rels_root pr)).
Proof.
  eapply document_file.
  - apply zip_tree_file, pruned_tree_index.
  - apply xml_write_parse.
Qed.

(** A successful run on an archive with a catalog, in short. *)
Lemma shrink_vsdx_pruned rt input output backup w res w' size content :
  shrink_vsdx rt input output backup w = (Ok res, w') ->
  dict_get (host w) (path_str input) = Some (ZipFile size content) ->
  exists_ content (masters_xml _make_vsdx_paths) = true ->
  exists pr,
    prunes rt content pr
    /\ w' = replay rt (shrink_events rt input output backup content pr) w
    /\ archive_at w' (path_str (final_output_of input output))
       = Some (zip_tree (pruned_tree rt content pr))
    /\ masters_removed res = List.length (names_to_remove pr).
Proof.
  intros H Hh He. apply shrink_vsdx_Ok in H.
  destruct H as [sz [content' [Hh' [Hs H]]]].
  rewrite Hh in Hh'. injection Hh' as <- <-. rewrite He in H.
  destruct H as [pr [Hpr [Hw [Hn _]]]]. exists pr.
  split; [exact Hpr |]. split; [exact Hw |]. split.
  - rewrite Hw, (shrink_events_world _ _ _ _ _ _ _ _ Hh Hs).
    unfold archive_at. cbn [host]. now rewrite dict_get_set, String.eqb_refl.
  - rewrite Hn. destruct (prunes_documents _ _ _ Hpr)
      as [? [? [? [? H]]]]. apply H.
Qed.

Lemma entry_pruned_iff rt content pr c :
  prunes rt content pr ->
  In c (flat_map iter (children (pr_masters_root pr))) ->
  entry_pruned pr c = true <->
  exists name info,
    dict_get (pr_masters_info pr) name = Some info
    /\ ~ In name (pr_used_names pr)
    /\ info_element info = c.
Proof.
  intros [_ [Hm _]] Hc.
  destruct (_parse_masters_xml_Ok _ _ _ _ Hm) as [[f [doc [_ [_ Hroot]]]] [_ Hd]].
  unfold entry_pruned, recorded_under. rewrite existsb_exists. split.
  - intros [name [Hin H]].
    destruct (dict_get (pr_masters_info pr) name) as [info |] eqn:E;
      [| discriminate].
    apply Nat.eqb_eq in H. exists name, info.
    unfold names_to_remove in Hin. apply set_diff_In in Hin.
    split; [exact E |]. split; [tauto |].
    destruct (Hd _ _ E) as [m [Hm' [He _]]].
    apply findall_In in Hm'. destruct Hm' as [Hm' _].
    rewrite Hroot in *. rewrite He in *.
    eapply NoDup_oid_inj; try eassumption.
    apply (descendants_NoDup _ (fromxml_NoDup doc)).
  - intros [name [info [E [Hn He]]]]. exists name. split.
    + unfold names_to_remove. apply set_diff_In. split; [| exact Hn].
      apply set_of_In, dict_mem_In. unfold dict_mem. now rewrite E.
    + rewrite E, He. apply Nat.eqb_refl.
Qed.

(** An entry without a name is never the element of a record. *)
Lemma unnamed_entry_kept rt content pr c :
  prunes rt content pr ->
  In c (flat_map iter (children (pr_masters_root pr))) ->
  get c "NameU" "" = "" ->
  entry_pruned pr c = false.
Proof.
  intros Hpr Hc Hn. destruct (entry_pruned pr c) eqn:E; [| reflexivity].
  apply (entry_pruned_iff _ _ _ _ Hpr Hc) in E.
  destruct E as [name [info [Hi [_ He]]]].
  destruct Hpr as [_ [Hm _]].
  destruct (_parse_masters_xml_Ok _ _ _ _ Hm) as [_ [_ Hd]].
  destruct (Hd _ _ Hi) as [m [_ [He' [Hname [Hne _]]]]].
  rewrite He in He'. subst m. rewrite Hn in Hname. subst name. discriminate.
Qed.

(** The element recorded for a used name is never removed. *)
Lemma used_entry_kept rt content pr name info :
  prunes rt content pr ->
  dict_get (pr_masters_info pr) name = Some info ->
  In name (pr_used_names pr) ->
  entry_pruned pr (info_element info) = false.
Proof.
  intros Hpr Hi Hu.
  destruct (entry_pruned pr (info_element info)) eqn:E; [| reflexivity].
  pose proof Hpr as [_ [Hm _]].
  destruct (_parse_masters_xml_Ok _ _ _ _ Hm) as [_ [_ Hd]].
  destruct (Hd _ _ Hi) as [m [Hm' [He _]]].
  apply findall_In in Hm'. destruct Hm' as [Hm' _]. rewrite <- He in Hm'.
  apply (entry_pruned_iff _ _ _ _ Hpr Hm') in E.
  destruct E as [name' [info' [Hi' [Hn' He']]]].
  assert (name' = name)
    by (eapply masters_info_elements; try eassumption; now rewrite He').
  subst name'. contradiction.
Qed.

(** ** Soundness of pruning *)

(** C1, as the code has it. After a successful run on an archive with a
    catalog, the archive at the output path holds:
    - a catalog made of the top-level entries of the original, in order,
      except the elements recorded in [masters_info] under a name that is not
      in [used_names]; so an entry stays when its name is empty, and the
      entry recorded for a name of [used_names] stays;
    - a relationship index made of the top-level relationships of the
      original whose [Id] is empty or is in [keep_rel_ids], the relationship
      ids recorded for the names of [used_names];
    - in the masters directory, no file named [master*.xml] other than
      [masters.xml], unless its name is in [keep_files], the targets of the
      relationships in [keep_rel_ids].
    The number of masters reported as removed is the number of catalog names
    outside [used_names]. *)
Theorem pruning_sound rt input_path output_path backup w result w' size content :
  shrink_vsdx rt input_path output_path backup w = (Ok result, w') ->
  dict_get (host w) (path_str input_path) = Some (ZipFile size content) ->
  exists_ content (masters_xml _make_vsdx_paths) = true ->
  exists pr out catalog_doc index_doc,
    prunes rt content pr
    /\ archive_at w' (path_str (final_output_of input_path output_path)) = Some out
    /\ document content (masters_xml _make_vsdx_paths) = Some catalog_doc
    /\ document content (rels_path _make_vsdx_paths) = Some index_doc
    /\ document out (masters_xml _make_vsdx_paths)
       = Some (XNode (xtag catalog_doc) (xattrib catalog_doc)
                 (map toxml (filter (fun c => negb (entry_pruned pr c))
                                    (children (fromxml catalog_doc)))))
    /\ (forall c, In c (children (fromxml catalog_doc)) ->
          entry_pruned pr c = true <->
          exists name info,
            dict_get (pr_masters_info pr) name = Some info
            /\ ~ In name (pr_used_names pr) /\ info_element info = c)
    /\ document out (rels_path _make_vsdx_paths)
       = Some (XNode (xtag index_doc) (xattrib index_doc)
                 (map toxml
                    (filter (fun r => negb (rel_dropped (keep_rel_ids rt pr) r))
                            (children (fromxml index_doc)))))
    /\ (forall x, In x (keep_rel_ids rt pr) <->
          exists name info,
            In name (pr_used_names pr)
            /\ dict_get (pr_masters_info pr) name = Some info
            /\ info_rel_id info = x)
    /\ (forall name,
          fnmatch "master" ".xml" name = true ->
          contains_char "/"%char name = false ->
          name <> "masters.xml" ->
          ~ In name (keep_files rt pr) ->
          exists_ out (joinpath (masters_dir _make_vsdx_paths) name) = false)
    /\ (forall y, In y (keep_files rt pr) <->
          exists name info,
            In name (pr_used_names pr)
            /\ dict_get (pr_masters_info pr) name = Some info
            /\ dict_get (pr_rels_info pr) (info_rel_id info) = Some y)
    /\ masters_removed result = List.length (names_to_remove pr).
Proof.
  intros H Hh He.
  destruct (shrink_vsdx_pruned _ _ _ _ _ _ _ _ _ H Hh He)
    as [pr [Hpr [_ [Harch Hn]]]].
  destruct (prunes_documents _ _ _ Hpr)
    as (fm & xm & fr & xr & Hfm & Hxm & Hroot & Hfr & Hxr & Hrroot
        & Ht & Ha & Hc & Ht' & Ha' & Hc' & _).
  exists pr, (zip_tree (pruned_tree rt content pr)), xm, xr.
  split; [exact Hpr |]. split; [exact Harch |].
  split; [now apply (document_file _ _ fm) |].
  split; [now apply (document_file _ _ fr) |].
  split.
  { rewrite pruned_catalog_document, toxml_unfold, Ht, Ha, Hc. reflexivity. }
  split.
  { intros c Hin. apply (entry_pruned_iff rt content); [exact Hpr |].
    rewrite Hroot. now apply children_in_descendants. }
  split.
  { rewrite pruned_index_document, toxml_unfold, Ht', Ha', Hc'. reflexivity. }
  split; [apply keep_sets_In |].
  split.
  { intros name Hf Hs Hm Hk. apply zip_tree_absent, pruned_tree_gone; trivial.
    unfold unused_file. apply andb_true_iff. split; apply negb_true_iff.
    - now apply String.eqb_neq.
    - now apply set_mem_false. }
  split; [apply keep_sets_In | exact Hn].
Qed.

Lemma pruning_sound_witness :
  exists result w' pr out,
    shrink_vsdx plain_runtime demo_path None true demo_world = (Ok result, w')
    /\ prunes plain_runtime demo_tree pr
    /\ archive_at w' "demo.vsdx" = Some out
    /\ masters_removed result = List.length (names_to_remove pr).
Proof.
  eexists. eexists.
  assert (H : shrink_vsdx plain_runtime demo_path None true demo_world
              = (Ok ?[result], ?[w'])) by (vm_compute; reflexivity).
  destruct (pruning_sound plain_runtime demo_path None true demo_world _ _
              7000 demo_tree H eq_refl eq_refl)
    as (pr & out & _ & _ & Hpr & Harch & _ & _ & _ & _ & _ & _ & _ & _ & Hn).
  exists pr, out. split; [exact H |]. split; [exact Hpr |].
  split; [exact Harch | exact Hn].
Defined.

(** The scenario of the specification, run: one page uses A by name and B by
    identifier; C is removed, the index keeps [rId1] and [rId2], and the
    backing file of C is gone. *)
Example scenario_shrunk :
  exists result w' out,
    shrink_vsdx plain_runtime demo_path None true demo_world = (Ok result, w')
    /\ masters_removed result = 1
    /\ archive_at w' "demo.vsdx" = Some out
    /\ document out (masters_xml _make_vsdx_paths)
       = Some (XNode (qname VISIO_NS "Masters") []
                 [master_entry "A" "1" "rId1"; master_entry "B" "2" "rId2"])
    /\ document out (rels_path _make_vsdx_paths)
       = Some (XNode (qname PKG_REL_NS "Relationships") []
                 [relationship "rId1" "master1.xml";
                  relationship "rId2" "master2.xml"])
    /\ exists_ out "visio/masters/master1.xml" = true
    /\ exists_ out "visio/masters/master2.xml" = true
    /\ exists_ out "visio/masters/master3.xml" = false.
Proof.
  eexists. eexists. eexists.
  split; [vm_compute; reflexivity |].
  repeat split; vm_compute; reflexivity.
Qed.

(** C1 as stated fails: the rewritten catalog still holds the entry without
    a name, whose name is not in [used_names], and the rewritten index has
    lost the relationship [rId2] of that retained entry. *)
Lemma unnamed_entry_survives :
  exists result w' out root mi,
    shrink_vsdx plain_runtime legacy_path None false legacy_world = (Ok result, w')
    /\ archive_at w' "legacy.vsdx" = Some out
    /\ _parse_masters_xml legacy_tree (masters_xml _make_vsdx_paths) = Ok (root, mi)
    /\ _find_used_masters plain_runtime legacy_tree (pages_dir _make_vsdx_paths) mi
       = Ok ["A"]
    /\ document out (masters_xml _make_vsdx_paths)
       = Some (XNode (qname VISIO_NS "Masters") []
                 [master_entry "A" "1" "rId1"; master_entry "" "2" "rId2"])
    /\ ~ In "" ["A"]
    /\ document out (rels_path _make_vsdx_paths)
       = Some (XNode (qname PKG_REL_NS "Relationships") []
                 [relationship "rId1" "master1.xml"]).
Proof.
  eexists. eexists. eexists. eexists. eexists.
  split; [vm_compute; reflexivity |].
  split; [vm_compute; reflexivity |].
  split; [vm_compute; reflexivity |].
  split; [vm_compute; reflexivity |].
  split; [vm_compute; reflexivity |].
  split; [intros [H | []]; discriminate |].
  vm_compute. reflexivity.
Qed.

(** ** Archives with nothing to remove *)

Lemma filter_nil {A} (f : A -> bool) l :
  (forall x, In x l -> f x = false) -> filter f l = [].
Proof.
  induction l as [| a l IH]; simpl; intros H; [reflexivity |].
  rewrite (H a (or_introl eq_refl)). apply IH. intros x Hx. apply H. now right.
Qed.

Lemma filter_all {A} (f : A -> bool) l :
  (forall x, In x l -> f x = true) -> filter f l = l.
Proof. intros H. apply forallb_filter_id, forallb_forall, H. Qed.

Lemma toxml_children_fromxml x :
  XNode (xtag x) (xattrib x) (map toxml (children (fromxml x))) = x.
Proof.
  rewrite <- (toxml_fromxml x) at 4. rewrite toxml_unfold.
  now rewrite fromxml_tag, fromxml_attrib.
Qed.

(** C4, as the code has it. When every name of the catalog is in
    [used_names], a successful run writes a catalog identical to the
    original and removes no master. Its relationship index is made of the
    top-level relationships of the original whose [Id] is empty or is the
    relationship id recorded for a named entry; it is identical to the
    original when every relationship of the original is of that kind. *)
Theorem nothing_unused rt input_path output_path backup w result w' size content :
  shrink_vsdx rt input_path output_path backup w = (Ok result, w') ->
  dict_get (host w) (path_str input_path) = Some (ZipFile size content) ->
  exists_ content (masters_xml _make_vsdx_paths) = true ->
  exists pr out catalog_doc index_doc,
    prunes rt content pr
    /\ archive_at w' (path_str (final_output_of input_path output_path)) = Some out
    /\ document content (masters_xml _make_vsdx_paths) = Some catalog_doc
    /\ document content (rels_path _make_vsdx_paths) = Some index_doc
    /\ ((forall name, In name (keys (pr_masters_info pr)) ->
                      In name (pr_used_names pr)) ->
        document out (masters_xml _make_vsdx_paths) = Some catalog_doc
        /\ masters_removed result = 0
        /\ document out (rels_path _make_vsdx_paths)
           = Some (XNode (xtag index_doc) (xattrib index_doc)
                     (map toxml
                        (filter (fun r => negb (rel_dropped (keep_rel_ids rt pr) r))
                                (children (fromxml index_doc)))))
        /\ (forall x, In x (keep_rel_ids rt pr) <->
              exists name info,
                dict_get (pr_masters_info pr) name = Some info
                /\ info_rel_id info = x)
        /\ ((forall r, In r (children (fromxml index_doc)) ->
               get r "Id" "" = "" \/ In (get r "Id" "") (keep_rel_ids rt pr)) ->
            document out (rels_path _make_vsdx_paths) = Some index_doc)).
Proof.
  intros H Hh He.
  destruct (shrink_vsdx_pruned _ _ _ _ _ _ _ _ _ H Hh He)
    as [pr [Hpr [_ [Harch Hn]]]].
  destruct (prunes_documents _ _ _ Hpr)
    as (fm & xm & fr & xr & Hfm & Hxm & Hroot & Hfr & Hxr & Hrroot
        & Ht & Ha & Hc & Ht' & Ha' & Hc' & _).
  exists pr, (zip_tree (pruned_tree rt content pr)), xm, xr.
  split; [exact Hpr |]. split; [exact Harch |].
  split; [now apply (document_file _ _ fm) |].
  split; [now apply (document_file _ _ fr) |].
  intros Hall.
  assert (Hnone : names_to_remove pr = []).
  { unfold names_to_remove, set_diff. apply filter_nil. intros x Hx.
    apply negb_false_iff, set_mem_In, Hall. exact (proj1 (set_of_In _ _) Hx). }
  split.
  { rewrite pruned_catalog_document, toxml_unfold, Ht, Ha, Hc.
    rewrite filter_all; [now rewrite toxml_children_fromxml |].
    intros c _. unfold entry_pruned. now rewrite Hnone. }
  split; [now rewrite Hn, Hnone |].
  split.
  { rewrite pruned_index_document, toxml_unfold, Ht', Ha', Hc'. reflexivity. }
  split.
  { intros x. unfold keep_rel_ids. rewrite (proj1 (keep_sets_In rt _ _ _)). split.
    - intros [name [info [_ Hi]]]. eauto.
    - intros [name [info [Hi Hx]]]. exists name, info.
      split; [| tauto]. apply Hall, dict_mem_In. unfold dict_mem. now rewrite Hi. }
  intros Hkept.
  rewrite pruned_index_document, toxml_unfold, Ht', Ha', Hc'.
  rewrite filter_all; [now rewrite toxml_children_fromxml |].
  intros r Hr. apply negb_true_iff. unfold rel_dropped.
  destruct (Hkept r Hr) as [-> | Hin]; [reflexivity |].
  apply set_mem_In in Hin. rewrite Hin. now rewrite andb_false_r.
Qed.

Lemma nothing_unused_witness :
  exists result w' out,
    shrink_vsdx plain_runtime full_path None false full_world = (Ok result, w')
    /\ archive_at w' "full.vsdx" = Some out
    /\ document out (masters_xml _make_vsdx_paths)
       = document full_tree (masters_xml _make_vsdx_paths)
    /\ document out (rels_path _make_vsdx_paths)
       = document full_tree (rels_path _make_vsdx_paths)
    /\ masters_removed result = 0.
Proof.
  eexists. eexists.
  assert (H : shrink_vsdx plain_runtime full_path None false full_world
              = (Ok ?[result], ?[w'])) by (vm_compute; reflexivity).
  destruct (nothing_unused plain_runtime full_path None false full_world _ _
              4000 full_tree H eq_refl eq_refl)
    as (pr & out & cdoc & idoc & Hpr & Harch & Hc & Hi & Hall).
  exists out. split; [exact H |]. split; [exact Harch |].
  destruct Hpr as (_ & Hm & _ & Hu & _).
  assert (Hm' : _parse_masters_xml full_tree (masters_xml _make_vsdx_paths)
                = Ok ?[parsed]) by (vm_compute; reflexivity).
  rewrite Hm' in Hm. injection Hm as Hroot Hmi.
  rewrite <- Hmi in Hu.
  match type of Hu with
  | ?run = _ => assert (Hu' : run = Ok ?[used]) by (vm_compute; reflexivity)
  end.
  rewrite Hu' in Hu. injection Hu as Hused.
  destruct Hall as (Hcat & Hn & _ & Hkeep & Hsame).
  { rewrite <- Hmi, <- Hused. simpl. tauto. }
  rewrite Hcat, Hc. split; [reflexivity |]. split; [| exact Hn].
  rewrite Hi. apply Hsame.
  assert (Hi' : document full_tree (rels_path _make_vsdx_paths) = Some ?[idoc])
    by (vm_compute; reflexivity).
  rewrite Hi' in Hi. injection Hi as <-.
  intros r [<- | [<- | []]]; right; apply Hkeep; rewrite <- Hmi.
  - exists "A". eexists. split; reflexivity.
  - exists "B". eexists. split; reflexivity.
Defined.

(** C4 as stated fails: the analysis of this archive reports no unused
    master, every name of its catalog is in [used_names], and yet the
    rewritten index differs from the original: it has lost the relationship
    [rId5], which no entry of the catalog points to. *)
Lemma index_changes_with_nothing_unused :
  exists report w1 result w' out root mi,
    analyze_vsdx plain_runtime orphan_path orphan_world = (Ok report, w1)
    /\ total_masters report = 2 /\ unused_masters report = 0
    /\ shrink_vsdx plain_runtime orphan_path None false orphan_world = (Ok result, w')
    /\ archive_at w' "orphan.vsdx" = Some out
    /\ _parse_masters_xml orphan_tree (masters_xml _make_vsdx_paths) = Ok (root, mi)
    /\ keys mi = ["A"; "B"]
    /\ _find_used_masters plain_runtime orphan_tree (pages_dir _make_vsdx_paths) mi
       = Ok ["A"; "B"]
    /\ masters_removed result = 0
    /\ document orphan_tree (rels_path _make_vsdx_paths)
       = Some (XNode (qname PKG_REL_NS "Relationships") []
                 [relationship "rId1" "master1.xml";
                  relationship "rId2" "master2.xml";
                  relationship "rId5" "master5.xml"])
    /\ document out (rels_path _make_vsdx_paths)
       = Some (XNode (qname PKG_REL_NS "Relationships") []
                 [relationship "rId1" "master1.xml";
                  relationship "rId2" "master2.xml"])
    /\ document out (rels_path _make_vsdx_paths)
       <> document orphan_tree (rels_path _make_vsdx_paths).
Proof.
  do 7 eexists.
  split; [vm_compute; reflexivity |].
  split; [reflexivity |]. split; [reflexivity |].
  split; [vm_compute; reflexivity |].
  split; [vm_compute; reflexivity |].
  split; [vm_compute; reflexivity |].
  split; [vm_compute; reflexivity |].
  split; [vm_compute; reflexivity |].
  split; [vm_compute; reflexivity |].
  split; [vm_compute; reflexivity |].
  split; [vm_compute; reflexivity |].
  vm_compute. discriminate.
Qed.

(** ** Entries without a name *)

(** C10, as the code has it. After a successful run, every top-level catalog
    entry whose name is empty is still in the catalog. Names recorded in
    [masters_info] are never empty, so such an entry contributes nothing to
    [keep_rel_ids] and [keep_files]. The relationships of the index that
    carry its (non-empty) relationship id are removed when that id is not in
    [keep_rel_ids], the relationship ids recorded for the names of
    [used_names], and they all stay when it is. When the target of its
    relationship is the plain name of a file [master*.xml] of the masters
    directory other than [masters.xml], that file is deleted when the target
    is not in [keep_files], the targets recorded for the names of
    [used_names], and it stays as it was when the target is in
    [keep_files]. *)
Theorem unnamed_entries rt input_path output_path backup w result w' size content :
  shrink_vsdx rt input_path output_path backup w = (Ok result, w') ->
  dict_get (host w) (path_str input_path) = Some (ZipFile size content) ->
  exists_ content (masters_xml _make_vsdx_paths) = true ->
  exists pr out,
    prunes rt content pr
    /\ archive_at w' (path_str (final_output_of input_path output_path)) = Some out
    /\ document out (masters_xml _make_vsdx_paths)
       = Some (toxml (pr_new_masters_root pr))
    /\ document out (rels_path _make_vsdx_paths)
       = Some (toxml (pr_new_rels_root pr))
    /\ (forall name info,
          dict_get (pr_masters_info pr) name = Some info -> name <> "")
    /\ (forall x, In x (keep_rel_ids rt pr) <->
          exists name info,
            In name (pr_used_names pr)
            /\ dict_get (pr_masters_info pr) name = Some info
            /\ info_rel_id info = x)
    /\ (forall y, In y (keep_files rt pr) <->
          exists name info,
            In name (pr_used_names pr)
            /\ dict_get (pr_masters_info pr) name = Some info
            /\ dict_get (pr_rels_info pr) (info_rel_id info) = Some y)
    /\ forall c,
         In c (children (pr_masters_root pr)) -> get c "NameU" "" = "" ->
         In c (children (pr_new_masters_root pr))
         /\ (_get_rel_id (find c (qname VISIO_NS "Rel")) <> "" ->
             ~ In (_get_rel_id (find c (qname VISIO_NS "Rel"))) (keep_rel_ids rt pr) ->
             forall r, In r (children (pr_new_rels_root pr)) ->
                       get r "Id" "" <> _get_rel_id (find c (qname VISIO_NS "Rel")))
         /\ (In (_get_rel_id (find c (qname VISIO_NS "Rel"))) (keep_rel_ids rt pr) ->
             forall r, In r (children (pr_rels_root pr)) ->
                       get r "Id" "" = _get_rel_id (find c (qname VISIO_NS "Rel")) ->
                       In r (children (pr_new_rels_root pr)))
         /\ (forall target,
               dict_get (pr_rels_info pr)
                        (_get_rel_id (find c (qname VISIO_NS "Rel"))) = Some target ->
               fnmatch "master" ".xml" target = true ->
               contains_char "/"%char target = false ->
               target <> "masters.xml" ->
               (~ In target (keep_files rt pr) ->
                exists_ out (joinpath (masters_dir _make_vsdx_paths) target) = false)
               /\ (In target (keep_files rt pr) ->
                   forall f,
                     dict_get content
                       (joinpath (masters_dir _make_vsdx_paths) target)
                     = Some (FileNode f) ->
                     dict_get out
                       (joinpath (masters_dir _make_vsdx_paths) target)
                     = Some (FileNode f))).
Proof.
  intros H Hh He.
  destruct (shrink_vsdx_pruned _ _ _ _ _ _ _ _ _ H Hh He)
    as [pr [Hpr [_ [Harch _]]]].
  destruct (prunes_documents _ _ _ Hpr)
    as (fm & xm & fr & xr & Hfm & Hxm & Hroot & Hfr & Hxr & Hrroot
        & Ht & Ha & Hc & Ht' & Ha' & Hc' & _).
  exists pr, (zip_tree (pruned_tree rt content pr)).
  split; [exact Hpr |]. split; [exact Harch |].
  split; [apply pruned_catalog_document |].
  split; [apply pruned_index_document |].
  split.
  { intros name info Hi. pose proof Hpr as [_ [Hm _]].
    destruct (_parse_masters_xml_Ok _ _ _ _ Hm) as [_ [_ Hd]].
    destruct (Hd _ _ Hi) as [m [_ [_ [_ [Hne _]]]]].
    intros ->. discriminate. }
  split; [apply keep_sets_In |]. split; [apply keep_sets_In |].
  intros c Hin Hname. split; [| split; [| split]].
  - rewrite Hc, <- Hroot. apply filter_In. split; [exact Hin |].
    apply negb_true_iff. apply (unnamed_entry_kept rt content); trivial.
    now apply children_in_descendants.
  - intros Hne Hnk r Hr Heq. rewrite Hc' in Hr. apply filter_In in Hr.
    destruct Hr as [_ Hr]. apply negb_true_iff in Hr.
    unfold rel_dropped in Hr. rewrite Heq in Hr.
    apply set_mem_false in Hnk. rewrite Hnk in Hr.
    destruct (_get_rel_id (find c (qname VISIO_NS "Rel")));
      [contradiction | discriminate].
  - intros Hkeep r Hr Hid. rewrite Hc', <- Hrroot. apply filter_In.
    split; [exact Hr |]. apply negb_true_iff. unfold rel_dropped.
    rewrite Hid. apply set_mem_In in Hkeep. rewrite Hkeep.
    apply andb_false_r.
  - intros target _ Hf Hs Hm. split.
    + intros Hk. apply zip_tree_absent, pruned_tree_gone; trivial.
      unfold unused_file. apply andb_true_iff. split; apply negb_true_iff.
      * now apply String.eqb_neq.
      * now apply set_mem_false.
    + intros Hk f Hfile. apply zip_tree_file. rewrite pruned_tree_kept.
      * exact Hfile.
      * exact Hm.
      * intros ->. discriminate Hs.
      * left. unfold unused_file. apply set_mem_In in Hk. rewrite Hk.
        apply andb_false_r.
Qed.

Lemma unnamed_entries_witness :
  exists result w' pr out,
    shrink_vsdx plain_runtime legacy_path None false legacy_world = (Ok result, w')
    /\ prunes plain_runtime legacy_tree pr
    /\ archive_at w' "legacy.vsdx" = Some out
    /\ document out (masters_xml _make_vsdx_paths)
       = Some (toxml (pr_new_masters_root pr)).
Proof.
  eexists. eexists.
  assert (H : shrink_vsdx plain_runtime legacy_path None false legacy_world
              = (Ok ?[result], ?[w'])) by (vm_compute; reflexivity).
  destruct (unnamed_entries plain_runtime legacy_path None false legacy_world _ _
              4000 legacy_tree H eq_refl eq_refl)
    as (pr & out & Hpr & Harch & Hdoc & _).
  exists pr, out. split; [exact H |]. split; [exact Hpr |].
  split; [exact Harch | exact Hdoc].
Defined.

(** What the run does to the entry without a name of [legacy_tree]: the
    entry stays, its relationship [rId2] and its file are gone. *)
Example unnamed_entry_dangles :
  exists result w' out,
    shrink_vsdx plain_runtime legacy_path None false legacy_world = (Ok result, w')
    /\ archive_at w' "legacy.vsdx" = Some out
    /\ document out (masters_xml _make_vsdx_paths)
       = Some (XNode (qname VISIO_NS "Masters") []
                 [master_entry "A" "1" "rId1"; master_entry "" "2" "rId2"])
    /\ document out (rels_path _make_vsdx_paths)
       = Some (XNode (qname PKG_REL_NS "Relationships") []
                 [relationship "rId1" "master1.xml"])
    /\ exists_ out "visio/masters/master2.xml" = false.
Proof.
  eexists. eexists. eexists.
  split; [vm_compute; reflexivity |].
  repeat split; vm_compute; reflexivity.
Qed.

(** C10 as stated fails: the entry without a name of [shared_tree] points
    to [rId1], the relationship of the used entry A; after the run that
    relationship is still in the index and its file is still there. *)
Lemma shared_relationship_survives :
  exists result w' out,
    shrink_vsdx plain_runtime shared_path None false shared_world = (Ok result, w')
    /\ archive_at w' "shared.vsdx" = Some out
    /\ document shared_tree (masters_xml _make_vsdx_paths)
       = Some (XNode (qname VISIO_NS "Masters") []
                 [master_entry "A" "1" "rId1"; master_entry "" "2" "rId1"])
    /\ document shared_tree (rels_path _make_vsdx_paths)
       = Some (XNode (qname PKG_REL_NS "Relationships") []
                 [relationship "rId1" "master1.xml"])
    /\ document out (rels_path _make_vsdx_paths)
       = Some (XNode (qname PKG_REL_NS "Relationships") []
                 [relationship "rId1" "master1.xml"])
    /\ exists_ out "visio/masters/master1.xml" = true.
Proof.
  eexists. eexists. eexists.
  split; [vm_compute; reflexivity |].
  repeat split; vm_compute; reflexivity.
Qed.

(** ** Reference by name and by identifier *)

Lemma id_to_name_of_lookup mi name info :
  NoDup (map (fun item : string * MasterInfo => info_id (snd item)) mi) ->
  In (name, info) mi ->
  dict_get (id_to_name_of mi) (info_id info) = Some name.
Proof.
  unfold id_to_name_of. induction mi as [| x l IH] using rev_ind;
    [contradiction |].
  rewrite map_app, fold_left_app. simpl. intros Hnd Hin.
  rewrite dict_get_set. apply in_app_or in Hin.
  destruct Hin as [Hin | [-> | []]].
  - destruct (String.eqb (info_id (snd x)) (info_id info)) eqn:E.
    + exfalso. apply String.eqb_eq in E.
      apply NoDup_remove_2 in Hnd. apply Hnd. rewrite app_nil_r, E.
      apply in_map_iff. exists (name, info). tauto.
    + apply IH; [| exact Hin]. now apply NoDup_remove_1 in Hnd;
        rewrite app_nil_r in Hnd.
  - simpl. now rewrite String.eqb_refl.
Qed.

(** Reference by identifier and reference by name, where the run treats
    them as meant. In a successful run, a name recorded in [masters_info]
    that a page references only through a [Master="ID"] attribute whose
    identifier the id-to-name lookup maps to it, and a name that a page
    references through a [USE("name")] occurrence, are treated alike: the
    name is in [used_names] and is not in [names_to_remove]; the element
    recorded for it, when it is a top-level entry, is not removed from the
    catalog; its relationship id is in [keep_rel_ids], so the relationships
    of the index with that id stay; and the target of its relationship is in
    [keep_files], so a file of the masters directory with exactly that name
    is in the archive written. When the identifiers of the catalog are
    unique, the lookup maps the identifier of every recorded entry to its
    name. *)
Theorem name_and_id_alike rt input_path output_path backup w result w' size content :
  shrink_vsdx rt input_path output_path backup w = (Ok result, w') ->
  dict_get (host w) (path_str input_path) = Some (ZipFile size content) ->
  exists_ content (masters_xml _make_vsdx_paths) = true ->
  exists pr out pages,
    prunes rt content pr
    /\ archive_at w' (path_str (final_output_of input_path output_path)) = Some out
    /\ document out (masters_xml _make_vsdx_paths)
       = Some (toxml (pr_new_masters_root pr))
    /\ document out (rels_path _make_vsdx_paths)
       = Some (toxml (pr_new_rels_root pr))
    /\ _get_page_files rt content (pages_dir _make_vsdx_paths) = Ok pages
    /\ (NoDup (map (fun item : string * MasterInfo => info_id (snd item))
                   (pr_masters_info pr)) ->
        forall name info,
          dict_get (pr_masters_info pr) name = Some info ->
          dict_get (id_to_name_of (pr_masters_info pr)) (info_id info) = Some name)
    /\ forall name info page text,
         dict_get (pr_masters_info pr) name = Some info ->
         In page pages -> _read_xml_file content page = Ok text ->
         In name (use_pattern_findall text)
         \/ (exists master_id,
               In master_id (master_attr_pattern_findall text)
               /\ dict_get (id_to_name_of (pr_masters_info pr)) master_id
                  = Some name) ->
         In name (pr_used_names pr)
         /\ ~ In name (names_to_remove pr)
         /\ (In (info_element info) (children (pr_masters_root pr)) ->
             In (info_element info) (children (pr_new_masters_root pr)))
         /\ In (info_rel_id info) (keep_rel_ids rt pr)
         /\ (forall r, In r (children (pr_rels_root pr)) ->
                       get r "Id" "" = info_rel_id info ->
                       In r (children (pr_new_rels_root pr)))
         /\ (forall target,
               dict_get (pr_rels_info pr) (info_rel_id info) = Some target ->
               In target (keep_files rt pr)
               /\ (forall f,
                     target <> "masters.xml" ->
                     target <> "_rels/masters.xml.rels" ->
                     dict_get content
                       (joinpath (masters_dir _make_vsdx_paths) target)
                     = Some (FileNode f) ->
                     dict_get out
                       (joinpath (masters_dir _make_vsdx_paths) target)
                     = Some (FileNode f))).
Proof.
  intros H Hh He.
  destruct (shrink_vsdx_pruned _ _ _ _ _ _ _ _ _ H Hh He)
    as [pr [Hpr [_ [Harch _]]]].
  destruct (prunes_documents _ _ _ Hpr)
    as (fm & xm & fr & xr & Hfm & Hxm & Hroot & Hfr & Hxr & Hrroot
        & Ht & Ha & Hc & Ht' & Ha' & Hc' & _).
  pose proof Hpr as (_ & Hm & _ & Hu & _).
  destruct (_find_used_masters_Ok _ _ _ _ _ Hu) as [_ [pages [Hpages Hused]]].
  exists pr, (zip_tree (pruned_tree rt content pr)), pages.
  split; [exact Hpr |]. split; [exact Harch |].
  split; [apply pruned_catalog_document |].
  split; [apply pruned_index_document |].
  split; [exact Hpages |].
  split.
  { intros Hnd name info Hi. apply id_to_name_of_lookup; [exact Hnd |].
    now apply dict_get_Some_In. }
  intros name info page text Hi Hpage Hread Href.
  assert (Hin : In name (pr_used_names pr)).
  { apply Hused. exists page, text. split; [exact Hpage |].
    split; [exact Hread |]. unfold page_names. apply in_or_app.
    destruct Href as [Hn | [master_id [Hid Hl]]]; [now left | right].
    apply in_flat_map. exists master_id. split; [exact Hid |].
    rewrite Hl. now left. }
  assert (Hkeep : In (info_rel_id info) (keep_rel_ids rt pr)).
  { apply keep_sets_In. exists name, info. tauto. }
  split; [exact Hin |]. split.
  { unfold names_to_remove. rewrite set_diff_In. tauto. }
  split.
  { intros Hc0. rewrite Hc, <- Hroot. apply filter_In. split; [exact Hc0 |].
    apply negb_true_iff. now apply (used_entry_kept rt content pr name). }
  split; [exact Hkeep |]. split.
  { intros r Hr Hid. rewrite Hc', <- Hrroot. apply filter_In.
    split; [exact Hr |]. apply negb_true_iff. unfold rel_dropped.
    rewrite Hid. apply set_mem_In in Hkeep. rewrite Hkeep.
    apply andb_false_r. }
  intros target Htarget.
  assert (Hfile : In target (keep_files rt pr)).
  { apply keep_sets_In. exists name, info. tauto. }
  split; [exact Hfile |]. intros f Hn1 Hn2 Hf.
  apply zip_tree_file. rewrite pruned_tree_kept; trivial.
  left. unfold unused_file. apply set_mem_In in Hfile. rewrite Hfile.
  apply andb_false_r.
Qed.

Lemma name_and_id_alike_witness :
  exists result w' pr,
    shrink_vsdx plain_runtime demo_path None true demo_world = (Ok result, w')
    /\ prunes plain_runtime demo_tree pr
    /\ In "A" (pr_used_names pr) /\ ~ In "A" (names_to_remove pr)
    /\ In "B" (pr_used_names pr) /\ ~ In "B" (names_to_remove pr).
Proof.
  eexists. eexists.
  assert (H : shrink_vsdx plain_runtime demo_path None true demo_world
              = (Ok ?[result], ?[w'])) by (vm_compute; reflexivity).
  destruct (name_and_id_alike plain_runtime demo_path None true demo_world _ _
              7000 demo_tree H eq_refl eq_refl)
    as (pr & out & pages & Hpr & _ & _ & _ & Hpages & _ & Hall).
  exists pr. split; [exact H |]. split; [exact Hpr |].
  destruct Hpr as (_ & Hm & _).
  assert (Hm' : _parse_masters_xml demo_tree (masters_xml _make_vsdx_paths)
                = Ok ?[parsed]) by (vm_compute; reflexivity).
  rewrite Hm' in Hm. injection Hm as _ Hmi.
  assert (Hp' : _get_page_files plain_runtime demo_tree
                  (pages_dir _make_vsdx_paths) = Ok ?[pages])
    by (vm_compute; reflexivity).
  rewrite Hp' in Hpages. injection Hpages as Hpages.
  assert (Hpage : In "visio/pages/page1.xml" pages)
    by (rewrite <- Hpages; now left).
  assert (HiA : exists info, dict_get (pr_masters_info pr) "A" = Some info)
    by (rewrite <- Hmi; eexists; reflexivity).
  assert (HiB : exists info, dict_get (pr_masters_info pr) "B" = Some info)
    by (rewrite <- Hmi; eexists; reflexivity).
  destruct HiA as [infoA HiA]. destruct HiB as [infoB HiB].
  destruct (Hall "A" infoA "visio/pages/page1.xml" _ HiA Hpage eq_refl)
    as (HA1 & HA2 & _).
  { left. vm_compute. now left. }
  destruct (Hall "B" infoB "visio/pages/page1.xml" _ HiB Hpage eq_refl)
    as (HB1 & HB2 & _).
  { right. exists "2". split; [vm_compute; now left |].
    rewrite <- Hmi. reflexivity. }
  tauto.
Defined.

(** C7. The code at the failing input. A page of this archive references the
    master A only by [Master="1"] and the master B only by [USE("B")]; both
    names end up in [used_names], no master is removed, and both catalog
    entries and both relationships are kept. The relationships spell their
    targets [./master1.xml] and [./master2.xml], and the loop that deletes
    files compares the bare file name of each [master*.xml] with these
    texts: it finds [master1.xml] and [master2.xml] outside [keep_files] and
    deletes the backing files of the two used masters, where C7 requires
    that neither is pruned. *)
Lemma used_master_file_deleted :
  exists result w' out root mi,
    shrink_vsdx plain_runtime dotted_path None false dotted_world = (Ok result, w')
    /\ archive_at w' "dotted.vsdx" = Some out
    /\ _parse_masters_xml dotted_tree (masters_xml _make_vsdx_paths) = Ok (root, mi)
    /\ _find_used_masters plain_runtime dotted_tree (pages_dir _make_vsdx_paths) mi
       = Ok ["B"; "A"]
    /\ masters_removed result = 0
    /\ document out (masters_xml _make_vsdx_paths)
       = Some (XNode (qname VISIO_NS "Masters") []
                 [master_entry "A" "1" "rId1"; master_entry "B" "2" "rId2"])
    /\ document out (rels_path _make_vsdx_paths)
       = Some (XNode (qname PKG_REL_NS "Relationships") []
                 [relationship "rId1" "./master1.xml";
                  relationship "rId2" "./master2.xml"])
    /\ exists_ dotted_tree "visio/masters/master1.xml" = true
    /\ exists_ dotted_tree "visio/masters/master2.xml" = true
    /\ exists_ out "visio/masters/master1.xml" = false
    /\ exists_ out "visio/masters/master2.xml" = false.
Proof.
  eexists. eexists. eexists. eexists. eexists.
  split; [vm_compute; reflexivity |].
  split; [vm_compute; reflexivity |].
  split; [vm_compute; reflexivity |].
  repeat split.
Qed.

(** ** The order of effects *)

Lemma firstn_In {A} n (l : list A) x : In x (firstn n l) -> In x l.
Proof.
  revert n. induction l as [| a l IH]; intros [| n]; simpl; try tauto.
  intros [H | H]; [now left | right; eauto].
Qed.

Lemma holds_all_refl t : holds_all t t.
Proof.
  split; [trivial |]. intros path doc' H. exists doc'. split; [exact H |].
  apply incl_refl.
Qed.

Lemma holds_all_trans t1 t2 t3 :
  holds_all t1 t2 -> holds_all t2 t3 -> holds_all t1 t3.
Proof.
  intros [F1 D1] [F2 D2]. split; [auto |].
  intros path d3 H3. destruct (D2 _ _ H3) as [d2 [H2 I2]].
  destruct (D1 _ _ H2) as [d1 [H1 I1]]. exists d1. split; [exact H1 |].
  eapply incl_tran; eassumption.
Qed.

Lemma document_set t k f path :
  document (dict_set t k (FileNode f)) path =
  if String.eqb k path
  then match f_xml f with WellFormed d => Some d | Malformed _ => None end
  else document t path.
Proof.
  unfold document. rewrite dict_get_set. now destruct (String.eqb k path).
Qed.

Lemma exists_set t k n path :
  exists_ (dict_set t k n) path = String.eqb k path || exists_ t path.
Proof.
  unfold exists_, dict_mem. rewrite dict_get_set.
  now destruct (String.eqb k path).
Qed.

(** Rewriting a document that exists with fewer of its entries. *)
Lemma holds_all_rewrite rt t k f doc new :
  dict_get t k = Some (FileNode f) -> f_xml f = WellFormed doc ->
  incl (xchildren new) (xchildren doc) ->
  holds_all t (dict_set t k (FileNode (xml_write rt new))).
Proof.
  intros Hk Hf Hi. split.
  - intros path. rewrite exists_set.
    destruct (String.eqb k path) eqn:E; [| trivial].
    apply String.eqb_eq in E. subst path. intros _.
    unfold exists_, dict_mem. now rewrite Hk.
  - intros path doc'. rewrite document_set, xml_write_parse.
    destruct (String.eqb k path) eqn:E.
    + apply String.eqb_eq in E. subst path. intros [= <-].
      exists doc. split; [now apply (document_file _ _ f) | exact Hi].
    + intros H. exists doc'. split; [exact H | apply incl_refl].
Qed.

(** Deleting files. *)
Lemma holds_all_delete (t : Tree) ps qs :
  incl ps qs ->
  holds_all (fold_left dict_del ps t) (fold_left dict_del qs t).
Proof.
  intros Hi.
  assert (Hget : forall path n,
            dict_get (fold_left dict_del qs t) path = Some n ->
            dict_get (fold_left dict_del ps t) path = Some n).
  { intros path n. rewrite !fold_dict_del_get.
    destruct (existsb (String.eqb path) qs) eqn:Eq; [discriminate |].
    destruct (existsb (String.eqb path) ps) eqn:Ep; [| trivial].
    apply existsb_exists in Ep. destruct Ep as [x [Hx He]].
    assert (existsb (String.eqb path) qs = true)
      by (apply existsb_exists; exists x; split; [apply Hi, Hx | exact He]).
    congruence. }
  split.
  - intros path. unfold exists_, dict_mem.
    destruct (dict_get (fold_left dict_del qs t) path) eqn:E; [| discriminate].
    now rewrite (Hget _ _ E).
  - intros path doc'. unfold document.
    destruct (dict_get (fold_left dict_del qs t) path) eqn:E; [| discriminate].
    rewrite (Hget _ _ E). intros H. exists doc'. split; [exact H | apply incl_refl].
Qed.

Lemma filtered_children_incl (p : Element -> bool) x e :
  children e = filter p (children (fromxml x)) ->
  incl (xchildren (toxml e)) (xchildren x).
Proof.
  intros H. rewrite toxml_children, H.
  rewrite <- (toxml_fromxml x) at 2. rewrite toxml_children.
  apply incl_map, incl_filter.
Qed.

(** The trees the extracted directory goes through. *)
Lemma prefix_state rt content pr we n :
  work we = content ->
  let t := work (replay rt (firstn n (prune_events rt content pr)) we) in
  t = content
  \/ t = dict_set content (masters_xml _make_vsdx_paths)
           (FileNode (xml_write rt (toxml (pr_new_masters_root pr))))
  \/ exists k,
       t = fold_left dict_del
             (firstn k (map (joinpath (masters_dir _make_vsdx_paths))
                            (deleted rt content pr)))
             (rewritten rt content pr).
Proof.
  intros Hw. unfold prune_events, write_events, unlink_events.
  destruct n as [| [| k]]; cbn [firstn app].
  - left. exact Hw.
  - right. left. unfold replay. simpl. now rewrite Hw.
  - right. right. exists k.
    rewrite <- (map_map (joinpath (masters_dir _make_vsdx_paths)) Unlink).
    rewrite firstn_map.
    change (replay rt (?a :: ?b :: ?l) we)
      with (replay rt l (replay rt [a; b] we)).
    rewrite replay_unlinks. cbn [work]. unfold replay. simpl.
    unfold rewritten. now rewrite Hw.
Qed.

Lemma prefix_holds_all rt content pr we n :
  prunes rt content pr -> work we = content ->
  holds_all (work (replay rt (firstn n (prune_events rt content pr)) we))
            (pruned_tree rt content pr).
Proof.
  intros Hpr Hw.
  destruct (prunes_documents _ _ _ Hpr)
    as (fm & xm & fr & xr & Hfm & Hxm & Hroot & Hfr & Hxr & Hrroot
        & Ht & Ha & Hc & Ht' & Ha' & Hc' & _).
  set (s1 := dict_set content (masters_xml _make_vsdx_paths)
               (FileNode (xml_write rt (toxml (pr_new_masters_root pr))))).
  assert (H01 : holds_all content s1).
  { apply (holds_all_rewrite rt content _ fm xm); trivial.
    eapply filtered_children_incl, Hc. }
  assert (H12 : holds_all s1 (rewritten rt content pr)).
  { apply (holds_all_rewrite rt s1 _ fr xr); trivial.
    - unfold s1. now rewrite dict_get_set.
    - eapply filtered_children_incl, Hc'. }
  assert (H2f : forall k,
            holds_all (fold_left dict_del
                         (firstn k (map (joinpath (masters_dir _make_vsdx_paths))
                                        (deleted rt content pr)))
                         (rewritten rt content pr))
                      (pruned_tree rt content pr)).
  { intros k. apply holds_all_delete. intros x. apply firstn_In. }
  assert (H2 : holds_all (rewritten rt content pr) (pruned_tree rt content pr))
    by apply (H2f 0).
  destruct (prefix_state rt content pr we n Hw) as [-> | [-> | [k ->]]].
  - eapply holds_all_trans; [exact H01 |].
    eapply holds_all_trans; [exact H12 | exact H2].
  - eapply holds_all_trans; [exact H12 | exact H2].
  - apply H2f.
Qed.

(** The documents of a tree between two steps. *)
Lemma prefix_documents rt content pr we n :
  prunes rt content pr -> work we = content ->
  let t := work (replay rt (firstn n (prune_events rt content pr)) we) in
  (document t (rels_path _make_vsdx_paths)
   <> document content (rels_path _make_vsdx_paths) ->
   document t (masters_xml _make_vsdx_paths)
   = Some (toxml (pr_new_masters_root pr)))
  /\ (forall path,
        exists_ content path = true -> exists_ t path = false ->
        document t (masters_xml _make_vsdx_paths)
        = Some (toxml (pr_new_masters_root pr))
        /\ document t (rels_path _make_vsdx_paths)
           = Some (toxml (pr_new_rels_root pr))).
Proof.
  intros Hpr Hw. cbv zeta.
  destruct (prefix_state rt content pr we n Hw) as [-> | [-> | [k ->]]].
  - split; [intros H; now contradiction H |].
    intros path H1 H2. congruence.
  - split.
    + intros _. now rewrite document_set, String.eqb_refl, xml_write_parse.
    + intros path H1 H2. rewrite exists_set, H1, orb_true_r in H2. discriminate.
  - set (ps := firstn k (map (joinpath (masters_dir _make_vsdx_paths))
                             (deleted rt content pr))).
    assert (Hkeep : forall n0,
              n0 = "masters.xml" \/ n0 = "_rels/masters.xml.rels" ->
              dict_get (fold_left dict_del ps (rewritten rt content pr))
                       (joinpath (masters_dir _make_vsdx_paths) n0)
              = dict_get (rewritten rt content pr)
                         (joinpath (masters_dir _make_vsdx_paths) n0)).
    { intros n0 Hn0. rewrite fold_dict_del_get.
      destruct (existsb _ _) eqn:E; [| reflexivity]. exfalso.
      apply existsb_exists in E. destruct E as (x & Hx & He).
      apply String.eqb_eq in He. subst x. apply firstn_In in Hx.
      apply in_map_iff in Hx. destruct Hx as (m & Hm & Hin).
      apply joinpath_inj in Hm. subst m.
      apply deleted_In in Hin. destruct Hin as (_ & Hs & _ & Hu).
      destruct Hn0 as [-> | ->]; discriminate. }
    assert (Hm : document (fold_left dict_del ps (rewritten rt content pr))
                          (masters_xml _make_vsdx_paths)
                 = Some (toxml (pr_new_masters_root pr))).
    { unfold document.
      change (masters_xml _make_vsdx_paths)
        with (joinpath (masters_dir _make_vsdx_paths) "masters.xml").
      rewrite Hkeep by now left. unfold rewritten. rewrite !dict_get_set.
      change (String.eqb (rels_path _make_vsdx_paths)
                (joinpath (masters_dir _make_vsdx_paths) "masters.xml"))
        with false.
      change (joinpath (masters_dir _make_vsdx_paths) "masters.xml")
        with (masters_xml _make_vsdx_paths).
      now rewrite String.eqb_refl, xml_write_parse. }
    assert (Hr : document (fold_left dict_del ps (rewritten rt content pr))
                          (rels_path _make_vsdx_paths)
                 = Some (toxml (pr_new_rels_root pr))).
    { unfold document.
      change (rels_path _make_vsdx_paths)
        with (joinpath (masters_dir _make_vsdx_paths) "_rels/masters.xml.rels").
      rewrite Hkeep by now right. unfold rewritten. rewrite dict_get_set.
      change (joinpath (masters_dir _make_vsdx_paths) "_rels/masters.xml.rels")
        with (rels_path _make_vsdx_paths).
      now rewrite String.eqb_refl, xml_write_parse. }
    split; [intros _; exact Hm | intros path _ _; split; assumption].
Qed.

(** C9, as the code has it. The effects of a successful run on an archive
    with a catalog are, in this order: the backup copy if one is made, the
    extraction, the rewriting of the catalog (the original without the
    entries recorded under a name outside [used_names]), the rewriting of
    the relationship index (the original without the relationships whose
    non-empty id is not kept), the deletion of the files [master*.xml] of the
    masters directory whose name is neither [masters.xml] nor in
    [keep_files], the building of the new archive and its move to the output
    path. So the extracted tree is at every moment the original, or the
    original with the catalog rewritten, or the tree with both documents
    rewritten and some of the deletions done: the index differs from the
    original only in a tree that holds the rewritten catalog, a path is
    missing only from a tree that holds both rewritten documents, and every
    such tree holds all paths and all document entries of the tree that is
    archived at the end. *)
Theorem effects_in_order rt input_path output_path backup w result w' size content :
  shrink_vsdx rt input_path output_path backup w = (Ok result, w') ->
  dict_get (host w) (path_str input_path) = Some (ZipFile size content) ->
  exists_ content (masters_xml _make_vsdx_paths) = true ->
  exists pr catalog_doc index_doc,
    prunes rt content pr
    /\ document content (masters_xml _make_vsdx_paths) = Some catalog_doc
    /\ document content (rels_path _make_vsdx_paths) = Some index_doc
    /\ let new_catalog :=
         XNode (xtag catalog_doc) (xattrib catalog_doc)
           (map toxml (filter (fun c => negb (entry_pruned pr c))
                              (children (fromxml catalog_doc)))) in
       let new_index :=
         XNode (xtag index_doc) (xattrib index_doc)
           (map toxml
              (filter (fun r => negb (rel_dropped (keep_rel_ids rt pr) r))
                      (children (fromxml index_doc)))) in
       let extracted :=
         replay rt (backup_events input_path output_path backup
                    ++ [MkTemp; Extract (path_str input_path)]) w in
       log w' =
       (log w
        ++ backup_events input_path output_path backup
        ++ [MkTemp; Extract (path_str input_path)]
        ++ [WriteXml (masters_xml _make_vsdx_paths) new_catalog;
            WriteXml (rels_path _make_vsdx_paths) new_index]
        ++ map (fun name => Unlink (joinpath (masters_dir _make_vsdx_paths) name))
               (deleted rt content pr)
        ++ [CreateZip;
            Move (path_str (final_output_of input_path output_path));
            RmTemp])%list
       /\ (forall name,
             In name (deleted rt content pr) <->
             exists_ content (joinpath (masters_dir _make_vsdx_paths) name) = true
             /\ contains_char "/"%char name = false
             /\ fnmatch "master" ".xml" name = true
             /\ name <> "masters.xml"
             /\ ~ In name (keep_files rt pr))
       /\ archive_at w' (path_str (final_output_of input_path output_path))
          = Some (zip_tree (pruned_tree rt content pr))
       /\ work extracted = content
       /\ forall n,
            let t :=
              work (replay rt (firstn n (prune_events rt content pr)) extracted) in
            (t = content
             \/ t = dict_set content (masters_xml _make_vsdx_paths)
                      (FileNode (xml_write rt new_catalog))
             \/ exists k,
                  t = fold_left dict_del
                        (firstn k (map (joinpath (masters_dir _make_vsdx_paths))
                                       (deleted rt content pr)))
                        (dict_set
                           (dict_set content (masters_xml _make_vsdx_paths)
                                     (FileNode (xml_write rt new_catalog)))
                           (rels_path _make_vsdx_paths)
                           (FileNode (xml_write rt new_index))))
            /\ (document t (rels_path _make_vsdx_paths) <> Some index_doc ->
                document t (masters_xml _make_vsdx_paths) = Some new_catalog)
            /\ (forall path,
                  exists_ content path = true -> exists_ t path = false ->
                  document t (masters_xml _make_vsdx_paths) = Some new_catalog
                  /\ document t (rels_path _make_vsdx_paths) = Some new_index)
            /\ holds_all t (pruned_tree rt content pr).
Proof.
  intros H Hh He.
  destruct (shrink_vsdx_pruned _ _ _ _ _ _ _ _ _ H Hh He)
    as [pr [Hpr [Hw [Harch _]]]].
  apply shrink_vsdx_Ok in H. destruct H as [sz [content' [_ [Hs _]]]].
  destruct (prunes_documents _ _ _ Hpr)
    as (fm & xm & fr & xr & Hfm & Hxm & Hroot & Hfr & Hxr & Hrroot
        & Ht & Ha & Hc & Ht' & Ha' & Hc' & _).
  assert (Hnew : toxml (pr_new_masters_root pr)
                 = XNode (xtag xm) (xattrib xm)
                     (map toxml (filter (fun c => negb (entry_pruned pr c))
                                        (children (fromxml xm))))).
  { now rewrite toxml_unfold, Ht, Ha, Hc. }
  assert (Hnew' : toxml (pr_new_rels_root pr)
                  = XNode (xtag xr) (xattrib xr)
                      (map toxml
                         (filter (fun r => negb (rel_dropped (keep_rel_ids rt pr) r))
                                 (children (fromxml xr))))).
  { now rewrite toxml_unfold, Ht', Ha', Hc'. }
  assert (Hdm : document content (masters_xml _make_vsdx_paths) = Some xm)
    by now apply (document_file _ _ fm).
  assert (Hdr : document content (rels_path _make_vsdx_paths) = Some xr)
    by now apply (document_file _ _ fr).
  exists pr, xm, xr. split; [exact Hpr |]. split; [exact Hdm |].
  split; [exact Hdr |]. cbv zeta. rewrite <- Hnew, <- Hnew'.
  split.
  { rewrite Hw, replay_log. reflexivity. }
  split.
  { intros name. rewrite deleted_In. unfold unused_file.
    rewrite andb_true_iff, !negb_true_iff, String.eqb_neq, set_mem_false.
    assert (Hk : In (joinpath (masters_dir _make_vsdx_paths) name)
                    (keys (rewritten rt content pr))
                 <-> exists_ content
                       (joinpath (masters_dir _make_vsdx_paths) name) = true).
    { unfold rewritten, exists_. rewrite !dict_set_keys, dict_mem_In.
      split; [| tauto].
      intros [[Hk | ->] | ->]; [exact Hk | |]; apply dict_mem_In;
        unfold dict_mem; [now rewrite Hfm | now rewrite Hfr]. }
    rewrite Hk. tauto. }
  split; [exact Harch |].
  assert (Hwork : work (replay rt (backup_events input_path output_path backup
                                   ++ [MkTemp; Extract (path_str input_path)]) w)
                  = content).
  { rewrite replay_app.
    pose proof (backup_events_lookup rt input_path output_path backup w _ Hh Hs)
      as Hl.
    unfold replay at 1. simpl. now rewrite Hl. }
  split; [exact Hwork |].
  intros n.
  destruct (prefix_documents rt content pr _ n Hpr Hwork) as [Hidx Hmiss].
  split; [apply (prefix_state rt content pr _ n Hwork) |].
  split; [| split; [exact Hmiss | now apply prefix_holds_all]].
  intros Hne. apply Hidx. now rewrite Hdr.
Qed.

Lemma effects_in_order_witness :
  exists result w' pr,
    shrink_vsdx plain_runtime demo_path None true demo_world = (Ok result, w')
    /\ prunes plain_runtime demo_tree pr
    /\ deleted plain_runtime demo_tree pr = ["master3.xml"]
    /\ log w' =
       [Copy "demo.vsdx" "demo.vsdx.bak"; MkTemp; Extract "demo.vsdx";
        WriteXml "visio/masters/masters.xml"
          (XNode (qname VISIO_NS "Masters") []
             [master_entry "A" "1" "rId1"; master_entry "B" "2" "rId2"]);
        WriteXml "visio/masters/_rels/masters.xml.rels"
          (XNode (qname PKG_REL_NS "Relationships") []
             [relationship "rId1" "master1.xml";
              relationship "rId2" "master2.xml"]);
        Unlink "visio/masters/master3.xml";
        CreateZip; Move "demo.vsdx"; RmTemp]
    /\ holds_all demo_tree (pruned_tree plain_runtime demo_tree pr).
Proof.
  eexists. eexists.
  assert (H : shrink_vsdx plain_runtime demo_path None true demo_world
              = (Ok ?[result], ?[w'])) by (vm_compute; reflexivity).
  destruct (effects_in_order plain_runtime demo_path None true demo_world _ _
              7000 demo_tree H eq_refl eq_refl)
    as (pr & catalog_doc & index_doc & Hpr & Hc & Hi & Hlog & _ & _ & _ & Hall).
  exists pr. split; [exact H |]. split; [exact Hpr |].
  cbn [log demo_world app backup_events] in Hlog.
  apply (f_equal (@skipn Event 5)) in Hlog. cbn [skipn] in Hlog.
  split; [| split; [reflexivity | exact (proj2 (proj2 (proj2 (Hall 0))))]].
  destruct (deleted plain_runtime demo_tree pr) as [| n0 [| n1 rest]];
    cbn [map app] in Hlog.
  - discriminate Hlog.
  - injection Hlog as Hn. now subst n0.
  - discriminate Hlog.
Defined.

(** C9 as stated fails: a crash between two steps can leave a dangling
    reference. After the two documents of this archive are rewritten and
    before any file is deleted, the catalog holds the entry without a name,
    which points to [rId2], and the index no longer lists [rId2]; the
    finished archive is in the same state. *)
Lemma crash_leaves_dangling_reference :
  exists result w' out,
    shrink_vsdx plain_runtime legacy_path None false legacy_world = (Ok result, w')
    /\ log w' =
       [MkTemp; Extract "legacy.vsdx";
        WriteXml "visio/masters/masters.xml"
          (XNode (qname VISIO_NS "Masters") []
             [master_entry "A" "1" "rId1"; master_entry "" "2" "rId2"]);
        WriteXml "visio/masters/_rels/masters.xml.rels"
          (XNode (qname PKG_REL_NS "Relationships") []
             [relationship "rId1" "master1.xml"]);
        Unlink "visio/masters/master2.xml";
        CreateZip; Move "legacy.vsdx"; RmTemp]
    /\ (let crashed :=
          work (replay plain_runtime (firstn 4 (log w')) legacy_world) in
        document crashed (masters_xml _make_vsdx_paths)
        = Some (XNode (qname VISIO_NS "Masters") []
                  [master_entry "A" "1" "rId1"; master_entry "" "2" "rId2"])
        /\ document crashed (rels_path _make_vsdx_paths)
           = Some (XNode (qname PKG_REL_NS "Relationships") []
                     [relationship "rId1" "master1.xml"])
        /\ exists_ crashed "visio/masters/master2.xml" = true)
    /\ archive_at w' "legacy.vsdx" = Some out
    /\ document out (masters_xml _make_vsdx_paths)
       = Some (XNode (qname VISIO_NS "Masters") []
                 [master_entry "A" "1" "rId1"; master_entry "" "2" "rId2"])
    /\ document out (rels_path _make_vsdx_paths)
       = Some (XNode (qname PKG_REL_NS "Relationships") []
                 [relationship "rId1" "master1.xml"]).
Proof.
  eexists. eexists. eexists.
  split; [vm_compute; reflexivity |].
  split; [reflexivity |].
  split; [vm_compute; auto |].
  split; [vm_compute; reflexivity |].
  split; reflexivity.
Qed.

(** * Further properties *)

(** ** What a call may write *)

Lemma same_except_refl ps w : same_except ps w w.
Proof. intros q _. reflexivity. Qed.

Lemma same_except_trans ps w1 w2 w3 :
  same_except ps w1 w2 -> same_except ps w2 w3 -> same_except ps w1 w3.
Proof. intros H1 H2 q Hq. rewrite (H2 q Hq). apply H1, Hq. Qed.

Lemma same_except_host ps w w' : host w' = host w -> same_except ps w w'.
Proof. intros H q _. now rewrite H. Qed.

Lemma same_except_incl ps qs w w' :
  incl ps qs -> same_except ps w w' -> same_except qs w w'.
Proof. intros Hi H q Hq. apply H. intros Hin. apply Hq, Hi, Hin. Qed.

Lemma writes_only_incl {A} ps qs (m : M A) :
  incl ps qs -> writes_only ps m -> writes_only qs m.
Proof. intros Hi H w r w' Hm. eapply same_except_incl; [exact Hi | eapply H, Hm]. Qed.

Lemma writes_only_ret {A} ps (a : A) : writes_only ps (ret a).
Proof. intros w r w' [= _ <-]. apply same_except_refl. Qed.

Lemma writes_only_lift {A} ps (r : Result A) : writes_only ps (lift r).
Proof. intros w r' w' [= _ <-]. apply same_except_refl. Qed.

Lemma writes_only_get_work ps : writes_only ps get_work.
Proof. intros w r w' [= _ <-]. apply same_except_refl. Qed.

Lemma writes_only_bind {A B} ps (m : M A) (k : A -> M B) :
  writes_only ps m -> (forall a, writes_only ps (k a)) -> writes_only ps (bind m k).
Proof.
  intros Hm Hk w r w' H. unfold bind in H.
  destruct (m w) as [[a | e] w1] eqn:E.
  - eapply same_except_trans; [eapply Hm, E | eapply Hk, H].
  - injection H as _ <-. eapply Hm, E.
Qed.

Lemma host_perform rt ev w :
  host (snd (perform rt ev w)) =
  match ev with
  | Copy src dst =>
      match dict_get (host w) src with
      | Some f => dict_set (host w) dst f
      | None => host w
      end
  | Move dst =>
      match temp_output w with
      | Some f => dict_set (host w) dst f
      | None => host w
      end
  | _ => host w
  end.
Proof.
  destruct ev; simpl; try reflexivity.
  - destruct (dict_get (host w) src); reflexivity.
  - destruct (dict_get (host w) src) as [[] |]; reflexivity.
  - destruct (temp_output w); reflexivity.
Qed.

Lemma dict_set_other {V} (d : dict V) p v q :
  q <> p -> dict_get (dict_set d p v) q = dict_get d q.
Proof.
  intros H. rewrite dict_get_set. destruct (String.eqb p q) eqn:E; [| reflexivity].
  apply String.eqb_eq in E. congruence.
Qed.

Lemma writes_only_perform rt ps ev :
  match ev with
  | Copy _ dst => In dst ps
  | Move dst => In dst ps
  | _ => True
  end -> writes_only ps (perform rt ev).
Proof.
  intros Ht w r w' H q Hq.
  assert (Hw : w' = snd (perform rt ev w)) by (rewrite H; reflexivity).
  rewrite Hw, host_perform.
  destruct ev; try reflexivity.
  - destruct (dict_get (host w) src); [| reflexivity].
    apply dict_set_other. intros ->. contradiction.
  - destruct (temp_output w); [| reflexivity].
    apply dict_set_other. intros ->. contradiction.
Qed.

Lemma writes_only_copy2 rt ps src dst :
  In dst ps -> writes_only ps (copy2 rt src dst).
Proof.
  intros Hin w r w' H. unfold copy2 in H.
  destruct (copy2_refusal rt (host w) src dst).
  - injection H as _ <-. apply same_except_refl.
  - revert H. now apply (writes_only_perform rt ps (Copy src dst)).
Qed.

Lemma writes_only_move rt ps dst : In dst ps -> writes_only ps (move rt dst).
Proof.
  intros Hin w r w' H. unfold move in H.
  destruct (move_refusal rt (host w) dst).
  - injection H as _ <-. apply same_except_refl.
  - revert H. now apply (writes_only_perform rt ps (Move dst)).
Qed.

Lemma writes_only_stat_size ps p : writes_only ps (stat_size p).
Proof.
  intros w r w' H. unfold stat_size in H.
  destruct (dict_get (host w) p); injection H as _ <-; apply same_except_refl.
Qed.

Lemma writes_only_extractall rt ps p : writes_only ps (extractall rt p).
Proof.
  intros w r w' H. unfold extractall in H.
  destruct (dict_get (host w) p) as [[] |].
  - revert H. now apply writes_only_perform.
  - injection H as _ <-. apply same_except_refl.
  - injection H as _ <-. apply same_except_refl.
Qed.

Lemma writes_only_unlink rt ps p : writes_only ps (unlink rt p).
Proof.
  intros w r w' H. unfold unlink in H.
  destruct (dict_get (work w) p) as [[] |].
  - revert H. now apply writes_only_perform.
  - injection H as _ <-. apply same_except_refl.
  - injection H as _ <-. apply same_except_refl.
Qed.

Lemma writes_only_unlink_unused rt ps d keep names :
  writes_only ps (unlink_unused rt d keep names).
Proof.
  induction names as [| name rest IH]; simpl.
  - apply writes_only_ret.
  - apply writes_only_bind; [| intros _; exact IH].
    destruct (unused_file keep name);
      [apply writes_only_unlink | apply writes_only_ret].
Qed.

Lemma writes_only_with_tempdir {A} rt ps (body : M A) :
  writes_only ps body -> writes_only ps (with_tempdir rt body).
Proof.
  intros Hb w r w' H. unfold with_tempdir in H.
  destruct (body (snd (perform rt MkTemp w))) as [r1 w1] eqn:E.
  injection H as _ <-.
  eapply same_except_trans; [| eapply same_except_trans].
  - eapply (writes_only_perform rt ps MkTemp I). apply surjective_pairing.
  - eapply Hb, E.
  - eapply (writes_only_perform rt ps RmTemp I). apply surjective_pairing.
Qed.

Lemma writes_only_shrink_extracted rt ps path final osz :
  In (path_str final) ps ->
  writes_only ps (shrink_extracted rt path final osz).
Proof.
  intros Hin. unfold shrink_extracted.
  apply writes_only_bind; [apply writes_only_extractall | intros _].
  apply writes_only_bind; [apply writes_only_get_work | intros extract_dir].
  destruct (negb (exists_ extract_dir (masters_xml _make_vsdx_paths))).
  - apply writes_only_bind; [| intros _; apply writes_only_ret].
    destruct (negb _); [| apply writes_only_ret].
    now apply writes_only_copy2.
  - repeat first
      [ apply writes_only_ret
      | apply writes_only_lift
      | apply writes_only_get_work
      | apply writes_only_unlink_unused
      | apply writes_only_move; exact Hin
      | apply writes_only_perform; (exact I || exact Hin)
      | apply writes_only_bind; [| intro] ].
Qed.

Lemma writes_only_validate ps p : writes_only ps (_validate_vsdx_path p).
Proof.
  intros w r w' H. unfold _validate_vsdx_path in H.
  destruct (negb _); [injection H as _ <-; apply same_except_refl |].
  destruct (negb _); injection H as _ <-; apply same_except_refl.
Qed.

Lemma writes_only_bind_val {A B} ps (m : M A) (k : A -> M B) (P : A -> Prop) :
  writes_only ps m ->
  (forall w a w1, m w = (Ok a, w1) -> P a) ->
  (forall a, P a -> writes_only ps (k a)) ->
  writes_only ps (bind m k).
Proof.
  intros Hm HP Hk w r w' H. unfold bind in H.
  destruct (m w) as [[a | e] w1] eqn:E.
  - eapply same_except_trans; [eapply Hm, E | eapply Hk, H]. eapply HP, E.
  - injection H as _ <-. eapply Hm, E.
Qed.

Lemma _validate_vsdx_path_Ok p w a w1 :
  _validate_vsdx_path p w = (Ok a, w1) ->
  a = p /\ w1 = w /\ dict_mem (path_str p) (host w) = true
  /\ lower (suffix p) = ".vsdx".
Proof.
  unfold _validate_vsdx_path.
  destruct (dict_mem _ _); [| discriminate]. simpl.
  destruct (String.eqb _ _) eqn:E; [| discriminate]. simpl.
  intros [= <- <-]. apply String.eqb_eq in E. auto.
Qed.

(** Whatever its outcome, [shrink_vsdx] leaves the host table as it was
    outside the paths it may write. *)
Lemma shrink_vsdx_frame rt input_path output_path backup :
  writes_only (written_paths input_path output_path backup)
              (shrink_vsdx rt input_path output_path backup).
Proof.
  unfold shrink_vsdx.
  apply (writes_only_bind_val _ _ _ (fun a => a = input_path));
    [apply writes_only_validate
    | intros w a w1 H; now apply _validate_vsdx_path_Ok in H |].
  intros path ->.
  apply writes_only_bind; [apply writes_only_stat_size | intros original_size].
  apply (writes_only_bind_val _ _ _
           (fun a => a = final_output_of input_path output_path)).
  - unfold written_paths. destruct output_path as [o |]; [apply writes_only_ret |].
    apply writes_only_bind; [| intros; apply writes_only_ret].
    destruct backup; [| apply writes_only_ret].
    apply writes_only_copy2. right. now left.
  - intros w a w1 H. destruct output_path as [o |].
    + now injection H as <- _.
    + unfold bind in H. destruct (_ w) as [[] ?]; [| discriminate].
      now injection H as <- _.
  - intros final ->. apply writes_only_bind.
    + apply writes_only_with_tempdir, writes_only_shrink_extracted. now left.
    + intros [early | n]; [apply writes_only_ret |].
      apply writes_only_bind; [apply writes_only_stat_size |].
      intros; apply writes_only_ret.
Qed.

(** X4. Whatever its outcome (a result or any exception), [shrink_vsdx]
    changes no file of the host besides the output path (the input path when
    no output is given) and, when it overwrites the input with [backup] set,
    the [.vsdx.bak] path next to the input: a path that is none of these,
    that is not one of them in another spelling and that does not lie inside
    one of them (a destination that is a directory receives the file inside
    it) holds after the call what it held before. *)
Theorem shrink_writes rt input_path output_path backup w r w' :
  shrink_vsdx rt input_path output_path backup w = (r, w') ->
  forall q,
    (forall p, In p (written_paths input_path output_path backup) ->
               q <> p /\ other_spelling rt p q = false
               /\ startswith q (p ++ "/") = false) ->
    dict_get (host w') q = dict_get (host w) q.
Proof.
  intros H q Hq. apply (shrink_vsdx_frame _ _ _ _ _ _ _ H).
  intros Hin. now destruct (Hq _ Hin).
Qed.

Lemma shrink_writes_witness :
  exists r w',
    shrink_vsdx plain_runtime demo_path None true shelf_world = (r, w')
    /\ dict_get (host w') "notes.txt" = Some (PlainFile 12).
Proof.
  eexists. eexists.
  assert (H : shrink_vsdx plain_runtime demo_path None true shelf_world
              = (?[r], ?[w'])) by (vm_compute; reflexivity).
  split; [exact H |].
  rewrite (shrink_writes _ _ _ _ _ _ _ H "notes.txt"); [reflexivity |].
  intros p [<- | [<- | []]]; (split; [discriminate | split; reflexivity]).
Defined.



Lemma analyze_vsdx_host rt vsdx_path w r w' :
  analyze_vsdx rt vsdx_path w = (r, w') -> host w' = host w.
Proof.
  rewrite analyze_vsdx_eq.
  destruct (negb (dict_mem _ _)); [now intros [= _ <-] |].
  destruct (negb (String.eqb _ _)); [now intros [= _ <-] |].
  destruct (dict_get (host w) (path_str vsdx_path)) as [[sz content | sz] |] eqn:E;
    intros [= _ <-]; unfold replay; simpl; rewrite ?E; reflexivity.
Qed.

(** ** What an analysis reports *)

(** X2. When the input path exists and its suffix, in lower case, is not [.vsdx],
    [analyze_vsdx] and [shrink_vsdx] raise [ValueError] with the message
    [Not a .vsdx file: <path>] before any effect: the file is not opened, no
    backup is made and the world is the one they started in. *)
Theorem wrong_suffix rt input_path output_path backup w f :
  dict_get (host w) (path_str input_path) = Some f ->
  lower (suffix input_path) <> ".vsdx" ->
  let e := ValueError ("Not a .vsdx file: " ++ path_str input_path) in
  analyze_vsdx rt input_path w = (Raise e, w)
  /\ shrink_vsdx rt input_path output_path backup w = (Raise e, w).
Proof.
  intros Hf Hs e.
  assert (Hm : dict_mem (path_str input_path) (host w) = true)
    by (unfold dict_mem; now rewrite Hf).
  assert (He : String.eqb (lower (suffix input_path)) ".vsdx" = false)
    by now apply String.eqb_neq.
  split.
  - rewrite analyze_vsdx_eq, Hm, He. reflexivity.
  - unfold shrink_vsdx, bind, _validate_vsdx_path. rewrite Hm, He. reflexivity.
Qed.

Lemma wrong_suffix_witness :
  analyze_vsdx plain_runtime notes_path shelf_world
  = (Raise (ValueError "Not a .vsdx file: notes.txt"), shelf_world)
  /\ shrink_vsdx plain_runtime notes_path None true shelf_world
     = (Raise (ValueError "Not a .vsdx file: notes.txt"), shelf_world).
Proof.
  apply (wrong_suffix plain_runtime notes_path None true shelf_world
           (PlainFile 12) eq_refl).
  vm_compute. discriminate.
Defined.

Lemma set_update_app l : forall s,
  NoDup (s ++ l) -> set_update s l = (s ++ l)%list.
Proof.
  induction l as [| x l IH]; intros s H.
  - now rewrite app_nil_r.
  - assert (Hx : set_mem x s = false).
    { apply set_mem_false. intros Hin.
      apply NoDup_remove_2 in H. apply H, in_or_app. now left. }
    change (set_update s (x :: l)) with (set_update (set_add s x) l).
    unfold set_add. rewrite Hx.
    rewrite IH; rewrite <- app_assoc; [reflexivity | exact H].
Qed.

Lemma set_of_id l : NoDup l -> set_of l = l.
Proof. intros H. unfold set_of. now rewrite set_update_app. Qed.

(** The report of an analysis, from the values the pruner computes. *)
Lemma analyze_extracted_prunes rt content pr :
  exists_ content (masters_xml _make_vsdx_paths) = true ->
  prunes rt content pr ->
  exists report,
    analyze_extracted rt content = Ok report
    /\ unused_masters report = List.length (names_to_remove pr).
Proof.
  intros He (Hv & Hm & Hr & Hu & _).
  unfold analyze_extracted. rewrite He, Hv. cbn [negb bindR].
  rewrite Hm. cbn [bindR]. rewrite Hr. cbn [bindR]. rewrite Hu. cbn [bindR].
  eexists. split; reflexivity.
Qed.

(** X10. When [shrink_vsdx] succeeds, [analyze_vsdx] on the same input and the
    same initial file system succeeds too, and the number of unused masters it
    reports equals the [masters_removed] of the shrink result. *)
Theorem analysis_predicts_removal rt rt' input_path output_path backup w result w' :
  shrink_vsdx rt input_path output_path backup w = (Ok result, w') ->
  exists report w1,
    analyze_vsdx rt' input_path w = (Ok report, w1)
    /\ unused_masters report = masters_removed result.
Proof.
  intros H. apply shrink_vsdx_Ok in H.
  destruct H as (sz & content & Hh & Hs & H).
  rewrite analyze_vsdx_eq, (dict_get_mem _ _ _ Hh), Hs, Hh.
  change (String.eqb ".vsdx" ".vsdx") with true. cbn [negb].
  destruct (exists_ content (masters_xml _make_vsdx_paths)) eqn:He.
  - destruct H as (pr & Hpr & _ & Hn & _).
    destruct (analyze_extracted_prunes rt content pr He Hpr) as (report & Ha & Hu).
    rewrite (analyze_extracted_runtime rt rt' _ _ Ha).
    exists report. eexists. split; [reflexivity |].
    destruct (prunes_documents _ _ _ Hpr)
      as (? & ? & ? & ? & _ & _ & _ & _ & _ & _ & _ & _ & _ & _ & _ & _ & Hrem).
    congruence.
  - destruct H as [-> _]. unfold analyze_extracted. rewrite He. cbn [negb].
    eexists. eexists. split; reflexivity.
Qed.

Lemma analysis_predicts_removal_witness :
  exists result w' report w1,
    shrink_vsdx plain_runtime demo_path None true demo_world = (Ok result, w')
    /\ analyze_vsdx reversed_runtime demo_path demo_world = (Ok report, w1)
    /\ unused_masters report = masters_removed result
    /\ masters_removed result = 1.
Proof.
  eexists. eexists.
  assert (H : shrink_vsdx plain_runtime demo_path None true demo_world
              = (Ok ?[result], ?[w'])) by (vm_compute; reflexivity).
  destruct (analysis_predicts_removal plain_runtime reversed_runtime _ _ _ _ _ _ H)
    as (report & w1 & Ha & Hn).
  exists report, w1. split; [exact H |]. split; [exact Ha |].
  split; [exact Hn | reflexivity].
Defined.

Lemma analyze_vsdx_Ok rt p w report w' :
  analyze_vsdx rt p w = (Ok report, w') ->
  exists sz content,
    dict_get (host w) (path_str p) = Some (ZipFile sz content)
    /\ analyze_extracted rt content = Ok report.
Proof.
  rewrite analyze_vsdx_eq.
  destruct (negb (dict_mem _ _)); [discriminate |].
  destruct (negb (String.eqb _ _)); [discriminate |].
  destruct (dict_get (host w) (path_str p)) as [[sz content | sz] |];
    try discriminate.
  intros [= H _]. eauto.
Qed.

(** What [analyze_extracted] computes on a tree with a catalog. *)
Lemma analyze_extracted_Ok rt t report :
  exists_ t (masters_xml _make_vsdx_paths) = true ->
  analyze_extracted rt t = Ok report ->
  exists root mi rroot ri used,
    _validate_vsdx_structure rt t _make_vsdx_paths = Ok tt
    /\ _parse_masters_xml t (masters_xml _make_vsdx_paths) = Ok (root, mi)
    /\ _parse_rels_xml t (rels_path _make_vsdx_paths) = Ok (rroot, ri)
    /\ _find_used_masters rt t (pages_dir _make_vsdx_paths) mi = Ok used
    /\ report =
       {| total_masters := List.length (set_of (keys mi));
          used_masters := List.length (set_inter used (set_of (keys mi)));
          unused_masters := List.length (set_diff (set_of (keys mi)) used);
          used_names := sorted (set_iter rt (set_inter used (set_of (keys mi))));
          unused_names := sorted (set_iter rt (set_diff (set_of (keys mi)) used));
          potential_savings_mb :=
            _bytes_to_mb (_calculate_unused_size rt t
                            (set_diff (set_of (keys mi)) used) mi ri
                            (masters_dir _make_vsdx_paths)) |}.
Proof.
  intros He H. unfold analyze_extracted in H. rewrite He in H. cbn [negb] in H.
  apply bindR_Ok in H. destruct H as ([] & Hv & H).
  apply bindR_Ok in H. destruct H as ([root mi] & Hm & H).
  apply bindR_Ok in H. destruct H as ([rroot ri] & Hr & H).
  apply bindR_Ok in H. destruct H as (used & Hu & H).
  injection H as <-. exists root, mi, rroot, ri, used. repeat split; assumption.
Qed.

(** X11. In the result of a successful [analyze_vsdx], [used_names] and
    [unused_names] are sorted, have no repeated name and no name in common,
    and their lengths are [used_masters] and [unused_masters]. *)
Theorem analysis_lists rt vsdx_path w report w' :
  analyze_vsdx rt vsdx_path w = (Ok report, w') ->
  StronglySorted (fun a b => String.leb a b = true) (used_names report)
  /\ StronglySorted (fun a b => String.leb a b = true) (unused_names report)
  /\ NoDup (used_names report ++ unused_names report)
  /\ List.length (used_names report) = used_masters report
  /\ List.length (unused_names report) = unused_masters report.
Proof.
  intros H. apply analyze_vsdx_Ok in H. destruct H as (sz & content & _ & H).
  destruct (exists_ content (masters_xml _make_vsdx_paths)) eqn:He.
  - destruct (analyze_extracted_Ok _ _ _ He H)
      as (root & mi & rroot & ri & used & _ & Hm & _ & Hu & ->).
    cbn [used_names unused_names used_masters unused_masters].
    split; [apply sorted_Sorted |]. split; [apply sorted_Sorted |].
    assert (Hall : NoDup (set_of (keys mi))) by apply set_of_NoDup.
    assert (Hused : NoDup used) by (eapply _find_used_masters_Ok, Hu).
    split; [| split].
    + eapply Permutation_NoDup.
      * apply Permutation_app; apply Permutation_sym;
          (eapply Permutation_trans; [apply sorted_perm | apply set_iter_perm]).
      * apply NoDup_app; [now apply NoDup_filter | now apply NoDup_filter |].
        intros x H1 H2. apply set_inter_In in H1. apply set_diff_In in H2. tauto.
    + rewrite (Permutation_length (sorted_perm _)).
      apply Permutation_length, set_iter_perm.
    + rewrite (Permutation_length (sorted_perm _)).
      apply Permutation_length, set_iter_perm.
  - unfold analyze_extracted in H. rewrite He in H. injection H as <-.
    cbn. repeat split; constructor.
Qed.

Lemma analysis_lists_witness :
  exists report w',
    analyze_vsdx plain_runtime demo_path demo_world = (Ok report, w')
    /\ used_names report = ["A"; "B"] /\ unused_names report = ["C"]
    /\ NoDup (used_names report ++ unused_names report)
    /\ List.length (unused_names report) = unused_masters report.
Proof.
  eexists. eexists.
  assert (H : analyze_vsdx plain_runtime demo_path demo_world
              = (Ok ?[report], ?[w'])) by (vm_compute; reflexivity).
  split; [exact H |]. split; [reflexivity |]. split; [reflexivity |].
  destruct (analysis_lists _ _ _ _ _ H) as (_ & _ & Hnd & _ & Hl).
  split; [exact Hnd | exact Hl].
Defined.

(** X12. For an extracted tree with a catalog, a name is in [used_names] exactly
    when it is a name of the catalog that [_find_used_masters] returns, and in
    [unused_names] exactly when it is a name of the catalog that
    [_find_used_masters] does not return. *)
Theorem analysis_names rt t report :
  exists_ t (masters_xml _make_vsdx_paths) = true ->
  analyze_extracted rt t = Ok report ->
  exists root mi used,
    _parse_masters_xml t (masters_xml _make_vsdx_paths) = Ok (root, mi)
    /\ _find_used_masters rt t (pages_dir _make_vsdx_paths) mi = Ok used
    /\ (forall name, In name (used_names report) <->
                     In name (keys mi) /\ In name used)
    /\ (forall name, In name (unused_names report) <->
                     In name (keys mi) /\ ~ In name used).
Proof.
  intros He H.
  destruct (analyze_extracted_Ok _ _ _ He H)
    as (root & mi & rroot & ri & used & _ & Hm & _ & Hu & ->).
  exists root, mi, used. split; [exact Hm |]. split; [exact Hu |].
  cbn [used_names unused_names]. split; intros name.
  - rewrite (Permutation_in' (eq_refl name) (sorted_perm _)).
    rewrite set_iter_In, set_inter_In, set_of_In. tauto.
  - rewrite (Permutation_in' (eq_refl name) (sorted_perm _)).
    rewrite set_iter_In, set_diff_In, set_of_In. tauto.
Qed.

Lemma analysis_names_witness :
  exists report root mi used,
    analyze_extracted plain_runtime demo_tree = Ok report
    /\ _parse_masters_xml demo_tree (masters_xml _make_vsdx_paths) = Ok (root, mi)
    /\ _find_used_masters plain_runtime demo_tree (pages_dir _make_vsdx_paths) mi
       = Ok used
    /\ (In "C" (unused_names report) <-> In "C" (keys mi) /\ ~ In "C" used).
Proof.
  eexists.
  assert (H : analyze_extracted plain_runtime demo_tree = Ok ?[report])
    by (vm_compute; reflexivity).
  destruct (analysis_names plain_runtime demo_tree _ eq_refl H)
    as (root & mi & used & Hm & Hu & _ & Hun).
  exists root, mi, used. split; [exact H |]. split; [exact Hm |].
  split; [exact Hu | apply Hun].
Defined.

Lemma NoDup_map_inj_in {A B} (g : A -> B) (l : list A) :
  NoDup l ->
  (forall x y, In x l -> In y l -> g x = g y -> x = y) ->
  NoDup (map g l).
Proof.
  induction 1 as [| x l Hx Hl IH]; intros Hinj; simpl; constructor.
  - intros Hin. apply in_map_iff in Hin. destruct Hin as (y & Hy & Hin).
    assert (y = x) by (apply Hinj; simpl; auto). subst y. contradiction.
  - apply IH. intros a b Ha Hb. apply Hinj; now right.
Qed.

Lemma dict_get_In_NoDup {V} (d : dict V) k v :
  NoDup (keys d) -> In (k, v) d -> dict_get d k = Some v.
Proof.
  induction d as [| [k' v'] d IH]; intros Hn Hin; [contradiction |].
  inversion Hn as [| ? ? Hk Hd]; subst. simpl.
  destruct Hin as [[= -> ->] | Hin].
  - now rewrite String.eqb_refl.
  - destruct (String.eqb k' k) eqn:E; [| now apply IH].
    apply String.eqb_eq in E. subst k'. exfalso. apply Hk.
    apply in_map_iff. now exists (k, v).
Qed.

(** ** The tables of masters and of relationships *)

Lemma record_master_entry d m : record_master d m = entry_of master_key d m.
Proof.
  unfold record_master, entry_of, master_key.
  destruct (nonempty (get m "NameU" "")); reflexivity.
Qed.

Lemma record_rel_entry d r : record_rel d r = entry_of rel_key d r.
Proof.
  unfold record_rel, entry_of, rel_key.
  destruct (nonempty (get r "Id" "") && nonempty (get r "Target" "")); reflexivity.
Qed.

Lemma fold_left_ext {A B} (f g : A -> B -> A) :
  (forall a b, f a b = g a b) ->
  forall l a, fold_left f l a = fold_left g l a.
Proof.
  intros H l. induction l as [| b l IH]; intros a; simpl; [reflexivity |].
  now rewrite H, IH.
Qed.

Section Tables.

Context {E V : Type} (key : E -> option (string * V)).

Lemma entry_fold_keep l : forall d k v,
  dict_get d k = Some v ->
  (forall e v', In e l -> key e <> Some (k, v')) ->
  dict_get (fold_left (entry_of key) l d) k = Some v.
Proof.
  induction l as [| e l IH]; intros d k v Hd Hl; simpl; [exact Hd |].
  apply IH; [| intros e' v' Hin; apply Hl; now right].
  unfold entry_of. destruct (key e) as [[k' v'] |] eqn:Ek; [| exact Hd].
  rewrite dict_get_set. destruct (String.eqb k' k) eqn:Eq; [| exact Hd].
  apply String.eqb_eq in Eq. subst k'. exfalso.
  apply (Hl e v'); [now left | exact Ek].
Qed.

Lemma entry_fold_last l1 e l2 d k v :
  key e = Some (k, v) ->
  (forall e' v', In e' l2 -> key e' <> Some (k, v')) ->
  dict_get (fold_left (entry_of key) (l1 ++ e :: l2) d) k = Some v.
Proof.
  intros He Hl. rewrite fold_left_app. simpl. apply entry_fold_keep; [| exact Hl].
  unfold entry_of at 1. rewrite He. rewrite dict_get_set, String.eqb_refl.
  reflexivity.
Qed.

Lemma entry_fold_sound l : forall d k v,
  dict_get (fold_left (entry_of key) l d) k = Some v ->
  dict_get d k = Some v \/ exists e, In e l /\ key e = Some (k, v).
Proof.
  induction l as [| e l IH]; intros d k v H; simpl in H; [now left |].
  apply IH in H. destruct H as [H | (e' & Hin & He')].
  - unfold entry_of in H. destruct (key e) as [[k' v'] |] eqn:Ek; [| now left].
    rewrite dict_get_set in H. destruct (String.eqb k' k) eqn:Eq; [| now left].
    apply String.eqb_eq in Eq. subst k'. injection H as ->.
    right. exists e. split; [now left | exact Ek].
  - right. exists e'. split; [now right | exact He'].
Qed.

Lemma entry_fold_keys l : forall d k,
  In k (keys (fold_left (entry_of key) l d)) <->
  In k (keys d) \/ exists e v, In e l /\ key e = Some (k, v).
Proof.
  induction l as [| e l IH]; intros d k; simpl.
  - split; [now left | intros [H | (e & v & [] & _)]; exact H].
  - rewrite IH. unfold entry_of at 1.
    destruct (key e) as [[k' v'] |] eqn:Ek.
    + rewrite dict_set_keys. split.
      * intros [[H | ->] | (e' & v & Hin & He')]; eauto 6.
      * intros [H | (e' & v & [<- | Hin] & He')]; eauto 6.
        rewrite Ek in He'. injection He' as -> ->. auto.
    + split.
      * intros [H | (e' & v & Hin & He')]; eauto 6.
      * intros [H | (e' & v & [<- | Hin] & He')]; eauto 6. congruence.
Qed.

End Tables.

Lemma nonempty_neq s : nonempty s = true <-> s <> "".
Proof. destruct s; simpl; split; congruence. Qed.

Lemma _parse_masters_xml_fold t path root mi :
  _parse_masters_xml t path = Ok (root, mi) ->
  mi = fold_left (entry_of master_key) (findall root (qname VISIO_NS "Master")) [].
Proof.
  unfold _parse_masters_xml. intros H.
  apply bindR_Ok in H. destruct H as (r & _ & H). injection H as <- <-.
  apply fold_left_ext, record_master_entry.
Qed.

Lemma _parse_rels_xml_fold t path root ri :
  _parse_rels_xml t path = Ok (root, ri) ->
  ri = fold_left (entry_of rel_key)
                 (findall root (qname PKG_REL_NS "Relationship")) [].
Proof.
  unfold _parse_rels_xml. intros H.
  apply bindR_Ok in H. destruct H as (r & _ & H). injection H as <- <-.
  apply fold_left_ext, record_rel_entry.
Qed.

(** X14. The keys of the table [_parse_masters_xml] returns are exactly the
    non-empty [NameU] values of the [Master] elements of the document. *)
Theorem catalog_names t path root mi name :
  _parse_masters_xml t path = Ok (root, mi) ->
  In name (keys mi) <->
  name <> "" /\ exists master, In master (findall root (qname VISIO_NS "Master"))
                               /\ get master "NameU" "" = name.
Proof.
  intros H. rewrite (_parse_masters_xml_fold _ _ _ _ H), entry_fold_keys.
  unfold master_key. split.
  - intros [[] | (m & v & Hin & Hk)].
    destruct (nonempty (get m "NameU" "")) eqn:En; [| discriminate].
    injection Hk as <- _. split; [now apply nonempty_neq | eauto].
  - intros (Hn & m & Hin & <-). right. exists m. eexists. split; [exact Hin |].
    apply nonempty_neq in Hn. rewrite Hn. reflexivity.
Qed.

Lemma catalog_names_witness :
  exists root mi,
    _parse_masters_xml legacy_tree (masters_xml _make_vsdx_paths) = Ok (root, mi)
    /\ keys mi = ["A"]
    /\ (In "A" (keys mi) <->
        "A" <> "" /\ exists master,
                       In master (findall root (qname VISIO_NS "Master"))
                       /\ get master "NameU" "" = "A").
Proof.
  eexists. eexists.
  assert (H : _parse_masters_xml legacy_tree (masters_xml _make_vsdx_paths)
              = Ok (?[root], ?[mi])) by (vm_compute; reflexivity).
  split; [exact H |]. split; [reflexivity |].
  exact (catalog_names _ _ _ _ "A" H).
Defined.

(** X13. [total_masters] counts names, not entries: it is the number of
    distinct non-empty [NameU] values of the [Master] elements of the
    catalog, hence at most the number of these elements (entries without a
    name, or with a name met before, add nothing). *)
Theorem total_counts_names rt t report root :
  analyze_extracted rt t = Ok report ->
  _parse_xml_file t (masters_xml _make_vsdx_paths) = Ok root ->
  exists names,
    NoDup names
    /\ (forall name,
          In name names <->
          name <> ""
          /\ exists master, In master (findall root (qname VISIO_NS "Master"))
                            /\ get master "NameU" "" = name)
    /\ total_masters report = List.length names
    /\ total_masters report <= List.length (findall root (qname VISIO_NS "Master")).
Proof.
  intros H Hp.
  pose proof (_parse_xml_file_exists _ _ _ Hp) as He.
  destruct (analyze_extracted_Ok _ _ _ He H)
    as (root' & mi & rroot & ri & used & _ & Hm & _ & _ & ->).
  cbn [total_masters].
  destruct (_parse_masters_xml_Ok _ _ _ _ Hm) as ((f & doc & Hf & Hx & Hroot) & Hnd & Hd).
  destruct (_parse_xml_file_Ok _ _ _ Hp) as (f' & doc' & Hf' & Hx' & ->).
  assert (doc' = doc) by congruence. subst doc'. subst root'.
  exists (keys mi). split; [exact Hnd |]. split; [| split].
  - intros name.
    rewrite (_parse_masters_xml_fold _ _ _ _ Hm), entry_fold_keys.
    unfold master_key. split.
    + intros [[] | (m & v & Hin & Hk)].
      destruct (nonempty (get m "NameU" "")) eqn:En; [| discriminate].
      injection Hk as <- _. split; [now apply nonempty_neq | eauto].
    + intros (Hn & m & Hin & <-). right. exists m. eexists.
      split; [exact Hin |]. apply nonempty_neq in Hn. rewrite Hn. reflexivity.
  - now rewrite (set_of_id _ Hnd).
  - rewrite (set_of_id _ Hnd). unfold keys. rewrite length_map.
    rewrite <- (length_map (fun item : string * MasterInfo =>
                              oid (info_element (snd item))) mi).
    rewrite <- (length_map oid (findall (fromxml doc) (qname VISIO_NS "Master"))).
    apply NoDup_incl_length.
    + apply NoDup_map_inj_in.
      * apply (NoDup_map_inv fst). exact Hnd.
      * intros [n1 i1] [n2 i2] H1 H2 Ho. simpl in Ho.
        pose proof (dict_get_In_NoDup _ _ _ Hnd H1) as G1.
        pose proof (dict_get_In_NoDup _ _ _ Hnd H2) as G2.
        assert (n1 = n2) by (eapply masters_info_elements; eauto). subst n2.
        congruence.
    + intros i Hi. apply in_map_iff in Hi. destruct Hi as ([name info] & <- & Hin).
      simpl. destruct (Hd name info (dict_get_In_NoDup _ _ _ Hnd Hin))
        as (m & Hmin & Hdesc & _).
      rewrite Hdesc. now apply in_map.
Qed.

Lemma total_counts_names_witness :
  exists report root,
    analyze_extracted plain_runtime legacy_tree = Ok report
    /\ _parse_xml_file legacy_tree (masters_xml _make_vsdx_paths) = Ok root
    /\ List.length (findall root (qname VISIO_NS "Master")) = 2
    /\ total_masters report = 1.
Proof.
  eexists. eexists.
  assert (H : analyze_extracted plain_runtime legacy_tree = Ok ?[report])
    by (vm_compute; reflexivity).
  assert (Hp : _parse_xml_file legacy_tree (masters_xml _make_vsdx_paths)
               = Ok ?[root]) by (vm_compute; reflexivity).
  split; [exact H |]. split; [exact Hp |]. split; [reflexivity |].
  destruct (total_counts_names _ _ _ _ H Hp) as (names & _ & _ & Hlen & _).
  rewrite Hlen. vm_compute in Hlen.
  destruct names as [| n0 [| n1 rest]]; try discriminate Hlen. reflexivity.
Defined.

(** X15. When several [Master] elements have the same [NameU], the table of
    [_parse_masters_xml] holds the last of them: its [ID], its relationship
    id and the element itself. *)
Theorem catalog_last_entry_wins t path root mi before master after :
  _parse_masters_xml t path = Ok (root, mi) ->
  findall root (qname VISIO_NS "Master") = (before ++ master :: after)%list ->
  get master "NameU" "" <> "" ->
  (forall other, In other after ->
                 get other "NameU" "" <> get master "NameU" "") ->
  dict_get mi (get master "NameU" "")
  = Some {| info_id := get master "ID" "";
            info_rel_id := _get_rel_id (find master (qname VISIO_NS "Rel"));
            info_element := master |}.
Proof.
  intros H Hl Hn Hafter. rewrite (_parse_masters_xml_fold _ _ _ _ H), Hl.
  apply entry_fold_last.
  - unfold master_key. apply nonempty_neq in Hn. now rewrite Hn.
  - intros other v' Hin Hk. unfold master_key in Hk.
    destruct (nonempty (get other "NameU" "")); [| discriminate].
    injection Hk as Hk _. exact (Hafter other Hin Hk).
Qed.

Lemma catalog_last_entry_wins_witness :
  exists root mi info,
    _parse_masters_xml twins_tree (masters_xml _make_vsdx_paths) = Ok (root, mi)
    /\ dict_get mi "A" = Some info
    /\ info_id info = "2" /\ info_rel_id info = "rId2".
Proof.
  eexists. eexists. eexists.
  assert (H : _parse_masters_xml twins_tree (masters_xml _make_vsdx_paths)
              = Ok (?[root], ?[mi])) by (vm_compute; reflexivity).
  split; [exact H |].
  pose proof (catalog_last_entry_wins _ _ _ _
                [Elem 1 (qname VISIO_NS "Master") [("ID", "1"); ("NameU", "A")]
                   [Elem 2 (qname VISIO_NS "Rel") [(qname REL_NS "id", "rId1")] []]]
                (Elem 3 (qname VISIO_NS "Master") [("ID", "2"); ("NameU", "A")]
                   [Elem 4 (qname VISIO_NS "Rel") [(qname REL_NS "id", "rId2")] []])
                [] H eq_refl) as Hw.
  split; [apply Hw |].
  - vm_compute. discriminate.
  - intros other [].
  - split; reflexivity.
Defined.

(** X16. Every entry of the table [_parse_rels_xml] returns has a non-empty id and
    a non-empty target, and comes from a [Relationship] element of the
    document with that [Id] and that [Target]. *)
Theorem rels_table_sound t path root ri rel_id target :
  _parse_rels_xml t path = Ok (root, ri) ->
  dict_get ri rel_id = Some target ->
  rel_id <> "" /\ target <> ""
  /\ exists rel, In rel (findall root (qname PKG_REL_NS "Relationship"))
                 /\ get rel "Id" "" = rel_id /\ get rel "Target" "" = target.
Proof.
  intros H Hg. rewrite (_parse_rels_xml_fold _ _ _ _ H) in Hg.
  apply entry_fold_sound in Hg. destruct Hg as [Hg | (rel & Hin & Hk)];
    [discriminate |].
  unfold rel_key in Hk.
  destruct (nonempty (get rel "Id" "")) eqn:E1; [| discriminate].
  destruct (nonempty (get rel "Target" "")) eqn:E2; [| discriminate].
  injection Hk as <- <-. apply nonempty_neq in E1, E2. eauto 6.
Qed.

Lemma rels_table_sound_witness :
  exists root ri,
    _parse_rels_xml demo_tree (rels_path _make_vsdx_paths) = Ok (root, ri)
    /\ dict_get ri "rId2" = Some "master2.xml"
    /\ exists rel, In rel (findall root (qname PKG_REL_NS "Relationship"))
                   /\ get rel "Id" "" = "rId2"
                   /\ get rel "Target" "" = "master2.xml".
Proof.
  eexists. eexists.
  assert (H : _parse_rels_xml demo_tree (rels_path _make_vsdx_paths)
              = Ok (?[root], ?[ri])) by (vm_compute; reflexivity).
  split; [exact H |]. split; [reflexivity |].
  exact (proj2 (proj2 (rels_table_sound _ _ _ _ "rId2" "master2.xml" H eq_refl))).
Defined.

(** X17. For a [Relationship] with non-empty [Id] and [Target], the table of
    [_parse_rels_xml] maps the [Id] to that [Target] when every later
    [Relationship] with the same [Id] has an empty or missing [Target]: such
    elements are skipped, they do not erase the entry. *)
Theorem rels_last_wins t path root ri before rel after :
  _parse_rels_xml t path = Ok (root, ri) ->
  findall root (qname PKG_REL_NS "Relationship") = (before ++ rel :: after)%list ->
  get rel "Id" "" <> "" -> get rel "Target" "" <> "" ->
  (forall other, In other after -> get other "Id" "" = get rel "Id" "" ->
                 get other "Target" "" = "") ->
  dict_get ri (get rel "Id" "") = Some (get rel "Target" "").
Proof.
  intros H Hl Hi Ht Hafter. rewrite (_parse_rels_xml_fold _ _ _ _ H), Hl.
  apply entry_fold_last.
  - unfold rel_key. apply nonempty_neq in Hi, Ht. now rewrite Hi, Ht.
  - intros other v' Hin Hk. unfold rel_key in Hk.
    destruct (nonempty (get other "Id" "")) eqn:E1; [| discriminate].
    destruct (nonempty (get other "Target" "")) eqn:E2; [| discriminate].
    injection Hk as Hk _. rewrite (Hafter other Hin Hk) in E2. discriminate.
Qed.

Lemma rels_last_wins_witness :
  exists root ri,
    _parse_rels_xml repeated_ids_tree (rels_path _make_vsdx_paths) = Ok (root, ri)
    /\ dict_get ri "rId1" = Some "master9.xml".
Proof.
  eexists. eexists.
  assert (H : _parse_rels_xml repeated_ids_tree (rels_path _make_vsdx_paths)
              = Ok (?[root], ?[ri])) by (vm_compute; reflexivity).
  split; [exact H |].
  apply (rels_last_wins _ _ _ _
           [Elem 1 (qname PKG_REL_NS "Relationship")
              [("Id", "rId1"); ("Target", "master1.xml")] []]
           (Elem 2 (qname PKG_REL_NS "Relationship")
              [("Id", "rId1"); ("Target", "master9.xml")] [])
           [Elem 3 (qname PKG_REL_NS "Relationship") [("Id", "rId1")] [];
            Elem 4 (qname PKG_REL_NS "Relationship")
              [("Id", "rId1"); ("Target", "")] [];
            Elem 5 (qname PKG_REL_NS "Relationship")
              [("Id", "rId2"); ("Target", "master2.xml")] []]
           H eq_refl).
  - vm_compute. discriminate.
  - vm_compute. discriminate.
  - intros other [<- | [<- | [<- | []]]] Hid; try reflexivity.
    vm_compute in Hid. discriminate Hid.
Defined.

(** ** What the patterns extract *)

Lemma contains_char_app c a b :
  contains_char c (a ++ b) = contains_char c a || contains_char c b.
Proof.
  induction a as [| x a IH]; simpl; [reflexivity |].
  now rewrite IH, orb_assoc.
Qed.

Lemma rev_string_app a b : rev_string (a ++ b) = rev_string b ++ rev_string a.
Proof.
  induction a as [| x a IH]; simpl.
  - induction (rev_string b) as [| y r IHr]; simpl; [reflexivity | now rewrite <- IHr].
  - rewrite IH. now rewrite append_assoc.
Qed.

Lemma rev_string_involutive s : rev_string (rev_string s) = s.
Proof.
  induction s as [| x s IH]; simpl; [reflexivity |].
  rewrite rev_string_app, IH. reflexivity.
Qed.

Lemma contains_char_rev c s : contains_char c (rev_string s) = contains_char c s.
Proof.
  induction s as [| x s IH]; simpl; [reflexivity |].
  rewrite contains_char_app, IH. simpl. rewrite orb_false_r. apply orb_comm.
Qed.

Lemma lstrip_absent c s : contains_char c s = false -> lstrip c s = s.
Proof.
  destruct s as [| x s]; simpl; [reflexivity |].
  intros H. apply orb_false_iff in H. destruct H as [H _]. now rewrite H.
Qed.

Lemma strip_absent c s : contains_char c s = false -> strip c s = s.
Proof.
  intros H. unfold strip. rewrite (lstrip_absent _ _ H).
  rewrite lstrip_absent by now rewrite contains_char_rev.
  apply rev_string_involutive.
Qed.

Lemma span_app p a b :
  all_chars p a = true ->
  match b with String c _ => p c = false | EmptyString => True end ->
  span p (a ++ b) = (a, b).
Proof.
  intros Ha Hb. induction a as [| x a IH]; simpl in *.
  - destruct b as [| c b]; [reflexivity |]. simpl. now rewrite Hb.
  - apply andb_true_iff in Ha. destruct Ha as [Hx Ha]. rewrite Hx, (IH Ha).
    reflexivity.
Qed.

Lemma span_spec p s a b :
  span p s = (a, b) ->
  s = a ++ b /\ all_chars p a = true
  /\ match b with String c _ => p c = false | EmptyString => True end.
Proof.
  revert a b. induction s as [| x s IH]; intros a b H; simpl in H.
  - injection H as <- <-. auto.
  - destruct (p x) eqn:Ex.
    + destruct (span p s) as [a' b'] eqn:Es. injection H as <- <-.
      destruct (IH _ _ eq_refl) as (-> & Ha & Hb). simpl. rewrite Ex. auto.
    + injection H as <- <-. simpl. auto.
Qed.

Lemma all_chars_absent c s :
  all_chars (fun x => negb (Ascii.eqb x c)) s = true <-> contains_char c s = false.
Proof.
  induction s as [| x s IH]; simpl; [tauto |].
  rewrite andb_true_iff, orb_false_iff, IH, negb_true_iff. tauto.
Qed.

(** X18. [_get_namespace] returns the namespace of an element whose tag is
    [{ns}local], for every namespace without a brace. *)
Theorem namespace_of_qname i ns local a cs :
  contains_char "{"%char ns = false -> contains_char "}"%char ns = false ->
  _get_namespace (Elem i (qname ns local) a cs) = ns.
Proof.
  intros Ho Hc. unfold _get_namespace, qname. cbn [tag].
  assert (Hin : contains_char "}"%char ("{" ++ ns ++ "}" ++ local) = true).
  { rewrite !contains_char_app. simpl. now rewrite !orb_true_r. }
  rewrite Hin.
  change ("{" ++ ns ++ "}" ++ local) with (String "{"%char (ns ++ "}" ++ local)).
  cbn [span]. cbn [Ascii.eqb Bool.eqb negb andb].
  rewrite (span_app _ ns ("}" ++ local)).
  - cbn [fst]. unfold strip. cbn [lstrip].
    change (Ascii.eqb "{" "{") with true. cbv iota.
    fold (strip "{"%char ns). now apply strip_absent.
  - now apply all_chars_absent.
  - reflexivity.
Qed.

Lemma namespace_of_qname_witness :
  _get_namespace (Elem 0 (qname VISIO_NS "Masters") [] []) = VISIO_NS.
Proof. apply namespace_of_qname; reflexivity. Defined.

(** *** The scanner *)
Lemma scan_Forall m (P : string -> Prop) :
  (forall prev s g len, m prev s = Some (g, len) -> P g) ->
  forall s skip prev, Forall P (scan m skip prev s).
Proof.
  intros Hm. induction s as [| c r IH]; intros skip prev; simpl; [constructor |].
  destruct skip as [| k]; [| apply IH].
  destruct (m prev (String c r)) as [[g len] |] eqn:E; [| apply IH].
  constructor; [eapply Hm, E | apply IH].
Qed.

Lemma strip_prefix_app p s : strip_prefix p (p ++ s) = Some s.
Proof.
  induction p as [| c p IH]; simpl; [reflexivity |].
  now rewrite Ascii.eqb_refl.
Qed.

Lemma length_append (a b : string) :
  String.length (a ++ b) = String.length a + String.length b.
Proof. induction a as [| c a IH]; simpl; [reflexivity | now rewrite IH]. Qed.

Lemma match_use_Some s name len :
  match_use s = Some (name, len) ->
  name <> "" /\ contains_char dquote name = false
  /\ exists rest, s = "USE(" ++ quoted name ++ ")" ++ rest
                  /\ len = String.length ("USE(" ++ quoted name ++ ")").
Proof.
  unfold match_use. destruct (strip_prefix _ s) as [r |] eqn:Ep; [| discriminate].
  destruct (span _ r) as [a b] eqn:Es.
  destruct (nonempty a) eqn:En; [| discriminate]. cbn [andb].
  destruct (startswith b _) eqn:Eb; [| discriminate].
  intros [= <- <-].
  destruct (span_spec _ _ _ _ Es) as (-> & Ha & _).
  split; [now apply nonempty_neq |]. split; [now apply all_chars_absent |].
  unfold startswith in Eb.
  destruct (strip_prefix _ b) as [rest |] eqn:Er; [| discriminate].
  apply strip_prefix_Some in Er. apply strip_prefix_Some in Ep.
  exists rest. subst b s. unfold quoted. split.
  - rewrite !append_assoc. reflexivity.
  - rewrite !length_append. simpl. lia.
Qed.

(** X19. Every name the [USE("...")] pattern extracts from a text is non-empty
    and has no double quote. *)
Theorem use_names_wellformed content :
  Forall (fun name => name <> "" /\ contains_char dquote name = false)
         (use_pattern_findall content).
Proof.
  apply scan_Forall. intros _ s g len H.
  apply match_use_Some in H. tauto.
Qed.

Lemma match_master_attr_Some prev s digits len :
  match_master_attr prev s = Some (digits, len) ->
  digits <> "" /\ all_chars is_digit digits = true.
Proof.
  unfold match_master_attr. destruct (word_boundary prev s); [| discriminate].
  destruct (strip_prefix "Master=" s) as [[| q r] |]; try discriminate.
  destruct (is_quote q); [| discriminate].
  destruct (span is_digit r) as [a b] eqn:Es.
  destruct b as [| q' b]; [discriminate |].
  destruct (nonempty a) eqn:En; [| discriminate]. cbn [andb].
  destruct (is_quote q'); [| discriminate].
  intros [= <- _]. split; [now apply nonempty_neq |].
  now destruct (span_spec _ _ _ _ Es) as (_ & Ha & _).
Qed.

(** X20. Every identifier the [Master=] pattern extracts from a text is a
    non-empty string of the digits 0 to 9. *)
Theorem master_ids_wellformed content :
  Forall (fun master_id => master_id <> ""
                           /\ all_chars is_digit master_id = true)
         (master_attr_pattern_findall content).
Proof.
  apply scan_Forall. intros prev s g len H.
  now apply match_master_attr_Some in H.
Qed.

Lemma scan_skip m a : forall k prev b,
  String.length a = k ->
  scan m k prev (a ++ b) = scan m 0 (prev_after prev a) b.
Proof.
  induction a as [| c a IH]; intros k prev b Hk; simpl in *.
  - now subst k.
  - subst k. apply IH. reflexivity.
Qed.

Lemma scan_no_match m a : forall prev b,
  (forall prev' a1 a2, a = a1 ++ a2 -> a2 <> "" -> m prev' (a2 ++ b) = None) ->
  scan m 0 prev (a ++ b) = scan m 0 (prev_after prev a) b.
Proof.
  induction a as [| c a IH]; intros prev b H; [reflexivity |].
  assert (H0 : m prev (String c a ++ b) = None)
    by (apply (H prev "" (String c a) eq_refl); discriminate).
  change (String c a ++ b) with (String c (a ++ b)) in *.
  cbn [scan prev_after]. rewrite H0.
  apply IH. intros prev' a1 a2 -> Ha2. now apply (H prev' (String c a1) a2).
Qed.

Lemma scan_match m g occ post prev :
  m prev (occ ++ post) = Some (g, String.length occ) -> occ <> "" ->
  scan m 0 prev (occ ++ post) = g :: scan m 0 (prev_after prev occ) post.
Proof.
  destruct occ as [| c occ]; [congruence |]. intros Hm _.
  change (String c occ ++ post) with (String c (occ ++ post)) in *.
  cbn [scan prev_after]. rewrite Hm. f_equal.
  now apply scan_skip.
Qed.

Lemma scan_prev m s : forall k prev prev',
  (forall s', m prev s' = m prev' s') ->
  scan m k prev s = scan m k prev' s.
Proof.
  destruct s as [| c r]; intros k prev prev' H; simpl; [reflexivity |].
  destruct k; [now rewrite H | reflexivity].
Qed.

Lemma is_quote_cases c : is_quote c = true -> c = dquote \/ c = squote.
Proof.
  unfold is_quote. intros H. apply orb_true_iff in H.
  destruct H as [H | H]; apply Ascii.eqb_eq in H; auto.
Qed.

Lemma prev_after_app prev a c r :
  prev_after prev (a ++ String c r) = prev_after (Some c) r.
Proof. revert prev. induction a as [| x a IH]; intros prev; simpl; auto. Qed.

Lemma match_master_attr_before prev a2 rest :
  a2 <> "" -> contains_char dquote a2 = false -> contains_char squote a2 = false ->
  match_master_attr prev (a2 ++ "Master=" ++ rest) = None.
Proof.
  intros Hn Hd Hs. unfold match_master_attr.
  destruct (word_boundary _ _); [| reflexivity].
  destruct (strip_prefix _ _) as [[| q r] |] eqn:E; try reflexivity.
  destruct (is_quote q) eqn:Eq; [exfalso | reflexivity].
  apply strip_prefix_Some in E. apply is_quote_cases in Eq.
  destruct a2 as [| c1 [| c2 [| c3 [| c4 [| c5 [| c6 [| c7 [| c8 a2]]]]]]]];
    try congruence; cbn in E; try discriminate.
  - injection E as _ _ _ _ _ _ _ <- _. destruct Eq; discriminate.
  - injection E as _ _ _ _ _ _ _ -> _. cbn in Hd, Hs.
    destruct Eq as [-> | ->]; cbn in Hd, Hs;
      repeat match goal with
             | H : _ || _ = false |- _ => apply orb_false_iff in H; destruct H
             end; discriminate.
Qed.

(** ** Word boundaries *)

Lemma all_chars_excludes p c s :
  all_chars p s = true -> p c = false -> contains_char c s = false.
Proof.
  intros Hs Hc. induction s as [| x s IH]; simpl in *; [reflexivity |].
  apply andb_true_iff in Hs. destruct Hs as [Hx Hs]. rewrite (IH Hs), orb_false_r.
  apply Ascii.eqb_neq. intros ->. congruence.
Qed.

Lemma match_master_attr_head prev x r :
  x <> "M"%char -> match_master_attr prev (String x r) = None.
Proof.
  intros Hx. unfold match_master_attr. destruct (word_boundary _ _); [| reflexivity].
  cbn [strip_prefix]. destruct (Ascii.eqb "M" x) eqn:E; [| reflexivity].
  apply Ascii.eqb_eq in E. congruence.
Qed.

Lemma match_master_attr_inside prev a2 rest :
  a2 <> "" -> contains_char "M"%char a2 = false ->
  match_master_attr prev (a2 ++ rest) = None.
Proof.
  destruct a2 as [| x a2]; [congruence |]. intros _ H. cbn in H.
  apply orb_false_iff in H. destruct H as [H _].
  apply match_master_attr_head. intros ->. discriminate.
Qed.

(** X23. An attribute whose name only ends in [Master] is not a reference: when
    [Master=] directly follows a word character (as in [BaseMaster="5"]),
    and no quote stands before it, the pattern finds nothing in it and the
    matches are those of the text after the attribute. *)
Theorem master_attr_word_boundary pre c q digits q' post :
  is_word c = true ->
  contains_char dquote pre = false -> contains_char squote pre = false ->
  is_quote q = true -> is_quote q' = true ->
  all_chars is_digit digits = true ->
  master_attr_pattern_findall
    (pre ++ str c ++ "Master=" ++ str q ++ digits ++ str q' ++ post)
  = master_attr_pattern_findall post.
Proof.
  intros Hc Hd Hs Hq Hq' Hdig. unfold master_attr_pattern_findall.
  replace (pre ++ str c ++ "Master=" ++ str q ++ digits ++ str q' ++ post)
    with ((pre ++ str c)
          ++ "Master=" ++ (str q ++ digits ++ str q') ++ post)
    by (rewrite !append_assoc; reflexivity).
  assert (Hcq : Ascii.eqb c dquote = false /\ Ascii.eqb c squote = false).
  { split; apply Ascii.eqb_neq; intros ->; discriminate. }
  destruct Hcq as [Hc1 Hc2].
  rewrite scan_no_match.
  2:{ intros prev' a1 a2 Ha Ha2.
      assert (H2 : forall x, contains_char x (pre ++ str c) = false ->
                             contains_char x a2 = false).
      { intros x. rewrite Ha, contains_char_app. intros H.
        now apply orb_false_iff in H. }
      apply match_master_attr_before; [exact Ha2 | |]; apply H2;
        rewrite contains_char_app; cbn; rewrite ?Hd, ?Hs, ?Hc1, ?Hc2; reflexivity. }
  unfold str. rewrite prev_after_app. cbn [prev_after].
  change ("Master=" ++ (String q "" ++ digits ++ String q' "") ++ post)
    with (String "M" (("aster=" ++ String q (digits ++ String q' "")) ++ post)).
  cbn [scan].
  assert (Hb : match_master_attr (Some c)
                 (String "M" (("aster=" ++ String q (digits ++ String q' ""))
                              ++ post)) = None).
  { unfold match_master_attr, word_boundary. rewrite Hc. reflexivity. }
  rewrite Hb.
  rewrite scan_no_match.
  - replace ("aster=" ++ String q (digits ++ String q' ""))
      with (("aster=" ++ String q digits) ++ String q' "")
      by (rewrite !append_assoc; reflexivity).
    rewrite prev_after_app. cbn [prev_after].
    apply scan_prev. intros s'. unfold match_master_attr, word_boundary.
    destruct (is_quote_cases _ Hq') as [-> | ->]; reflexivity.
  - intros prev' a1 a2 Ha Ha2. apply match_master_attr_inside; [exact Ha2 |].
    assert (Hall : contains_char "M"%char
                     ("aster=" ++ String q (digits ++ String q' "")) = false).
    { cbn. rewrite contains_char_app.
      rewrite (all_chars_excludes is_digit "M"%char digits Hdig eq_refl). cbn.
      destruct (is_quote_cases _ Hq) as [-> | ->];
        destruct (is_quote_cases _ Hq') as [-> | ->]; reflexivity. }
    rewrite Ha, contains_char_app in Hall. now apply orb_false_iff in Hall.
Qed.

Lemma master_attr_word_boundary_witness :
  master_attr_pattern_findall
    ("<Shape " ++ str "X"%char ++ "Master=" ++ str dquote ++ "12" ++ str dquote
     ++ "/>")
  = master_attr_pattern_findall "/>".
Proof. apply master_attr_word_boundary; reflexivity. Defined.

(** ** References are found wherever they stand *)

(** Two ways of cutting one string. *)
Lemma append_eq_append (a b c d : string) :
  a ++ b = c ++ d ->
  (exists e, c = a ++ e /\ b = e ++ d) \/ (exists e, a = c ++ e /\ d = e ++ b).
Proof.
  revert c. induction a as [| x a IH]; intros c H.
  - left. exists c. auto.
  - destruct c as [| y c].
    + right. exists (String x a). auto.
    + cbn in H. injection H as -> H. destruct (IH c H) as [(e & -> & ->) | (e & -> & ->)].
      * left. exists e. auto.
      * right. exists e. auto.
Qed.

(** The first occurrence of a character cuts a string in one way only. *)
Lemma first_occurrence q a b c d :
  a ++ String q b = c ++ String q d ->
  contains_char q a = false -> contains_char q c = false ->
  a = c /\ b = d.
Proof.
  revert c. induction a as [| x a IH]; intros c H Ha Hc.
  - destruct c as [| y c]; cbn in H.
    + injection H as ->. auto.
    + injection H as <- _. cbn in Hc. now rewrite Ascii.eqb_refl in Hc.
  - destruct c as [| y c]; cbn in H.
    + injection H as -> _. cbn in Ha. now rewrite Ascii.eqb_refl in Ha.
    + injection H as -> H. cbn in Ha, Hc.
      apply orb_false_iff in Ha, Hc. destruct Ha as [_ Ha], Hc as [_ Hc].
      destruct (IH c H Ha Hc) as [-> ->]. auto.
Qed.

Lemma use_text_app name rest :
  use_text name rest = use_text name "" ++ rest.
Proof.
  unfold use_text. cbn. do 5 f_equal. rewrite append_assoc. reflexivity.
Qed.

Lemma use_text_quoted name rest :
  "USE(" ++ quoted name ++ ")" ++ rest = use_text name rest.
Proof. unfold use_text, quoted, str. cbn. now rewrite !append_assoc. Qed.

Lemma length_use_text name : String.length (use_text name "") = 7 + String.length name.
Proof. unfold use_text. cbn. rewrite length_append. cbn. lia. Qed.

Lemma append_nil_r (s : string) : s ++ "" = s.
Proof. induction s as [| c s IH]; cbn; [reflexivity | now rewrite IH]. Qed.

Lemma match_use_shape s g len :
  match_use s = Some (g, len) ->
  contains_char dquote g = false
  /\ exists rest, s = use_text g rest /\ len = 7 + String.length g.
Proof.
  intros H. apply match_use_Some in H. destruct H as (_ & Hg & rest & -> & ->).
  split; [exact Hg |]. exists rest. rewrite use_text_quoted. split; [reflexivity |].
  rewrite <- length_use_text, <- use_text_quoted, !length_append. cbn. lia.
Qed.

(** A match that ends with [e] cannot have [e] begin a reference whose name
    does not start with a closing parenthesis. *)
Lemma use_overlap g z e rest name post :
  contains_char dquote g = false ->
  name <> "" -> (forall r, name <> String ")" r) ->
  e <> "" ->
  g ++ String dquote ")" = z ++ e ->
  use_text name post = e ++ rest ->
  False.
Proof.
  intros Hg Hn Hp He H1 H2.
  destruct (append_eq_append _ _ _ _ H1) as [(y & -> & Hy) | (y & -> & ->)].
  - (* [e] begins inside the closing of the match *)
    destruct y as [| y1 [| y2 y]]; cbn in Hy.
    + subst e. discriminate.
    + injection Hy as <- <-. discriminate.
    + injection Hy as _ _ Hy. destruct y; [| discriminate].
      cbn in Hy. congruence.
  - (* [e] begins inside the name of the match *)
    rewrite contains_char_app in Hg. apply orb_false_iff in Hg.
    destruct Hg as [_ Hy]. unfold use_text in H2.
    rewrite append_assoc in H2. cbn [String.append] in H2.
    symmetry in H2.
    apply (first_occurrence dquote y _ "USE("
             (name ++ String dquote (String ")" post))) in H2;
      [| exact Hy | reflexivity].
    destruct H2 as [_ H2]. destruct name as [| c name]; [congruence |].
    cbn in H2. injection H2 as <- _. now apply (Hp name).
Qed.

Lemma match_use_within pre name post g len :
  pre <> "" -> name <> "" -> (forall r, name <> String ")" r) ->
  match_use (pre ++ use_text name post) = Some (g, len) ->
  len <= String.length pre.
Proof.
  intros Hpre Hn Hp H. apply match_use_shape in H.
  destruct H as (Hg & rest & H & ->).
  rewrite (use_text_app g rest) in H. rewrite <- length_use_text.
  destruct (append_eq_append _ _ _ _ H) as [(e & Hm & He) | (e & -> & _)].
  2:{ rewrite length_append. lia. }
  destruct e as [| e1 e]; [rewrite Hm, append_nil_r; lia |].
  exfalso. unfold use_text at 1 in Hm.
  destruct pre as [| p1 [| p2 [| p3 [| p4 [| p5 z]]]]]; try congruence;
    cbn in Hm; injection Hm; intros; subst; try discriminate.
  eapply (use_overlap g z (String e1 e)); try eassumption. discriminate.
Qed.

(** Matches that start before an occurrence end before it: the occurrence
    is reached with nothing left to skip. *)
Lemma scan_reaches m occ post g :
  occ <> "" ->
  forall pre,
    (forall prev a1 a2 found len,
       pre = a1 ++ a2 -> a2 <> "" ->
       m prev (a2 ++ occ ++ post) = Some (found, len) ->
       len <= String.length a2) ->
    forall k prev,
      k <= String.length pre ->
      m (prev_after prev pre) (occ ++ post) = Some (g, String.length occ) ->
      exists found,
        scan m k prev (pre ++ occ ++ post)
        = (found ++ g :: scan m 0 (prev_after prev (pre ++ occ)) post)%list.
Proof.
  intros Hne. induction pre as [| c pre IH]; intros Hpre k prev Hk Hocc.
  - cbn in Hk. assert (k = 0) by lia. subst k. exists []. cbn [String.append app].
    now apply scan_match.
  - assert (Hpre' : forall prev a1 a2 found len,
               pre = a1 ++ a2 -> a2 <> "" ->
               m prev (a2 ++ occ ++ post) = Some (found, len) ->
               len <= String.length a2).
    { intros prev' a1 a2 found len -> Ha2 Hm.
      now apply (Hpre prev' (String c a1) a2 found len). }
    change (String c pre ++ occ ++ post) with (String c (pre ++ occ ++ post)).
    change (prev_after prev (String c pre ++ occ))
      with (prev_after (Some c) (pre ++ occ)).
    change (prev_after prev (String c pre)) with (prev_after (Some c) pre) in Hocc.
    destruct k as [| k]; cbn [scan].
    + destruct (m prev (String c (pre ++ occ ++ post))) as [[found len] |] eqn:Em.
      * pose proof (Hpre prev "" (String c pre) found len eq_refl
                      ltac:(discriminate) Em) as Hlen.
        cbn in Hlen.
        destruct (IH Hpre' (Nat.pred len) (Some c) ltac:(lia) Hocc) as (l & ->).
        exists (found :: l). reflexivity.
      * apply (IH Hpre' 0 (Some c)); [lia | exact Hocc].
    + apply (IH Hpre' k (Some c)); [cbn in Hk; lia | exact Hocc].
Qed.

Lemma match_use_text name rest :
  name <> "" -> contains_char dquote name = false ->
  match_use (use_text name rest) = Some (name, 7 + String.length name).
Proof.
  intros Hn Hq. unfold match_use, use_text.
  change ("USE(" ++ String dquote (name ++ String dquote (String ")" rest)))
    with (("USE(" ++ str dquote) ++ name ++ String dquote (String ")" rest)).
  rewrite strip_prefix_app.
  rewrite (span_app _ name (String dquote (String ")" rest)));
    [| now apply all_chars_absent | reflexivity].
  apply nonempty_neq in Hn. rewrite Hn.
  change (startswith (String dquote (String ")" rest)) (str dquote ++ ")"))
    with (match strip_prefix "" rest with Some _ => true | None => false end).
  cbn. do 2 f_equal. lia.
Qed.

(** X21. A reference [USE("name")] is found wherever it stands: for every text
    before and after it, the name is among the matches, followed by exactly
    the matches of the text after it, provided the name is non-empty, has no
    double quote and does not begin with a closing parenthesis. *)
Theorem use_pattern_finds pre name post :
  name <> "" -> contains_char dquote name = false ->
  (forall r, name <> String ")" r) ->
  exists found,
    use_pattern_findall (pre ++ "USE(" ++ quoted name ++ ")" ++ post)
    = (found ++ name :: use_pattern_findall post)%list.
Proof.
  intros Hn Hq Hp. unfold use_pattern_findall.
  rewrite use_text_quoted, use_text_app.
  destruct (scan_reaches (fun _ => match_use) (use_text name "") post name)
    with (pre := pre) (k := 0) (prev := @None ascii) as (found & ->).
  - discriminate.
  - intros _ a1 a2 found len _ Ha2 Hm. rewrite <- use_text_app in Hm.
    now apply (match_use_within a2 name post found len).
  - lia.
  - rewrite <- use_text_app, length_use_text. now apply match_use_text.
  - exists found. f_equal. f_equal. now apply scan_prev.
Qed.

Lemma use_pattern_finds_witness :
  exists found,
    use_pattern_findall
      (("<Cell N=" ++ quoted "X" ++ " F='") ++ "USE(" ++ quoted "A" ++ ")" ++ "'/>")
    = (found ++ "A" :: use_pattern_findall "'/>")%list.
Proof.
  apply use_pattern_finds; [discriminate | reflexivity | discriminate].
Defined.

Lemma master_attr_text_app q digits q' rest :
  master_attr_text q digits q' rest = master_attr_text q digits q' "" ++ rest.
Proof.
  unfold master_attr_text. cbn. do 8 f_equal. now rewrite append_assoc.
Qed.

Lemma length_master_attr_text q digits q' :
  String.length (master_attr_text q digits q' "") = 9 + String.length digits.
Proof. unfold master_attr_text. cbn. rewrite length_append. cbn. lia. Qed.

Lemma match_master_attr_shape prev s g len :
  match_master_attr prev s = Some (g, len) ->
  exists q q' rest,
    s = master_attr_text q g q' rest /\ len = 9 + String.length g
    /\ is_quote q = true /\ is_quote q' = true
    /\ all_chars is_digit g = true.
Proof.
  unfold match_master_attr. destruct (word_boundary prev s); [| discriminate].
  destruct (strip_prefix "Master=" s) as [[| q r] |] eqn:Ep; try discriminate.
  destruct (is_quote q) eqn:Eq; [| discriminate].
  destruct (span is_digit r) as [a b] eqn:Es.
  destruct b as [| q' b]; [discriminate |].
  destruct (nonempty a) eqn:En; [| discriminate]. cbn [andb].
  destruct (is_quote q') eqn:Eq'; [| discriminate].
  intros [= <- <-]. exists q, q', b.
  destruct (span_spec _ _ _ _ Es) as (-> & Ha & _).
  apply strip_prefix_Some in Ep. subst s.
  repeat split; try assumption. lia.
Qed.

Lemma match_master_attr_within prev pre q digits q' post g len :
  pre <> "" ->
  match_master_attr prev (pre ++ master_attr_text q digits q' post)
  = Some (g, len) ->
  len <= String.length pre.
Proof.
  intros Hpre H. apply match_master_attr_shape in H.
  destruct H as (q1 & q1' & rest & H & -> & Hq1 & Hq1' & Hg).
  rewrite (master_attr_text_app q1 g q1' rest) in H.
  rewrite <- (length_master_attr_text q1 g q1').
  destruct (append_eq_append _ _ _ _ H) as [(e & Hm & He) | (e & -> & _)].
  2:{ rewrite length_append. lia. }
  destruct e as [| e1 e]; [rewrite Hm, append_nil_r; lia |].
  exfalso. unfold master_attr_text in He. cbn in He. injection He as <- _.
  destruct pre as [| p1 pre]; [congruence |].
  unfold master_attr_text in Hm. cbn in Hm. injection Hm as _ Hm.
  assert (Hno : contains_char "M"%char (pre ++ String "M" e) = false).
  { rewrite <- Hm. cbn. rewrite contains_char_app.
    rewrite (all_chars_excludes is_digit "M"%char g Hg eq_refl). cbn.
    destruct (is_quote_cases _ Hq1) as [-> | ->];
      destruct (is_quote_cases _ Hq1') as [-> | ->]; reflexivity. }
  rewrite contains_char_app in Hno. cbn in Hno.
  now rewrite orb_true_r in Hno.
Qed.

Lemma match_master_attr_text prev q digits q' rest :
  match prev with Some c => is_word c = false | None => True end ->
  is_quote q = true -> is_quote q' = true ->
  digits <> "" -> all_chars is_digit digits = true ->
  match_master_attr prev (master_attr_text q digits q' rest)
  = Some (digits, 9 + String.length digits).
Proof.
  intros Hprev Hq Hq' Hn Hd. unfold match_master_attr, master_attr_text.
  assert (Hb : word_boundary prev
                 ("Master=" ++ String q (digits ++ String q' rest)) = true).
  { unfold word_boundary. destruct prev as [c |]; [rewrite Hprev |]; reflexivity. }
  rewrite Hb, strip_prefix_app, Hq.
  rewrite (span_app is_digit digits (String q' rest) Hd).
  - apply nonempty_neq in Hn. rewrite Hn, Hq'. cbn [andb]. do 2 f_equal. lia.
  - destruct (is_quote_cases _ Hq') as [-> | ->]; reflexivity.
Qed.

(** X22. An attribute [Master=] with a quoted string of digits is found wherever
    it stands, provided the character before it, if any, is not a word
    character: the digits are among the matches, followed by exactly the
    matches of the text after it.  Either quote may open and either may close. *)
Theorem master_attr_finds pre q digits q' post :
  match prev_after None pre with
  | Some c => is_word c = false
  | None => True
  end ->
  is_quote q = true -> is_quote q' = true ->
  digits <> "" -> all_chars is_digit digits = true ->
  exists found,
    master_attr_pattern_findall
      (pre ++ "Master=" ++ str q ++ digits ++ str q' ++ post)
    = (found ++ digits :: master_attr_pattern_findall post)%list.
Proof.
  intros Hprev Hq Hq' Hn Hd. unfold master_attr_pattern_findall.
  change ("Master=" ++ str q ++ digits ++ str q' ++ post)
    with (master_attr_text q digits q' post).
  rewrite master_attr_text_app.
  destruct (scan_reaches match_master_attr (master_attr_text q digits q' "")
              post digits)
    with (pre := pre) (k := 0) (prev := @None ascii) as (found & ->).
  - discriminate.
  - intros prev a1 a2 found len _ Ha2 Hm.
    rewrite <- master_attr_text_app in Hm.
    now apply (match_master_attr_within prev a2 q digits q' post found len).
  - lia.
  - rewrite <- master_attr_text_app, length_master_attr_text.
    now apply match_master_attr_text.
  - exists found. f_equal. f_equal.
    unfold master_attr_text.
    replace (pre ++ "Master=" ++ String q (digits ++ String q' ""))
      with ((pre ++ "Master=" ++ String q digits) ++ String q' "")
      by (rewrite append_assoc; reflexivity).
    rewrite prev_after_app. cbn [prev_after].
    apply scan_prev. intros s'. unfold match_master_attr, word_boundary.
    destruct (is_quote_cases _ Hq') as [-> | ->]; reflexivity.
Qed.

Lemma master_attr_finds_witness :
  exists found,
    master_attr_pattern_findall
      (("<Shape ID=" ++ quoted "5" ++ " ")
       ++ "Master=" ++ str squote ++ "12" ++ str dquote ++ "/>")
    = (found ++ "12" :: master_attr_pattern_findall "/>")%list.
Proof.
  apply master_attr_finds; try reflexivity. discriminate.
Defined.

(** ** The page files *)



(** X25. When [pages.xml.rels] is missing or is not well-formed XML,
    [_get_page_files] raises nothing and returns the files [page*.xml] of the
    pages directory. *)
Theorem pages_rels_unusable rt t pages_dir :
  dict_get t (pages_rels_of pages_dir) = None
  \/ (exists f why, dict_get t (pages_rels_of pages_dir) = Some (FileNode f)
                    /\ f_xml f = Malformed why) ->
  _get_page_files rt t pages_dir
  = Ok (map (joinpath pages_dir) (glob rt t pages_dir "page" ".xml")).
Proof.
  unfold _get_page_files. fold (pages_rels_of pages_dir).
  intros [Hn | (f & why & Hf & Hx)].
  - unfold exists_, dict_mem. rewrite Hn. reflexivity.
  - unfold exists_, dict_mem, _parse_xml_file, ET_parse. rewrite Hf, Hx.
    reflexivity.
Qed.

Lemma pages_rels_unusable_witness :
  _get_page_files plain_runtime demo_tree (pages_dir _make_vsdx_paths)
  = Ok (map (joinpath (pages_dir _make_vsdx_paths))
            (glob plain_runtime demo_tree (pages_dir _make_vsdx_paths)
                  "page" ".xml")).
Proof. apply pages_rels_unusable. left. reflexivity. Defined.

(** ** What a passed validation guarantees *)

Lemma append_not_nil {A} (l : list A) x : append l x <> [].
Proof. unfold append. destruct l; discriminate. Qed.

Lemma check_required_files_nil t p e :
  check_required_files t p e = [] ->
  e = [] /\ exists_ t (rels_path p) = true /\ exists_ t (pages_dir p) = true.
Proof.
  unfold check_required_files.
  destruct (exists_ t (rels_path p)), (exists_ t (pages_dir p)); cbn [negb];
    intros H; try (now apply append_not_nil in H). auto.
Qed.

Lemma check_namespace_nil root e :
  check_namespace root e = [] ->
  e = [] /\ (_get_namespace root = "" \/ _get_namespace root = VISIO_NS).
Proof.
  unfold check_namespace.
  destruct (nonempty (_get_namespace root)) eqn:En.
  - destruct (String.eqb (_get_namespace root) VISIO_NS) eqn:Eq; cbn [negb andb];
      intros H; [| now apply append_not_nil in H].
    apply String.eqb_eq in Eq. auto.
  - cbn [andb]. intros ->. split; [reflexivity |]. left.
    destruct (_get_namespace root); [reflexivity | discriminate].
Qed.

Lemma set_diff_nil a b : set_diff a b = [] -> forall x, In x a -> In x b.
Proof.
  intros H x Hin. destruct (set_mem x b) eqn:E; [now apply set_mem_In |].
  assert (Hx : In x (set_diff a b))
    by (apply set_diff_In; split; [exact Hin | now apply set_mem_false]).
  rewrite H in Hx. contradiction.
Qed.

Lemma check_sample_nil rt ms e :
  check_sample rt ms e = [] ->
  e = [] /\ forall sample rest, ms = sample :: rest -> sample_wellformed sample.
Proof.
  unfold check_sample. destruct ms as [| sample rest].
  - intros ->. split; [reflexivity | discriminate].
  - cbv zeta.
    destruct (is_empty (set_diff required_attrs (set_of (keys (attrib sample)))))
      eqn:Em; cbn [negb].
    2:{ destruct (find sample _) as [rel |];
          [| intros H; now apply append_not_nil in H].
        destruct (negb _ && negb _).
        - destruct (filter _ _); intros H; now apply append_not_nil in H.
        - intros H; now apply append_not_nil in H. }
    destruct (find sample _) as [rel |] eqn:Ef;
      [| intros H; now apply append_not_nil in H].
    destruct (dict_mem (qname REL_NS "id") (attrib rel)) eqn:E1;
      destruct (dict_mem "r:id" (attrib rel)) eqn:E2; cbn [negb andb];
        try (destruct (filter _ _); intros H; now apply append_not_nil in H);
        intros ->; (split; [reflexivity |]); intros s r [= <- <-];
        (assert (Hd : set_diff required_attrs (set_of (keys (attrib sample))) = [])
          by (destruct (set_diff _ _); [reflexivity | discriminate]));
        pose proof (set_diff_nil _ _ Hd) as Hall;
        (split; [apply dict_mem_In, set_of_In, Hall; simpl; auto |]);
        (split; [apply dict_mem_In, set_of_In, Hall; simpl; auto |]);
        exists rel; (split; [exact Ef | auto]).
Qed.

Lemma check_rels_file_nil t p e ids :
  exists_ t (rels_path p) = true ->
  check_rels_file t p e = Ok ([], ids) ->
  e = [] /\ exists rels_root,
              _parse_xml_file t (rels_path p) = Ok rels_root
              /\ (_get_namespace rels_root = ""
                  \/ _get_namespace rels_root = PKG_REL_NS)
              /\ ids = collect_rels_ids rels_root.
Proof.
  intros He. unfold check_rels_file. rewrite He. intros H.
  apply bindR_Ok in H. destruct H as (rroot & Hp & H). cbv zeta in H.
  destruct (nonempty (_get_namespace rroot)) eqn:En.
  - destruct (String.eqb (_get_namespace rroot) PKG_REL_NS) eqn:Eq;
      cbn [negb andb] in H.
    + injection H as -> <-. apply String.eqb_eq in Eq. eauto 6.
    + injection H as H _. now apply append_not_nil in H.
  - cbn [andb] in H. injection H as -> <-. split; [reflexivity |].
    exists rroot. split; [exact Hp |]. split; [| reflexivity]. left.
    destruct (_get_namespace rroot); [reflexivity | discriminate].
Qed.

Lemma integrity_error_nil ids master :
  integrity_error ids master = [] -> resolves ids master.
Proof.
  unfold integrity_error, resolves. intros H rel Hf. rewrite Hf in H.
  cbv zeta in H.
  destruct (nonempty (_get_rel_id (Some rel))) eqn:En.
  - destruct (set_mem (_get_rel_id (Some rel)) ids) eqn:Em;
      cbn [negb andb] in H; [| discriminate].
    right. now apply set_mem_In.
  - left. destruct (_get_rel_id (Some rel)); [reflexivity | discriminate].
Qed.

Lemma check_integrity_nil ms ids e :
  check_integrity ms ids e = [] ->
  e = [] /\ (ids <> [] -> forall master, In master ms -> resolves ids master).
Proof.
  unfold check_integrity, extend.
  destruct ms as [| m ms]; cbn [is_empty negb andb].
  - intros ->. split; [reflexivity |]. intros _ ? [].
  - destruct ids as [| i ids]; cbn [is_empty negb andb].
    + intros ->. split; [reflexivity |]. congruence.
    + intros H. apply app_eq_nil in H. destruct H as [-> H].
      split; [reflexivity |]. intros _ master Hin.
      apply integrity_error_nil.
      destruct (integrity_error (i :: ids) master) as [| x l] eqn:E;
        [reflexivity |].
      assert (Hx : In x (flat_map (integrity_error (i :: ids)) (m :: ms)))
        by (apply in_flat_map; exists master; split; [exact Hin |];
            rewrite E; now left).
      rewrite H in Hx. contradiction.
Qed.

Lemma validation_passed rt t :
  exists_ t (masters_xml _make_vsdx_paths) = true ->
  _validate_vsdx_structure rt t _make_vsdx_paths = Ok tt ->
  validation_errors rt t _make_vsdx_paths = Ok [].
Proof.
  intros He H. unfold _validate_vsdx_structure in H. rewrite He in H.
  cbn [negb] in H.
  destruct (validation_errors rt t _make_vsdx_paths) as [errors | e];
    [| discriminate].
  cbn [bindR] in H. destruct errors as [| x l]; [reflexivity | discriminate].
Qed.

(** The errors found before the relationship index is read. *)
Lemma early_errors_nil rt t root e3 ids :
  check_rels_file t _make_vsdx_paths
    (check_sample rt (findall root (qname VISIO_NS "Master"))
       (check_namespace root (check_required_files t _make_vsdx_paths [])))
  = Ok (e3, ids) ->
  e3 = [] ->
  exists_ t (rels_path _make_vsdx_paths) = true
  /\ exists_ t (pages_dir _make_vsdx_paths) = true
  /\ (_get_namespace root = "" \/ _get_namespace root = VISIO_NS)
  /\ (forall sample rest,
        findall root (qname VISIO_NS "Master") = sample :: rest ->
        sample_wellformed sample)
  /\ exists rels_root,
       _parse_xml_file t (rels_path _make_vsdx_paths) = Ok rels_root
       /\ (_get_namespace rels_root = "" \/ _get_namespace rels_root = PKG_REL_NS)
       /\ ids = collect_rels_ids rels_root.
Proof.
  intros Hrels ->.
  remember (check_sample rt (findall root (qname VISIO_NS "Master"))
              (check_namespace root (check_required_files t _make_vsdx_paths [])))
    as e2 eqn:E2.
  destruct (exists_ t (rels_path _make_vsdx_paths)) eqn:Er.
  - destruct (check_rels_file_nil _ _ _ _ Er Hrels) as (E & Hrr).
    rewrite E in E2. symmetry in E2.
    apply check_sample_nil in E2. destruct E2 as (E2 & Hs).
    apply check_namespace_nil in E2. destruct E2 as (E2 & Hns).
    apply check_required_files_nil in E2. destruct E2 as (_ & _ & Hp).
    auto.
  - exfalso. unfold check_rels_file in Hrels. rewrite Er in Hrels.
    injection Hrels as E _. rewrite E in E2. symmetry in E2.
    apply check_sample_nil in E2. destruct E2 as (E2 & _).
    apply check_namespace_nil in E2. destruct E2 as (E2 & _).
    apply check_required_files_nil in E2. destruct E2 as (_ & Hr & _).
    congruence.
Qed.

(** X26. When [_validate_vsdx_structure] passes on a tree with a catalog, then the
    relationships file and the pages directory exist, both documents parse,
    the namespace of each root is empty or the expected one, the first
    [Master] has an [ID], a [NameU] and a [Rel] child with an [r:id], and,
    when the relationships file defines any id, every [Master] whose [Rel]
    child carries a non-empty relationship id refers to a defined id (a
    [Rel] child without an id, or with an empty one, passes). *)
Theorem validated_structure rt t :
  exists_ t (masters_xml _make_vsdx_paths) = true ->
  _validate_vsdx_structure rt t _make_vsdx_paths = Ok tt ->
  exists_ t (rels_path _make_vsdx_paths) = true
  /\ exists_ t (pages_dir _make_vsdx_paths) = true
  /\ exists root rels_root,
       _parse_xml_file t (masters_xml _make_vsdx_paths) = Ok root
       /\ _parse_xml_file t (rels_path _make_vsdx_paths) = Ok rels_root
       /\ (_get_namespace root = "" \/ _get_namespace root = VISIO_NS)
       /\ (_get_namespace rels_root = "" \/ _get_namespace rels_root = PKG_REL_NS)
       /\ (forall sample rest,
             findall root (qname VISIO_NS "Master") = sample :: rest ->
             sample_wellformed sample)
       /\ (collect_rels_ids rels_root <> [] ->
           forall master, In master (findall root (qname VISIO_NS "Master")) ->
                          resolves (collect_rels_ids rels_root) master).
Proof.
  intros He H. pose proof (validation_passed _ _ He H) as Ev.
  unfold validation_errors in Ev.
  apply bindR_Ok in Ev. destruct Ev as (root & Hroot & Ev).
  apply bindR_Ok in Ev. destruct Ev as ([e3 ids] & Hrels & Ev).
  injection Ev as Ev.
  apply check_integrity_nil in Ev. destruct Ev as [E3 Hint].
  destruct (early_errors_nil _ _ _ _ _ Hrels E3)
    as (Hr & Hp & Hns & Hs & rroot & Hrr & Hrns & ->).
  split; [exact Hr |]. split; [exact Hp |].
  exists root, rroot. auto 10.
Qed.

Lemma validated_structure_witness :
  exists_ demo_tree (rels_path _make_vsdx_paths) = true
  /\ exists_ demo_tree (pages_dir _make_vsdx_paths) = true
  /\ exists root rels_root,
       _parse_xml_file demo_tree (masters_xml _make_vsdx_paths) = Ok root
       /\ _parse_xml_file demo_tree (rels_path _make_vsdx_paths) = Ok rels_root
       /\ (_get_namespace root = "" \/ _get_namespace root = VISIO_NS)
       /\ (_get_namespace rels_root = ""
           \/ _get_namespace rels_root = PKG_REL_NS)
       /\ (forall sample rest,
             findall root (qname VISIO_NS "Master") = sample :: rest ->
             sample_wellformed sample)
       /\ (collect_rels_ids rels_root <> [] ->
           forall master, In master (findall root (qname VISIO_NS "Master")) ->
                          resolves (collect_rels_ids rels_root) master).
Proof.
  apply (validated_structure plain_runtime demo_tree); vm_compute; reflexivity.
Defined.


(** ** The exceptions of an analysis *)



Lemma _parse_xml_file_ET t path root :
  _parse_xml_file t path = Ok root -> ET_parse t path = Ok root.
Proof.
  unfold _parse_xml_file. destruct (ET_parse t path) as [r | []]; congruence.
Qed.









(** ** The exceptions of a run *)











(** ** Runs that succeed *)








Lemma parent_exists_set rt (files : dict HostFile) k f dst :
  parent_exists rt files dst = true ->
  parent_exists rt (dict_set files k f) dst = true.
Proof.
  unfold parent_exists. intros H. apply orb_true_iff in H.
  apply orb_true_iff. destruct H as [H | H]; [left | now right].
  apply existsb_exists in H. destruct H as (x & Hin & Hx).
  apply existsb_exists. exists x. split; [| exact Hx].
  apply dict_set_keys. now left.
Qed.











(** ** Files a run does not touch *)






(** ** Catalogs that cannot be used *)

(** X27. When [masters.xml] of a [.vsdx] zip archive is not well-formed XML with
    parser message [why], [analyze_vsdx] and [shrink_vsdx] both raise
    [VsdxFormatError] with the message [Invalid XML in masters.xml: why]. *)
Theorem malformed_catalog rt input_path output_path backup w size content f why :
  dict_get (host w) (path_str input_path) = Some (ZipFile size content) ->
  lower (suffix input_path) = ".vsdx" ->
  dict_get content (masters_xml _make_vsdx_paths) = Some (FileNode f) ->
  f_xml f = Malformed why ->
  let e := VsdxFormatError ("Invalid XML in masters.xml: " ++ why) in
  exists w1 w2,
    analyze_vsdx rt input_path w = (Raise e, w1)
    /\ shrink_vsdx rt input_path output_path backup w = (Raise e, w2).
Proof.
  intros Hh Hs Hf Hx e.
  assert (He : exists_ content (masters_xml _make_vsdx_paths) = true)
    by (unfold exists_; now apply (dict_get_mem _ _ _ Hf)).
  assert (Hv : _validate_vsdx_structure rt content _make_vsdx_paths = Raise e).
  { unfold _validate_vsdx_structure. rewrite He. cbn [negb].
    unfold validation_errors, _parse_xml_file, ET_parse. rewrite Hf, Hx.
    reflexivity. }
  eexists. eexists. split.
  - rewrite analyze_vsdx_eq, (dict_get_mem _ _ _ Hh), Hs, Hh.
    now rewrite (analyze_extracted_invalid _ _ _ He Hv).
  - now apply (shrink_vsdx_invalid _ _ _ _ _ size content).
Qed.

Lemma malformed_catalog_witness :
  exists w1 w2,
    analyze_vsdx plain_runtime broken_path broken_world
    = (Raise (VsdxFormatError
                "Invalid XML in masters.xml: no element found: line 1, column 0"),
       w1)
    /\ shrink_vsdx plain_runtime broken_path None true broken_world
       = (Raise (VsdxFormatError
                   "Invalid XML in masters.xml: no element found: line 1, column 0"),
          w2).
Proof.
  exact (malformed_catalog plain_runtime broken_path None true broken_world
           300 broken_tree _ _ eq_refl eq_refl eq_refl eq_refl).
Defined.

(** X28. When the catalog parses and both the relationships file and the pages
    directory are missing, the validator reports both, the relationships
    file first, in one [VsdxFormatError]: it does not stop at the first
    error. *)
Theorem missing_parts_reported rt t root :
  _parse_xml_file t (masters_xml _make_vsdx_paths) = Ok root ->
  exists_ t (rels_path _make_vsdx_paths) = false ->
  exists_ t (pages_dir _make_vsdx_paths) = false ->
  exists errors,
    validation_errors rt t _make_vsdx_paths = Ok errors
    /\ firstn 2 errors = ["Missing relationships file: masters.xml.rels";
                          "Missing pages directory"]
    /\ _validate_vsdx_structure rt t _make_vsdx_paths
       = Raise (VsdxFormatError (validation_message errors)).
Proof.
  intros Hroot Hr Hp.
  set (first_two := ["Missing relationships file: masters.xml.rels";
                     "Missing pages directory"]).
  assert (H0 : check_required_files t _make_vsdx_paths [] = first_two).
  { unfold check_required_files. rewrite Hr, Hp. reflexivity. }
  assert (Hv : exists tail,
             validation_errors rt t _make_vsdx_paths
             = Ok (first_two ++ tail)%list).
  { unfold validation_errors. rewrite Hroot. cbn [bindR]. rewrite H0.
    unfold check_rels_file. rewrite Hr. cbn [bindR].
    destruct (check_namespace_app root first_two) as (a1 & ->).
    destruct (check_sample_app rt (findall root (qname VISIO_NS "Master"))
                (first_two ++ a1)%list) as (a2 & ->).
    destruct (check_integrity_app (findall root (qname VISIO_NS "Master")) []
                ((first_two ++ a1) ++ a2)%list) as (a3 & ->).
    exists ((a1 ++ a2) ++ a3)%list. now rewrite <- !app_assoc. }
  destruct Hv as (tail & Hv). eexists. split; [exact Hv |].
  split; [reflexivity |].
  apply raise_nonempty; [eapply _parse_xml_file_exists, Hroot | exact Hv |].
  discriminate.
Qed.

Lemma missing_parts_reported_witness :
  exists errors,
    validation_errors plain_runtime stripped_tree _make_vsdx_paths = Ok errors
    /\ firstn 2 errors = ["Missing relationships file: masters.xml.rels";
                          "Missing pages directory"]
    /\ _validate_vsdx_structure plain_runtime stripped_tree _make_vsdx_paths
       = Raise (VsdxFormatError (validation_message errors)).
Proof.
  refine (missing_parts_reported plain_runtime stripped_tree _ _ eq_refl eq_refl).
  vm_compute. reflexivity.
Defined.

(** ** The command line *)

Lemma main_try_inv rt py args w r w' :
  main_try rt py args w = (r, w') ->
  if analyze args then
    exists r0, analyze_vsdx rt (input args) w = (r0, w')
               /\ match r0 with
                  | Ok result =>
                      r = Ok (if negb (quiet args)
                              then _print_analysis py (path_str (input args)) result
                              else [])
                  | Raise e => r = Raise e
                  end
  else
    exists r0, shrink_vsdx rt (input args) (output args) (negb (no_backup args)) w
               = (r0, w')
               /\ match r0 with
                  | Ok result =>
                      r = Ok (if negb (quiet args)
                              then _print_shrink_result py (path_str (input args))
                                                        result
                              else [])
                  | Raise e => r = Raise e
                  end.
Proof.
  unfold main_try, bind, ret. destruct (analyze args).
  - destruct (analyze_vsdx _ _ _) as [[result | e] w1];
      intros [= <- <-]; eexists; split; reflexivity.
  - destruct (shrink_vsdx _ _ _ _ _) as [[result | e] w1];
      intros [= <- <-]; eexists; split; reflexivity.
Qed.

Lemma main_inv rt py args w code out w' :
  main rt py args w = (code, out, w') ->
  exists r, main_try rt py args w = (r, w')
            /\ match r with
               | Ok printed => code = 0 /\ out = mkConsole printed []
               | Raise (VsdxFormatError msg) =>
                   code = 2 /\ out = mkConsole [] ["Format error: " ++ msg]
               | Raise e => code = 1 /\ out = mkConsole [] ["Error: " ++ exn_str py e]
               end.
Proof.
  unfold main. destruct (main_try rt py args w) as [[printed | e] w1]; [| intros H].
  - intros [= <- <- <-]. exists (Ok printed). repeat split.
  - exists (Raise e). destruct e; injection H as <- <- <-; repeat split.
Qed.

(** X3. [analyze_vsdx] never changes a file of the host, whatever it returns or
    raises; hence [main] with [--analyze] leaves every host file as it was,
    for every exit status. *)
Theorem analysis_reads_only rt py :
  (forall vsdx_path w r w',
     analyze_vsdx rt vsdx_path w = (r, w') -> host w' = host w)
  /\ (forall args w code out w',
        analyze args = true ->
        main rt py args w = (code, out, w') -> host w' = host w).
Proof.
  split.
  - intros vsdx_path w r w'. apply analyze_vsdx_host.
  - intros args w code out w' Ha H.
    apply main_inv in H. destruct H as (r & H & _).
    apply main_try_inv in H. rewrite Ha in H. destruct H as (r0 & H & _).
    now apply analyze_vsdx_host in H.
Qed.

Lemma analysis_reads_only_witness :
  exists code out w',
    main plain_runtime plain_printer analyze_quietly demo_world = (code, out, w')
    /\ host w' = host demo_world.
Proof.
  eexists. eexists. eexists.
  assert (H : main plain_runtime plain_printer analyze_quietly demo_world
              = (?[code], ?[out], ?[w'])) by (vm_compute; reflexivity).
  split; [exact H |].
  exact (proj2 (analysis_reads_only plain_runtime plain_printer)
           analyze_quietly demo_world _ _ _ eq_refl H).
Defined.



(** X29. [main] returns 0, 1 or 2.  With 0 nothing is printed to the error
    stream, and the output stream is empty exactly when [--quiet] is given.
    With 1 or 2 there is exactly one call of [print] to the error stream,
    with one message (which may span several lines). *)
Theorem main_streams rt py args w code out w' :
  main rt py args w = (code, out, w') ->
  (code = 0 /\ stderr out = []
   /\ (quiet args = true -> stdout out = [])
   /\ (quiet args = false -> stdout out <> []))
  \/ ((code = 1 \/ code = 2) /\ exists message, stderr out = [message]).
Proof.
  intros H. apply main_inv in H. destruct H as (r & H & Hr).
  destruct r as [printed | e].
  - left. destruct Hr as (-> & ->). split; [reflexivity |].
    split; [reflexivity |]. cbn [stdout].
    apply main_try_inv in H.
    assert (Hp : exists body, body <> []
                              /\ printed = if negb (quiet args) then body else []).
    { destruct (analyze args); destruct H as ([result | e] & _ & H);
        try discriminate H.
      - injection H as H. eexists. split; [| exact H].
        unfold _print_analysis. cbv zeta. unfold append, extend.
        destruct (negb (is_empty _)); [destruct (Nat.ltb _ _) |];
          cbn [app]; discriminate.
      - injection H as H. eexists. split; [| exact H]. discriminate. }
    destruct Hp as (body & Hb & ->).
    split; [now intros -> | intros ->; exact Hb].
  - right. destruct e; destruct Hr as (-> & ->); cbn [stdout stderr]; eauto 6.
Qed.

Lemma main_streams_witness :
  exists code out w',
    main plain_runtime plain_printer shrink_in_place demo_world = (code, out, w')
    /\ code = 0 /\ stderr out = [] /\ List.length (stdout out) = 6.
Proof.
  eexists. eexists. eexists.
  assert (H : main plain_runtime plain_printer shrink_in_place demo_world
              = (?[code], ?[out], ?[w'])) by (vm_compute; reflexivity).
  split; [exact H |].
  destruct (main_streams _ _ _ _ _ _ _ H) as [(Hc & He & _) | ([Hc | Hc] & _)];
    try discriminate Hc.
  split; [exact Hc |]. split; [exact He | reflexivity].
Defined.

(** X1. When the input path does not exist, [analyze_vsdx] and [shrink_vsdx] raise
    [FileNotFoundError] with the message [File not found: <path>] before any
    effect (no backup, no temporary directory: the world is the one they
    started in), and [main] prints [Error: File not found: <path>] to the
    error stream only and returns 1. *)
Theorem missing_input rt py input_path output_path backup w :
  dict_get (host w) (path_str input_path) = None ->
  let e := FileNotFoundError ("File not found: " ++ path_str input_path) in
  analyze_vsdx rt input_path w = (Raise e, w)
  /\ shrink_vsdx rt input_path output_path backup w = (Raise e, w)
  /\ forall args,
       input args = input_path ->
       main rt py args w
       = (1, mkConsole [] ["Error: File not found: " ++ path_str input_path], w).
Proof.
  intros Hn e.
  assert (Hm : dict_mem (path_str input_path) (host w) = false)
    by (unfold dict_mem; now rewrite Hn).
  assert (Ha : analyze_vsdx rt input_path w = (Raise e, w))
    by (rewrite analyze_vsdx_eq, Hm; reflexivity).
  assert (Hsh : forall o b, shrink_vsdx rt input_path o b w = (Raise e, w))
    by (intros o b; unfold shrink_vsdx, bind, _validate_vsdx_path;
        rewrite Hm; reflexivity).
  split; [exact Ha |]. split; [apply Hsh |].
  intros args <-. unfold main, main_try, bind.
  destruct (analyze args); [rewrite Ha | rewrite Hsh]; reflexivity.
Qed.

Lemma missing_input_witness :
  analyze_vsdx plain_runtime demo_path empty_world
  = (Raise (FileNotFoundError "File not found: demo.vsdx"), empty_world)
  /\ main plain_runtime plain_printer shrink_in_place empty_world
     = (1, mkConsole [] ["Error: File not found: demo.vsdx"], empty_world).
Proof.
  destruct (missing_input plain_runtime plain_printer demo_path None true
              empty_world eq_refl) as (Ha & _ & Hm).
  split; [exact Ha | exact (Hm shrink_in_place eq_refl)].
Defined.

(** X30. [_print_analysis] calls [print] at most [7 + MAX_DISPLAY_ITEMS]
    times; each of the first [MAX_DISPLAY_ITEMS] unused names is printed by
    a call of its own, indented by four spaces; and when there are more, the
    last call prints [    ... and N more] with [N] the number of names not
    shown. *)
Theorem print_analysis_bounded py input_path result :
  List.length (_print_analysis py input_path result) <= 7 + MAX_DISPLAY_ITEMS
  /\ (forall name,
        In name (firstn MAX_DISPLAY_ITEMS (unused_names result)) ->
        In ("    " ++ name) (_print_analysis py input_path result))
  /\ (MAX_DISPLAY_ITEMS < List.length (unused_names result) ->
      last (_print_analysis py input_path result) ""
      = "    ... and "
        ++ str_nat (List.length (unused_names result) - MAX_DISPLAY_ITEMS)
        ++ " more").
Proof.
  unfold _print_analysis. cbv zeta.
  destruct (unused_names result) as [| u us] eqn:Eu.
  - cbn. split; [lia |]. split; [intros name [] | lia].
  - cbn [is_empty negb]. unfold append, extend.
    destruct (Nat.ltb MAX_DISPLAY_ITEMS (List.length (u :: us))) eqn:El.
    + split; [| split].
      * rewrite !length_app, length_map, length_firstn. cbn [List.length]. lia.
      * intros name Hin. apply in_or_app. left. apply in_or_app. right.
        now apply in_map.
      * intros _. apply last_last.
    + apply Nat.ltb_ge in El. split; [| split].
      * rewrite !length_app, length_map, length_firstn. cbn [List.length]. lia.
      * intros name Hin. apply in_or_app. right. now apply in_map.
      * lia.
Qed.
